(** * Price-rule debugger: the rule parser and the booking evaluator

    A shallow embedding of the rule-matching engine of the price-rule
    debugger ([src/App.jsx], [src/utils/ruleUtils.js]):

    - [parseXmlRules]            XML document -> array of rule objects
    - [isBookingAllowedByRule]   one rule against one booking
    - [highlightedRuleIds]       the ids highlighted for a list of bookings
    - [handleFetchFromAPI]       merging of the per-season batches

    and of the state of the application around it:

    - [handleAddToHistory]       the search history
    - [updateEntry], [addEntry], [removeEntry]   the rows of the form
    - [ruleYears], [handleRulesLoaded], [navigateMonth]   the year and
                                 the month shown
    - [Timeline]                 the view range, the ticks, the rows with
                                 their bars and shadows, the creation line
    - [handleFileChange], [handleFetchFromAPI]   the two loaders

    The browser and [date-fns] are the platform the code runs on.  Their
    values (numbers, strings, [Date], DOM nodes) are modelled in the modules
    [JS], [DateFns] and [Dom]; the functions whose result the code only
    passes on ([DOMParser], [XMLSerializer], [parseFloat], [parseISO], the
    HTTP request) are section variables, so every statement holds for each
    behaviour they may have.  A call that may throw returns a
    [JS.completion].

    Limits of the platform model: integers are exact (a numeral that
    JavaScript would round, or read as [Infinity], keeps its value);
    strings are sequences of code units below 256; the local time zone has
    a fixed offset; an element carries its qualified name, from which its
    local name is read, and no namespace URI (the code reads none). *)

From Stdlib Require Import ZArith List Bool Lia.
From Stdlib Require Import Strings.String Strings.Ascii.
From Stdlib Require Import Floats.PrimFloat.
Import ListNotations.

Local Open Scope Z_scope.

Set Warnings "-register-all".

(* ================================================================== *)
(** ** JavaScript values *)
(* ================================================================== *)

Module JS.

(** The numbers the engine computes with come from [parseInt(_, 10)],
    from [differenceInCalendarDays] and from [Date.prototype.getDay]: they
    are integers, or [NaN].  Integers are kept exact: there is no
    rounding above [2^53] and no [Infinity]. *)
Inductive number : Type :=
| NaN
| Num (z : Z).

(** An exception value: the constructor name and the message. *)
Inductive exn : Type :=
| Exn (name message : string).

(** A completion: the call returns a value, or throws. *)
Inductive completion (A : Type) : Type :=
| Normal (a : A)
| Throw (e : exn).
Arguments Normal {A} a.
Arguments Throw {A} e.

Definition bind {A B} (c : completion A) (k : A -> completion B)
  : completion B :=
  match c with
  | Normal a => k a
  | Throw e => Throw e
  end.

(** [!!s] for a string or [null]/[undefined]. *)
Definition truthyString (s : option string) : bool :=
  match s with
  | Some s => negb (String.eqb s EmptyString)
  | None => false
  end.

(** [!!n] for a number or [null]/[undefined]. *)
Definition truthyNumber (n : option number) : bool :=
  match n with
  | Some (Num z) => negb (z =? 0)
  | Some NaN => false
  | None => false
  end.

(** [ToNumber] on a number or [undefined]. *)
Definition toNumber (n : option number) : number :=
  match n with
  | Some x => x
  | None => NaN
  end.

(** [a < b] and [a > b]: false as soon as one side is [NaN]. *)
Definition lt (a b : number) : bool :=
  match a, b with
  | Num x, Num y => x <? y
  | _, _ => false
  end.

Definition gt (a b : number) : bool := lt b a.

(** [a === b] on numbers. *)
Definition strictEq (a b : number) : bool :=
  match a, b with
  | Num x, Num y => x =? y
  | _, _ => false
  end.

(** [SameValueZero], the comparison of [Array.prototype.includes]. *)
Definition sameValueZero (a b : number) : bool :=
  match a, b with
  | NaN, NaN => true
  | Num x, Num y => x =? y
  | _, _ => false
  end.

(** [arr.includes(x)] on an array of numbers. *)
Definition includes (arr : list number) (x : number) : bool :=
  existsb (fun y => sameValueZero y x) arr.

(** Characters are code units in [0..255].  White space and line
    terminators in that range, as [trim] and [parseInt] strip them. *)
Definition isWhiteSpace (c : ascii) : bool :=
  let n := nat_of_ascii c in
  (Nat.eqb n 9 || Nat.eqb n 10 || Nat.eqb n 11 || Nat.eqb n 12
   || Nat.eqb n 13 || Nat.eqb n 32 || Nat.eqb n 160)%bool.

Fixpoint trimStart (s : string) : string :=
  match s with
  | String c rest => if isWhiteSpace c then trimStart rest else s
  | EmptyString => EmptyString
  end.

(** [trimEnd] drops a character when it is white space and nothing but
    white space follows it. *)
Fixpoint trimEnd (s : string) : string :=
  match s with
  | String c rest =>
      match trimEnd rest with
      | EmptyString => if isWhiteSpace c then EmptyString
                       else String c EmptyString
      | rest' => String c rest'
      end
  | EmptyString => EmptyString
  end.

(** [s.trim()] *)
Definition trim (s : string) : string := trimEnd (trimStart s).

(** [s.split(sep)] for a one-character separator: [cur] is the piece
    being read, in reverse. *)
Fixpoint splitFrom (sep : ascii) (s : string) (cur : string) : list string :=
  match s with
  | EmptyString => [cur]
  | String c rest =>
      if Ascii.eqb c sep then cur :: splitFrom sep rest EmptyString
      else splitFrom sep rest (cur ++ String c EmptyString)%string
  end.

Definition split (sep : ascii) (s : string) : list string :=
  splitFrom sep s EmptyString.

Definition digitValue (c : ascii) : option Z :=
  let n := nat_of_ascii c in
  if (Nat.leb 48 n && Nat.leb n 57)%bool then Some (Z.of_nat n - 48)
  else None.

(** The longest prefix of decimal digits, read left to right: [acc] is
    the value so far and [seen] tells whether a digit was read. *)
Fixpoint readDigits (s : string) (acc : Z) (seen : bool) : option Z :=
  match s with
  | String c rest =>
      match digitValue c with
      | Some d => readDigits rest (10 * acc + d) true
      | None => if seen then Some acc else None
      end
  | EmptyString => if seen then Some acc else None
  end.

(** [parseInt(s, 10)]: leading white space is skipped, one sign is read,
    then the longest run of digits; [NaN] when there is no digit. *)
Definition parseInt (s : string) : number :=
  match trimStart s with
  | String "-"%char rest =>
      match readDigits rest 0 false with
      | Some v => Num (- v)
      | None => NaN
      end
  | String "+"%char rest =>
      match readDigits rest 0 false with
      | Some v => Num v
      | None => NaN
      end
  | rest =>
      match readDigits rest 0 false with
      | Some v => Num v
      | None => NaN
      end
  end.

End JS.

Notation "x <- c ;; k" := (JS.bind c (fun x => k))
  (at level 61, c at next level, right associativity).

(* ================================================================== *)
(** ** The DOM, as far as the parser reads it *)
(* ================================================================== *)

Module Dom.

(** A node of the parsed document.  [Text] stands for text and CDATA
    sections, [Comment] for the nodes that carry no text content
    (comments, processing instructions).  [tagName] is the qualified name
    of the element as written, [local] or [prefix:local]; names are
    compared case sensitively, as in every XML document. *)
Inductive node : Type :=
| Element (tagName : string) (attributes : list (string * string))
          (childNodes : list node)
| Text (data : string)
| Comment (data : string).

Record Document : Type := { documentElement : node }.

(** The element [n] followed by the elements below it, in document
    order (preorder). *)
Fixpoint elementsOf (n : node) : list node :=
  match n with
  | Element _ _ kids => n :: flat_map elementsOf kids
  | Text _ => []
  | Comment _ => []
  end.

(** The elements strictly below [n], in document order. *)
Definition descendantElements (n : node) : list node :=
  match n with
  | Element _ _ kids => flat_map elementsOf kids
  | Text _ => []
  | Comment _ => []
  end.

Definition hasTag (tag : string) (n : node) : bool :=
  match n with
  | Element t _ _ => String.eqb t tag
  | Text _ => false
  | Comment _ => false
  end.

(** [element.getElementsByTagName(tag)]: descendants only. *)
Definition getElementsByTagName (tag : string) (n : node) : list node :=
  filter (hasTag tag) (descendantElements n).

(** [document.getElementsByTagName(tag)]: the root element counts. *)
Definition docGetElementsByTagName (tag : string) (doc : Document)
  : list node :=
  filter (hasTag tag) (elementsOf (documentElement doc)).

(** The part of a qualified name after its colon, when it has one. *)
Fixpoint afterColon (qualifiedName : string) : option string :=
  match qualifiedName with
  | EmptyString => None
  | String c rest =>
      if Ascii.eqb c ":"%char then Some rest else afterColon rest
  end.

(** [element.localName] *)
Definition localName (qualifiedName : string) : string :=
  match afterColon qualifiedName with
  | Some name => name
  | None => qualifiedName
  end.

(** A type selector matches on the local name, in any namespace;
    [getElementsByTagName] above matches on the qualified name. *)
Definition hasLocalName (name : string) (n : node) : bool :=
  match n with
  | Element t _ _ => String.eqb (localName t) name
  | Text _ => false
  | Comment _ => false
  end.

(** [document.querySelector(name)] for a type selector: the first element
    of that local name in document order, or [null]. *)
Definition querySelector (name : string) (doc : Document) : option node :=
  hd_error (filter (hasLocalName name) (elementsOf (documentElement doc))).

(** [node.textContent] *)
Fixpoint textContent (n : node) : string :=
  match n with
  | Element _ _ kids =>
      fold_right
        (fun k acc =>
           match k with
           | Comment _ => acc
           | _ => (textContent k ++ acc)%string
           end)
        EmptyString kids
  | Text d => d
  | Comment d => d
  end.

End Dom.

(* ================================================================== *)
(** ** Dates: [Date] and the [date-fns] functions the evaluator calls *)
(* ================================================================== *)

Module DateFns.

(** A [Date] is invalid (its time value is [NaN]) or holds a time.  The
    time is kept as wall-clock milliseconds in the local time zone,
    counted from 1970-01-01T00:00 local; the zone has a fixed offset, so
    the order of local times is the order of the instants. *)
Inductive Date : Type :=
| InvalidDate
| ValidDate (t : Z).

Definition MS_PER_DAY : Z := 86400000.

(** The local calendar day of a time: days since 1970-01-01. *)
Definition dayNumber (t : Z) : Z := t / MS_PER_DAY.

(** [isBefore(date, dateToCompare)]: [+date < +dateToCompare] *)
Definition isBefore (date dateToCompare : Date) : bool :=
  match date, dateToCompare with
  | ValidDate x, ValidDate y => x <? y
  | _, _ => false
  end.

(** [isAfter(date, dateToCompare)]: [+date > +dateToCompare] *)
Definition isAfter (date dateToCompare : Date) : bool :=
  match date, dateToCompare with
  | ValidDate x, ValidDate y => y <? x
  | _, _ => false
  end.

(** [differenceInCalendarDays(dateLeft, dateRight)]: the number of local
    calendar days from [dateRight] to [dateLeft]; [NaN] when a date is
    invalid. *)
Definition differenceInCalendarDays (dateLeft dateRight : Date)
  : JS.number :=
  match dateLeft, dateRight with
  | ValidDate x, ValidDate y => JS.Num (dayNumber x - dayNumber y)
  | _, _ => JS.NaN
  end.

(** [date.getDay()]: 0 (Sunday) .. 6 (Saturday); 1970-01-01 was a
    Thursday.  [NaN] on an invalid date. *)
Definition getDay (d : Date) : JS.number :=
  match d with
  | ValidDate t => JS.Num ((dayNumber t + 4) mod 7)
  | InvalidDate => JS.NaN
  end.

(** *** A calendar-date reader, for the worked examples

    [parseISO] itself is a variable of the evaluator.  The examples run
    it on extended-format calendar dates [YYYY-MM-DD], the form an
    [<input type="date">] produces; [calendarDate] reads exactly that
    form, as [parseISO] does: the date must exist in the proleptic
    Gregorian calendar, and the result is local midnight of that day. *)

Definition isLeapYear (y : Z) : bool :=
  ((y mod 400 =? 0) || ((y mod 4 =? 0) && negb (y mod 100 =? 0)))%bool.

Definition daysInMonth (y m : Z) : Z :=
  if m =? 2 then (if isLeapYear y then 29 else 28)
  else if ((m =? 4) || (m =? 6) || (m =? 9) || (m =? 11))%bool then 30
  else 31.

(** Days from 1970-01-01 to the civil date [y]-[m]-[d]. *)
Definition daysFromCivil (y m d : Z) : Z :=
  let y' := if m <=? 2 then y - 1 else y in
  let era := y' / 400 in
  let yoe := y' - era * 400 in
  let mp := (m + 9) mod 12 in
  let doy := (153 * mp + 2) / 5 + d - 1 in
  let doe := yoe * 365 + yoe / 4 - yoe / 100 + doy in
  era * 146097 + doe - 719468.

(** Exactly [n] digits at the head of [s]: their value and the rest. *)
Fixpoint takeDigits (n : nat) (s : string) (acc : Z) : option (Z * string) :=
  match n with
  | O => Some (acc, s)
  | S n' =>
      match s with
      | String c rest =>
          match JS.digitValue c with
          | Some d => takeDigits n' rest (10 * acc + d)
          | None => None
          end
      | EmptyString => None
      end
  end.

Definition expectDash (s : string) : option string :=
  match s with
  | String "-"%char rest => Some rest
  | _ => None
  end.

Definition calendarDate (s : string) : Date :=
  match takeDigits 4 s 0 with
  | Some (y, s1) =>
      match expectDash s1 with
      | Some s2 =>
          match takeDigits 2 s2 0 with
          | Some (m, s3) =>
              match expectDash s3 with
              | Some s4 =>
                  match takeDigits 2 s4 0 with
                  | Some (d, EmptyString) =>
                      if ((1 <=? m) && (m <=? 12) && (1 <=? d)
                          && (d <=? daysInMonth y m))%bool
                      then ValidDate (daysFromCivil y m d * MS_PER_DAY)
                      else InvalidDate
                  | _ => InvalidDate
                  end
              | None => InvalidDate
              end
          | None => InvalidDate
          end
      | None => InvalidDate
      end
  | None => InvalidDate
  end.

End DateFns.

(* ================================================================== *)
(** ** Rule objects *)
(* ================================================================== *)


(** The palette of [constants.js]. *)
Definition COLOURS : list string :=
  [ "#0072B2"%string; "#D55E00"%string; "#F0E442"%string;
    "#009E73"%string; "#CC79A7"%string; "#56B4E9"%string;
    "#E69F00"%string; "#8B4513"%string ].

Module Rule.

(** The object [parseXmlRules] builds for one [<rule>] element.  A field
    that may be [null] is an [option]; [colour] is [None] where the
    palette lookup would be [undefined]. *)
Record PriceRule : Type := {
  id : Z;
  from : option string;
  to : option string;
  percentage : option float;
  arrivalWeekdays : list JS.number;
  minStay : option JS.number;
  maxStay : option JS.number;
  maxDaysToArrival : option JS.number;
  colour : option string;
  originalXml : string
}.

(** [{ ...rule, id: newId }] *)
Definition withId (rule : PriceRule) (newId : Z) : PriceRule :=
  {| id := newId;
     from := from rule;
     to := to rule;
     percentage := percentage rule;
     arrivalWeekdays := arrivalWeekdays rule;
     minStay := minStay rule;
     maxStay := maxStay rule;
     maxDaysToArrival := maxDaysToArrival rule;
     colour := colour rule;
     originalXml := originalXml rule |}.

(** The same rule with one of the optional bounds replaced; the
    statements below compare a rule with the rule that lacks a bound. *)
Definition withMinStay (rule : PriceRule) (v : option JS.number)
  : PriceRule :=
  {| id := id rule;
     from := from rule;
     to := to rule;
     percentage := percentage rule;
     arrivalWeekdays := arrivalWeekdays rule;
     minStay := v;
     maxStay := maxStay rule;
     maxDaysToArrival := maxDaysToArrival rule;
     colour := colour rule;
     originalXml := originalXml rule |}.

Definition withMaxStay (rule : PriceRule) (v : option JS.number)
  : PriceRule :=
  {| id := id rule;
     from := from rule;
     to := to rule;
     percentage := percentage rule;
     arrivalWeekdays := arrivalWeekdays rule;
     minStay := minStay rule;
     maxStay := v;
     maxDaysToArrival := maxDaysToArrival rule;
     colour := colour rule;
     originalXml := originalXml rule |}.

Definition withMaxDaysToArrival (rule : PriceRule) (v : option JS.number)
  : PriceRule :=
  {| id := id rule;
     from := from rule;
     to := to rule;
     percentage := percentage rule;
     arrivalWeekdays := arrivalWeekdays rule;
     minStay := minStay rule;
     maxStay := maxStay rule;
     maxDaysToArrival := v;
     colour := colour rule;
     originalXml := originalXml rule |}.

End Rule.

(** [arr.map((x, idx) => f(x, idx))], the index starting at [idx]. *)
Fixpoint mapWithIndex {A B : Type} (f : A -> nat -> B) (arr : list A)
  (idx : nat) : list B :=
  match arr with
  | [] => []
  | x :: rest => f x idx :: mapWithIndex f rest (S idx)
  end.

Definition arrayMap {A B : Type} (f : A -> nat -> B) (arr : list A)
  : list B :=
  mapWithIndex f arr 0.

(* ================================================================== *)
(** ** The rule parser *)
(* ================================================================== *)

Section Parser.

(** [new DOMParser().parseFromString(text, 'application/xml')] *)
Variable parseFromString : string -> Dom.Document.
(** [new XMLSerializer().serializeToString(node)] *)
Variable serializeToString : Dom.node -> string.
(** The global [parseFloat]. *)
Variable parseFloat : string -> float.

(** [getTag] of [parseXmlRules], for the rule element [node]. *)
Definition getTag (node : Dom.node) (tag : string) : option string :=
  match hd_error (Dom.getElementsByTagName tag node) with
  | Some el => Some (JS.trim (Dom.textContent el))
  | None => None
  end.

(** [v ? f(v) : dflt] for a string or [null]. *)
Definition ifTruthy {A : Type} (v : option string) (f : string -> A)
  (dflt : A) : A :=
  match v with
  | Some s => if JS.truthyString (Some s) then f s else dflt
  | None => dflt
  end.

(** The callback of [ruleNodes.map]. *)
Definition ruleOfNode (node : Dom.node) (idx : nat) : Rule.PriceRule :=
  {| Rule.id := Z.of_nat idx + 1;
     Rule.from := getTag node "from";
     Rule.to := getTag node "to";
     Rule.percentage :=
       ifTruthy (getTag node "percentage")
                (fun s => Some (parseFloat s)) None;
     Rule.arrivalWeekdays :=
       ifTruthy (getTag node "arrivalWeekdays")
                (fun s => map JS.parseInt (JS.split ","%char s)) [];
     Rule.minStay :=
       ifTruthy (getTag node "minStay")
                (fun s => Some (JS.parseInt s)) None;
     Rule.maxStay :=
       ifTruthy (getTag node "maxStay")
                (fun s => Some (JS.parseInt s)) None;
     Rule.maxDaysToArrival :=
       ifTruthy (getTag node "maxDaysToArrival")
                (fun s => Some (JS.parseInt s)) None;
     Rule.colour := nth_error COLOURS (Nat.modulo idx (List.length COLOURS));
     Rule.originalXml := serializeToString node |}.

(** The rule elements [parseXmlRules] maps over: those below the first
    [priceRules] element when there is one, else all of the document. *)
Definition ruleNodesOf (doc : Dom.Document) : list Dom.node :=
  match Dom.querySelector "priceRules" doc with
  | Some priceRulesNode => Dom.getElementsByTagName "rule" priceRulesNode
  | None => Dom.docGetElementsByTagName "rule" doc
  end.

Definition parseXmlRules (text : string)
  : JS.completion (list Rule.PriceRule) :=
  let doc := parseFromString text in
  match Dom.querySelector "parsererror" doc with
  | Some _ => JS.Throw (JS.Exn "Error" "Invalid XML file")
  | None => JS.Normal (arrayMap ruleOfNode (ruleNodesOf doc))
  end.

(** *** Merging the seasons ([handleFetchFromAPI], season "all") *)

(** The text of the response to the request of [fetchPriceRulesFromAPI],
    or what that function throws before parsing (no API key, a response
    that is not ok). *)
Variable responseText : string -> Z -> JS.completion string.

Definition fetchPriceRulesFromAPI (accommodationCode : string) (season : Z)
  : JS.completion (list Rule.PriceRule) :=
  xmlText <- responseText accommodationCode season ;;
  parseXmlRules xmlText.

(** The [for ... of seasons] loop: a season whose fetch throws is
    skipped, the others are appended. *)
Fixpoint fetchSeasons (accommodationCode : string) (seasons : list Z)
  (allRules : list Rule.PriceRule) : list Rule.PriceRule :=
  match seasons with
  | [] => allRules
  | yearSeason :: rest =>
      match fetchPriceRulesFromAPI accommodationCode yearSeason with
      | JS.Normal rules => fetchSeasons accommodationCode rest (allRules ++ rules)
      | JS.Throw _ => fetchSeasons accommodationCode rest allRules
      end
  end.

(** [allRules.map((rule, index) => ({ ...rule, id: index + 1 }))] *)
Definition reassignIds (allRules : list Rule.PriceRule)
  : list Rule.PriceRule :=
  arrayMap (fun rule index => Rule.withId rule (Z.of_nat index + 1)) allRules.

(** The rules handed to [onRulesLoaded] when the season is "all". *)
Definition fetchAllSeasons (accommodationCode : string) (currentYear : Z)
  : list Rule.PriceRule :=
  let seasons := [currentYear; currentYear + 1] in
  reassignIds (fetchSeasons accommodationCode seasons []).

End Parser.

(* ================================================================== *)
(** ** The booking evaluator *)
(* ================================================================== *)

Section Evaluator.

(** [parseISO] of [date-fns], on a string or [null]. *)
Variable parseISO : option string -> JS.completion DateFns.Date.

(** "Check date range" *)
Definition outsideDateRange (arrival ruleStart ruleEnd : DateFns.Date)
  : bool :=
  DateFns.isBefore arrival ruleStart || DateFns.isAfter arrival ruleEnd.

(** "Check stay length" *)
Definition stayLengthViolated (rule : Rule.PriceRule)
  (length : option JS.number) : bool :=
  (JS.truthyNumber (Rule.minStay rule)
   && JS.lt (JS.toNumber length) (JS.toNumber (Rule.minStay rule)))
  || (JS.truthyNumber (Rule.maxStay rule)
      && JS.gt (JS.toNumber length) (JS.toNumber (Rule.maxStay rule))).

(** "Check maxDaysToArrival" *)
Definition bookingWindowExceeded (rule : Rule.PriceRule)
  (arrival bookingCreationDate : DateFns.Date) : bool :=
  match Rule.maxDaysToArrival rule with
  | Some maxDays =>
      let diff := DateFns.differenceInCalendarDays arrival bookingCreationDate in
      JS.gt diff maxDays
  | None => false
  end.

(** "Check arrival weekdays" *)
Definition weekdayNotPermitted (rule : Rule.PriceRule)
  (arrival : DateFns.Date) : bool :=
  if 0 <? Z.of_nat (List.length (Rule.arrivalWeekdays rule)) then
    let jsDay := DateFns.getDay arrival in
    let weekday := if JS.strictEq jsDay (JS.Num 0) then JS.Num 7 else jsDay in
    negb (JS.includes (Rule.arrivalWeekdays rule) weekday)
  else false.

Definition isBookingAllowedByRule (rule : Rule.PriceRule)
  (startDate : option string) (length : option JS.number)
  (bookingCreationDate : DateFns.Date) : JS.completion bool :=
  if negb (JS.truthyString startDate) || negb (JS.truthyNumber length)
  then JS.Normal false
  else
    arrival <- parseISO startDate ;;
    ruleStart <- parseISO (Rule.from rule) ;;
    ruleEnd <- parseISO (Rule.to rule) ;;
    if outsideDateRange arrival ruleStart ruleEnd then JS.Normal false
    else if stayLengthViolated rule length then JS.Normal false
    else if bookingWindowExceeded rule arrival bookingCreationDate
         then JS.Normal false
    else if weekdayNotPermitted rule arrival then JS.Normal false
    else JS.Normal true.

(** *** The highlighted rule ids ([App], [useMemo]) *)

(** One row of the booking form: both fields hold the text typed. *)
Record BookingEntry : Type := {
  entryStartDate : string;
  entryLength : string
}.

(** [if (!ids.includes(id)) ids.push(id)] *)
Definition pushIfNew (ids : list Z) (ruleId : Z) : list Z :=
  if existsb (Z.eqb ruleId) ids then ids else ids ++ [ruleId].

(** [rules.forEach(rule => ...)] for one entry, threading [ids]. *)
Fixpoint forEachRule (rules : list Rule.PriceRule) (startDate : string)
  (length : JS.number) (bookingDate : DateFns.Date) (ids : list Z)
  : JS.completion (list Z) :=
  match rules with
  | [] => JS.Normal ids
  | rule :: rest =>
      allowed <- isBookingAllowedByRule rule (Some startDate) (Some length)
                                        bookingDate ;;
      forEachRule rest startDate length bookingDate
                  (if allowed then pushIfNew ids (Rule.id rule) else ids)
  end.

(** [bookingEntries.forEach(entry => ...)], threading [ids]. *)
Fixpoint forEachEntry (bookingEntries : list BookingEntry)
  (rules : list Rule.PriceRule) (bookingDate : DateFns.Date) (ids : list Z)
  : JS.completion (list Z) :=
  match bookingEntries with
  | [] => JS.Normal ids
  | entry :: rest =>
      if negb (JS.truthyString (Some (entryStartDate entry)))
         || negb (JS.truthyString (Some (entryLength entry)))
      then forEachEntry rest rules bookingDate ids
      else
        let length := JS.parseInt (entryLength entry) in
        ids' <- forEachRule rules (entryStartDate entry) length bookingDate ids ;;
        forEachEntry rest rules bookingDate ids'
  end.

Definition highlightedRuleIds (bookingEntries : list BookingEntry)
  (rules : list Rule.PriceRule) (bookingDate : DateFns.Date)
  : JS.completion (list Z) :=
  forEachEntry bookingEntries rules bookingDate [].

(** *** The rules allowed for one row ([BookingSelector]) *)

(** [rules.filter(rule => isBookingAllowedByRule(rule, ...))] *)
Fixpoint filterAllowed (rules : list Rule.PriceRule) (startDate : string)
  (length : JS.number) (bookingDate : DateFns.Date)
  : JS.completion (list Rule.PriceRule) :=
  match rules with
  | [] => JS.Normal []
  | rule :: rest =>
      allowed <- isBookingAllowedByRule rule (Some startDate) (Some length)
                                        bookingDate ;;
      kept <- filterAllowed rest startDate length bookingDate ;;
      JS.Normal (if allowed then rule :: kept else kept)
  end.

Definition allowedRules (entry : BookingEntry) (rules : list Rule.PriceRule)
  (bookingDate : DateFns.Date) : JS.completion (list Rule.PriceRule) :=
  let startDateIso := entryStartDate entry in
  let length := JS.parseInt (entryLength entry) in
  if JS.truthyString (Some (entryStartDate entry))
     && JS.truthyString (Some (entryLength entry))
  then filterAllowed rules startDateIso length bookingDate
  else JS.Normal [].

End Evaluator.

(* ================================================================== *)
(** ** Vocabulary of the specification *)
(* ================================================================== *)

(** The days of the week, and the numbering of the rules: Monday is 1,
    Sunday is 7. *)
Inductive weekday : Type :=
| Monday | Tuesday | Wednesday | Thursday | Friday | Saturday | Sunday.

Definition isoNumber (w : weekday) : Z :=
  match w with
  | Monday => 1 | Tuesday => 2 | Wednesday => 3 | Thursday => 4
  | Friday => 5 | Saturday => 6 | Sunday => 7
  end.

(** The day of the week of a local time: day 0 (1970-01-01) was a
    Thursday, and the days follow each other in a cycle of seven. *)
Definition weekdayOf (t : Z) : weekday :=
  match (DateFns.dayNumber t + 3) mod 7 with
  | 0 => Monday | 1 => Tuesday | 2 => Wednesday | 3 => Thursday
  | 4 => Friday | 5 => Saturday | _ => Sunday
  end.

(** Calendar days from the reference date to the arrival date. *)
Definition calendarDaysBetween (referenceDate arrivalDate : Z) : Z :=
  DateFns.dayNumber arrivalDate - DateFns.dayNumber referenceDate.

(** An optional bound that is a positive integer when it is set. *)
Definition positiveWhenSet (bound : option JS.number) : Prop :=
  match bound with
  | None => True
  | Some (JS.Num z) => 0 < z
  | Some JS.NaN => False
  end.

(** The first occurrences of a list of ids, in the order they come. *)
Fixpoint firstSeen (ids : list Z) : list Z :=
  match ids with
  | [] => []
  | x :: rest => x :: filter (fun y => negb (y =? x)) (firstSeen rest)
  end.

(** The verdict of a completion, for a call that returned. *)
Definition returnedTrue (c : JS.completion bool) : bool :=
  match c with
  | JS.Normal b => b
  | JS.Throw _ => false
  end.








(** The rules of one season, none when the fetch throws. *)
Definition batchOf (fetched : JS.completion (list Rule.PriceRule))
  : list Rule.PriceRule :=
  match fetched with
  | JS.Normal rules => rules
  | JS.Throw _ => []
  end.

(* ================================================================== *)
(** ** Data of the worked examples *)
(* ================================================================== *)

Module Sample.

(** [parseISO] on calendar-date strings.  On [null], date-fns 2 returns
    an invalid date and date-fns 3 and later throw a [TypeError]; the
    later behaviour is taken here. *)
Definition parseISO (s : option string) : JS.completion DateFns.Date :=
  match s with
  | Some s => JS.Normal (DateFns.calendarDate s)
  | None => JS.Throw (JS.Exn "TypeError" "Cannot read properties of null")
  end.

(** A parser that throws on every argument. *)
Definition throwingParseISO (s : option string)
  : JS.completion DateFns.Date :=
  JS.Throw (JS.Exn "RangeError" "Invalid time value").

(** A rule valid from [from] to [to] with the given restrictions. *)
Definition rule (id : Z) (from to : string) (weekdays : list Z)
  (minStay maxStay maxDaysToArrival : option Z) : Rule.PriceRule :=
  {| Rule.id := id;
     Rule.from := Some from;
     Rule.to := Some to;
     Rule.percentage := None;
     Rule.arrivalWeekdays := map JS.Num weekdays;
     Rule.minStay := option_map JS.Num minStay;
     Rule.maxStay := option_map JS.Num maxStay;
     Rule.maxDaysToArrival := option_map JS.Num maxDaysToArrival;
     Rule.colour := nth_error COLOURS (Z.to_nat (id - 1) mod 8);
     Rule.originalXml := "<rule/>" |}.

(** The whole of 2025, bookable at most ten days ahead. *)
Definition tenDaysAhead : Rule.PriceRule :=
  rule 1 "2025-01-01" "2025-12-31" [] None None (Some 10).

(** The rule of the end-to-end scenario. *)
Definition summer : Rule.PriceRule :=
  rule 1 "2025-06-01" "2025-08-31" [6] (Some 7) (Some 14) (Some 180).

(** Local midnight of a civil date. *)
Definition midnight (y m d : Z) : Z :=
  DateFns.daysFromCivil y m d * DateFns.MS_PER_DAY.

Definition newYear : DateFns.Date := DateFns.ValidDate (midnight 2025 1 1).

(** Rules over the whole of 2025 with one restriction each. *)
Definition weekendOnly : Rule.PriceRule :=
  rule 1 "2025-01-01" "2025-12-31" [6; 7] None None None.

Definition threeToSeven : Rule.PriceRule :=
  rule 1 "2025-01-01" "2025-12-31" [] (Some 3) (Some 7) None.

Definition zeroMinStay : Rule.PriceRule :=
  rule 1 "2025-01-01" "2025-12-31" [] (Some 0) None None.

Definition zeroMaxStay : Rule.PriceRule :=
  rule 1 "2025-01-01" "2025-12-31" [] None (Some 0) None.

Definition sameDayOnly : Rule.PriceRule :=
  rule 1 "2025-01-01" "2025-12-31" [] None None (Some 0).

(** A rule whose [from] is no date. *)
Definition unreadableFrom : Rule.PriceRule :=
  rule 1 "not-a-date" "2025-08-31" [] None None None.

(** Three rules and two bookings: the first booking matches rules 1 and
    2, the second rules 2 and 3. *)
Definition firstHalf : Rule.PriceRule :=
  rule 1 "2025-01-01" "2025-06-30" [] None None None.

Definition wholeYear : Rule.PriceRule :=
  rule 2 "2025-01-01" "2025-12-31" [] None None None.

Definition secondHalf : Rule.PriceRule :=
  rule 3 "2025-07-01" "2025-12-31" [] None None None.

Definition spring : BookingEntry :=
  {| entryStartDate := "2025-03-10"; entryLength := "3" |}.

Definition autumn : BookingEntry :=
  {| entryStartDate := "2025-09-10"; entryLength := "3" |}.

(** Rule elements, alone under the root and under a [priceRules]
    container. *)
Definition field (tag text : string) : Dom.node :=
  Dom.Element tag [] [Dom.Text text].

Definition summerElement : Dom.node :=
  Dom.Element "rule" []
    [ Dom.Text " "; field "from" " 2025-06-01 "; field "to" "2025-08-31";
      field "percentage" "-10.5"; field "arrivalWeekdays" "6,7";
      field "minStay" "7"; field "minStay" "3"; field "maxStay" "";
      Dom.Comment "no maxDaysToArrival" ].

Definition winterElement : Dom.node :=
  Dom.Element "rule" [("code"%string, "W"%string)]
    [ field "from" "2025-12-01"; field "to" "2026-02-28";
      field "maxDaysToArrival" "0" ].

Definition bareDocument : Dom.Document :=
  {| Dom.documentElement :=
       Dom.Element "rules" [] [summerElement; Dom.Text " "; winterElement] |}.

Definition nestedDocument : Dom.Document :=
  {| Dom.documentElement :=
       Dom.Element "accommodation" []
         [ Dom.Element "code" [] [Dom.Text "A1"];
           Dom.Element "priceRules" [] [summerElement; winterElement] ] |}.

(** A rule element with a [from] nested in a [period] before its own
    [from] child. *)
Definition nestedFromElement : Dom.node :=
  Dom.Element "rule" []
    [ Dom.Element "period" [] [field "from" "1999-01-01"];
      field "from" "2025-06-01"; field "to" "2025-08-31" ].

Definition nestedFromDocument : Dom.Document :=
  {| Dom.documentElement := Dom.Element "rules" [] [nestedFromElement] |}.

(** A well-formed document with an element named [parsererror]. *)
Definition reportDocument : Dom.Document :=
  {| Dom.documentElement :=
       Dom.Element "rules" []
         [ Dom.Element "parsererror" [] [Dom.Text "none"]; winterElement ] |}.

(** A rule element outside of a prefixed [priceRules] container. *)
Definition prefixedDocument : Dom.Document :=
  {| Dom.documentElement :=
       Dom.Element "rules" []
         [ summerElement;
           Dom.Element "p:priceRules" [] [winterElement] ] |}.

(** A toy platform: the text names the document, nodes serialize to
    their tag name, and every decimal reads as zero. *)
Definition parseFromString (text : string) : Dom.Document :=
  if String.eqb text "bare" then bareDocument
  else if String.eqb text "nestedFrom" then nestedFromDocument
  else if String.eqb text "report" then reportDocument
  else if String.eqb text "prefixed" then prefixedDocument
  else nestedDocument.

Definition serializeToString (n : Dom.node) : string :=
  match n with
  | Dom.Element tag _ _ => tag
  | Dom.Text d => d
  | Dom.Comment d => d
  end.

Definition parseFloat (s : string) : float := PrimFloat.zero.

(** Every season answers with the bare document. *)
Definition responseText (accommodationCode : string) (season : Z)
  : JS.completion string :=
  JS.Normal "bare"%string.

End Sample.

(* ================================================================== *)
(** ** The application state ([App], [BookingSelector]) *)
(* ================================================================== *)

(** *** The search history ([handleAddToHistory]) *)

Module History.

(** The season of a search: the string ['all'], or the number read from
    the season list. *)
Inductive seasonValue : Type :=
| SeasonAll
| SeasonYear (n : JS.number).

Record SearchItem : Type := {
  accommodationCode : string;
  season : seasonValue
}.

(** [a === b] on seasons. *)
Definition seasonStrictEq (a b : seasonValue) : bool :=
  match a, b with
  | SeasonAll, SeasonAll => true
  | SeasonYear x, SeasonYear y => JS.strictEq x y
  | _, _ => false
  end.

(** The callback of [prev.some]. *)
Definition sameSearch (searchItem item : SearchItem) : bool :=
  String.eqb (accommodationCode item) (accommodationCode searchItem)
  && seasonStrictEq (season item) (season searchItem).

(** [arr.slice(-n)]: the last [n] elements, all of them when there are
    fewer. *)
Definition sliceLast {A : Type} (n : nat) (arr : list A) : list A :=
  skipn (List.length arr - n) arr.

(** The updater handed to [setSearchHistory]. *)
Definition handleAddToHistory (prev : list SearchItem)
  (searchItem : SearchItem) : list SearchItem :=
  let exists_ := existsb (sameSearch searchItem) prev in
  if exists_ then prev
  else
    let newHistory := prev ++ [searchItem] in
    sliceLast 5 newHistory.

End History.

(** *** The rows of the booking form ([BookingSelector]) *)

Module Entries.







End Entries.

(** *** The years of the rules and the month navigation ([App]) *)

Module Years.

(** [minYear] starts at [Infinity] and is only ever assigned a year that
    compared smaller, which excludes [NaN]: it is [Infinity] or an
    integer.  Likewise [maxYear] is [-Infinity] or an integer. *)
Inductive minBound : Type :=
| PlusInfinity
| MinYear (y : Z).

Inductive maxBound : Type :=
| MinusInfinity
| MaxYear (y : Z).

(** [if (y < minYear) minYear = y] for the year [y] of a date. *)
Definition lowerTo (y : JS.number) (minYear : minBound) : minBound :=
  match y, minYear with
  | JS.Num v, PlusInfinity => MinYear v
  | JS.Num v, MinYear m => if v <? m then MinYear v else MinYear m
  | JS.NaN, _ => minYear
  end.

(** [if (y > maxYear) maxYear = y] *)
Definition raiseTo (y : JS.number) (maxYear : maxBound) : maxBound :=
  match y, maxYear with
  | JS.Num v, MinusInfinity => MaxYear v
  | JS.Num v, MaxYear m => if m <? v then MaxYear v else MaxYear m
  | JS.NaN, _ => maxYear
  end.

(** The civil year of a day number (days since 1970-01-01). *)
Definition yearOfDay (days : Z) : Z :=
  let z := days + 719468 in
  let era := z / 146097 in
  let doe := z - era * 146097 in
  let yoe := (doe - doe / 1460 + doe / 36524 - doe / 146096) / 365 in
  let doy := doe - (365 * yoe + yoe / 4 - yoe / 100) in
  let mp := (5 * doy + 2) / 153 in
  if mp <? 10 then yoe + era * 400 else yoe + era * 400 + 1.

(** [date.getFullYear()] *)
Definition getFullYear (d : DateFns.Date) : JS.number :=
  match d with
  | DateFns.ValidDate t => JS.Num (yearOfDay (DateFns.dayNumber t))
  | DateFns.InvalidDate => JS.NaN
  end.

Record RuleYears : Type := { min : minBound; max : maxBound }.

(** [year <= ruleYears.min], [year - 1 >= ruleYears.min] and the two
    comparisons with [ruleYears.max]. *)
Definition leMin (year : Z) (b : minBound) : bool :=
  match b with
  | PlusInfinity => true
  | MinYear m => year <=? m
  end.

Definition geMin (year : Z) (b : minBound) : bool :=
  match b with
  | PlusInfinity => false
  | MinYear m => m <=? year
  end.

Definition leMax (year : Z) (b : maxBound) : bool :=
  match b with
  | MinusInfinity => false
  | MaxYear m => year <=? m
  end.

Definition geMax (year : Z) (b : maxBound) : bool :=
  match b with
  | MinusInfinity => true
  | MaxYear m => m <=? year
  end.

Section WithParseISO.

Variable parseISO : option string -> JS.completion DateFns.Date.

(** The [forEach] of [ruleYears], threading [minYear] and [maxYear]. *)
Fixpoint ruleYearsLoop (rules : list Rule.PriceRule) (minYear : minBound)
  (maxYear : maxBound) : JS.completion RuleYears :=
  match rules with
  | [] => JS.Normal {| min := minYear; max := maxYear |}
  | r :: rest =>
      fromDate <- parseISO (Rule.from r) ;;
      let fromYear := getFullYear fromDate in
      toDate <- parseISO (Rule.to r) ;;
      let toYear := getFullYear toDate in
      ruleYearsLoop rest (lowerTo fromYear minYear) (raiseTo toYear maxYear)
  end.

(** The [useMemo] of [ruleYears]: [null] without rules. *)
Definition ruleYears (rules : list Rule.PriceRule)
  : JS.completion (option RuleYears) :=
  match rules with
  | [] => JS.Normal None
  | _ :: _ =>
      ry <- ruleYearsLoop rules PlusInfinity MinusInfinity ;;
      JS.Normal (Some ry)
  end.

(** The [forEach] of [handleRulesLoaded] and [handleFileChange]: both
    years of a rule lower [minYear]. *)
Fixpoint minYearLoop (rules : list Rule.PriceRule) (minYear : minBound)
  : JS.completion minBound :=
  match rules with
  | [] => JS.Normal minYear
  | rule :: rest =>
      fromDate <- parseISO (Rule.from rule) ;;
      let fromYear := getFullYear fromDate in
      toDate <- parseISO (Rule.to rule) ;;
      let toYear := getFullYear toDate in
      minYearLoop rest (lowerTo toYear (lowerTo fromYear minYear))
  end.

(** [handleRulesLoaded], after [setRules(loadedRules)]: the year shown
    afterwards, [year] being the one shown before. *)
Definition handleRulesLoaded (loadedRules : list Rule.PriceRule) (year : Z)
  : JS.completion Z :=
  match loadedRules with
  | [] => JS.Normal year
  | _ :: _ =>
      minYear <- minYearLoop loadedRules PlusInfinity ;;
      match minYear with
      | MinYear y => JS.Normal y
      | PlusInfinity => JS.Normal year
      end
  end.

End WithParseISO.

(** [navigateMonth(direction)]: the year and the month shown afterwards. *)
Definition navigateMonth (ruleYears : option RuleYears)
  (year selectedMonth direction : Z) : Z * Z :=
  let newMonth := selectedMonth + direction in
  if (0 <=? newMonth) && (newMonth <=? 11) then (year, newMonth)
  else if (newMonth =? 12) && (direction =? 1) then
    let nextYear := year + 1 in
    match ruleYears with
    | Some ry => if leMax nextYear (max ry) then (nextYear, 0)
                 else (year, selectedMonth)
    | None => (year, selectedMonth)
    end
  else if (newMonth =? -1) && (direction =? -1) then
    let prevYear := year - 1 in
    match ruleYears with
    | Some ry => if geMin prevYear (min ry) then (prevYear, 11)
                 else (year, selectedMonth)
    | None => (year, selectedMonth)
    end
  else (year, selectedMonth).

(** The [disabled] attributes of the buttons "Previous" and "Next" of the
    month view, and of the two year buttons. *)
Definition previousMonthDisabled (ruleYears : option RuleYears)
  (year selectedMonth : Z) : bool :=
  (selectedMonth =? 0)
  && match ruleYears with
     | Some ry => leMin year (min ry)
     | None => true
     end.

Definition nextMonthDisabled (ruleYears : option RuleYears)
  (year selectedMonth : Z) : bool :=
  (selectedMonth =? 11)
  && match ruleYears with
     | Some ry => geMax year (max ry)
     | None => true
     end.

Definition previousYearDisabled (ruleYears : option RuleYears) (year : Z)
  : bool :=
  match ruleYears with
  | Some ry => leMin year (min ry)
  | None => false
  end.

Definition nextYearDisabled (ruleYears : option RuleYears) (year : Z)
  : bool :=
  match ruleYears with
  | Some ry => geMax year (max ry)
  | None => false
  end.

(** What the user can do to the year and the month: the two buttons of
    the month view, the two year buttons, and a click on the tick of a
    month (0 to 11) in the year view.  A disabled button does nothing. *)
Inductive action : Type :=
| PreviousMonth
| NextMonth
| PreviousYear
| NextYear
| MonthTick (month : nat).

Definition perform (ruleYears : option RuleYears) (state : Z * Z)
  (a : action) : Z * Z :=
  let (year, selectedMonth) := state in
  match a with
  | PreviousMonth =>
      if previousMonthDisabled ruleYears year selectedMonth then state
      else navigateMonth ruleYears year selectedMonth (-1)
  | NextMonth =>
      if nextMonthDisabled ruleYears year selectedMonth then state
      else navigateMonth ruleYears year selectedMonth 1
  | PreviousYear =>
      if previousYearDisabled ruleYears year then state
      else (year - 1, selectedMonth)
  | NextYear =>
      if nextYearDisabled ruleYears year then state
      else (year + 1, selectedMonth)
  | MonthTick month =>
      if Nat.ltb month 12 then (year, Z.of_nat month) else state
  end.

End Years.

(* ================================================================== *)
(** ** The timeline ([Timeline]) *)
(* ================================================================== *)

Module Timeline.

(** Arithmetic and comparisons on numbers: [NaN] is contagious and
    compares false. *)
Definition add (a b : JS.number) : JS.number :=
  match a, b with
  | JS.Num x, JS.Num y => JS.Num (x + y)
  | _, _ => JS.NaN
  end.

Definition sub (a b : JS.number) : JS.number :=
  match a, b with
  | JS.Num x, JS.Num y => JS.Num (x - y)
  | _, _ => JS.NaN
  end.

(** [Math.max(a, b)] and [Math.min(a, b)] *)
Definition mathMax (a b : JS.number) : JS.number :=
  match a, b with
  | JS.Num x, JS.Num y => JS.Num (Z.max x y)
  | _, _ => JS.NaN
  end.

Definition mathMin (a b : JS.number) : JS.number :=
  match a, b with
  | JS.Num x, JS.Num y => JS.Num (Z.min x y)
  | _, _ => JS.NaN
  end.

(** [a <= b] and [a >= b] *)
Definition le (a b : JS.number) : bool :=
  match a, b with
  | JS.Num x, JS.Num y => x <=? y
  | _, _ => false
  end.

Definition ge (a b : JS.number) : bool := le b a.

(** [new Date(year, monthIndex, day)]: local midnight of the day.  A year
    from 0 to 99 means 1900 + year; a month index outside 0..11 carries
    into the year and a day outside the month into the neighbouring
    months.  Years beyond the range of [Date] (about 270000 years either
    side of 1970) are not modelled. *)
Definition newDate (year monthIndex day : Z) : DateFns.Date :=
  let fullYear :=
    if (0 <=? year) && (year <=? 99) then 1900 + year else year in
  let ym := fullYear + monthIndex / 12 in
  let mn := monthIndex mod 12 in
  DateFns.ValidDate
    ((DateFns.daysFromCivil ym (mn + 1) 1 + (day - 1)) * DateFns.MS_PER_DAY).

(** [d.setDate(d.getDate() + k)] on a copy of [d]: the same time of day,
    [k] days later. *)
Definition shiftDays (d : DateFns.Date) (k : JS.number) : DateFns.Date :=
  match d, k with
  | DateFns.ValidDate t, JS.Num n =>
      DateFns.ValidDate (t + n * DateFns.MS_PER_DAY)
  | _, _ => DateFns.InvalidDate
  end.

Inductive viewMode : Type :=
| YearView
| MonthView.

Record ViewRange : Type := {
  start : DateFns.Date;
  end_ : DateFns.Date;
  totalDays : JS.number
}.

(** The [useMemo] of [start], [end] and [totalDays]. *)
Definition viewRange (mode : viewMode) (year selectedMonth : Z)
  : ViewRange :=
  match mode with
  | YearView =>
      let yearStart := newDate year 0 1 in
      let yearEnd := newDate year 11 31 in
      {| start := yearStart;
         end_ := yearEnd;
         totalDays :=
           add (DateFns.differenceInCalendarDays yearEnd yearStart)
               (JS.Num 1) |}
  | MonthView =>
      let monthStart := newDate year selectedMonth 1 in
      let monthEnd := newDate year (selectedMonth + 1) 0 in
      {| start := monthStart;
         end_ := monthEnd;
         totalDays :=
           add (DateFns.differenceInCalendarDays monthEnd monthStart)
               (JS.Num 1) |}
  end.

(** A tick of the header, without its label: its day index, and the
    month it opens when it can be clicked. *)
Record Tick : Type := {
  tickIndex : JS.number;
  tickMonth : option Z
}.

(** The ticks of the year view: [for (month = 0; month < 12; month++)]. *)
Definition yearTicks (year : Z) (start : DateFns.Date) : list Tick :=
  map (fun month =>
         let date := newDate year (Z.of_nat month) 1 in
         {| tickIndex := DateFns.differenceInCalendarDays date start;
            tickMonth := Some (Z.of_nat month) |})
      (seq 0 12).

(** The ticks of the month view: [for (day = 1; day <= totalDays; day++)]. *)
Definition monthTicks (totalDays : JS.number) : list Tick :=
  match totalDays with
  | JS.Num n =>
      map (fun day =>
             {| tickIndex := JS.Num (Z.of_nat day - 1); tickMonth := None |})
          (seq 1 (Z.to_nat n))
  | JS.NaN => []
  end.

Definition headerTicks (mode : viewMode) (year : Z) (start : DateFns.Date)
  (totalDays : JS.number) : list Tick :=
  match mode with
  | YearView => yearTicks year start
  | MonthView => monthTicks totalDays
  end.

(** The day index of the booking creation line, [null] when the line is
    not drawn; the position is [(dayIndex / totalDays) * 100] percent. *)
Definition bookingDatePosition (bookingCreationDate start : DateFns.Date)
  (totalDays : JS.number) : option JS.number :=
  let dayIndex := DateFns.differenceInCalendarDays bookingCreationDate start in
  if JS.lt dayIndex (JS.Num 0) || ge dayIndex totalDays then None
  else Some dayIndex.

Section Rows.

Variable parseISO : option string -> JS.completion DateFns.Date.

(** The text [format] of [date-fns] gives for a valid date. *)
Variable formatValid : Z -> string -> string.

(** [format(date, pattern)]: a [RangeError] on an invalid date. *)
Definition format (date : DateFns.Date) (pattern : string)
  : JS.completion string :=
  match date with
  | DateFns.ValidDate t => JS.Normal (formatValid t pattern)
  | DateFns.InvalidDate =>
      JS.Throw (JS.Exn "RangeError" "Invalid time value")
  end.

(** The shadow of the booking window: the visible day indices and the
    dates of its title.  Its bar goes from
    [(visibleStartIdx / totalDays) * 100] percent and is
    [((visibleEndIdx - visibleStartIdx + 1) / totalDays) * 100] percent
    wide. *)
Record Shadow : Type := {
  visibleStartIdx : JS.number;
  visibleEndIdx : JS.number;
  shadowStartText : string;
  shadowEndText : string;
  ruleFromText : string
}.

(** A row of the timeline.  The bar is drawn when [ruleIntersects]; it
    goes from [(ruleStartIdx / totalDays) * 100] percent and is
    [((ruleEndIdx - ruleStartIdx + 1) / totalDays) * 100] percent wide. *)
Record RuleRow : Type := {
  rowRule : Rule.PriceRule;
  ruleIntersects : bool;
  ruleStartIdx : JS.number;
  ruleEndIdx : JS.number;
  highlight : bool;
  shadowOverlay : option Shadow;
  fromText : string;
  toText : string
}.

(** The dates of the shadow: it ends on the day before the rule starts
    and begins [maxDaysToArrival - 1] days earlier. *)
Definition shadowEndOf (ruleFromDate : DateFns.Date) : DateFns.Date :=
  shiftDays ruleFromDate (JS.Num (-1)).

Definition shadowStartOf (ruleFromDate : DateFns.Date)
  (maxDaysToArrival : JS.number) : DateFns.Date :=
  shiftDays (shadowEndOf ruleFromDate) (add (sub (JS.Num 0) maxDaysToArrival) (JS.Num 1)).

(** [!(endIdx < 0 || startIdx > totalDays - 1)] *)
Definition intersectsView (startIdx endIdx totalDays : JS.number) : bool :=
  negb (JS.lt endIdx (JS.Num 0)
        || JS.gt startIdx (sub totalDays (JS.Num 1))).

(** The callback of [rules.map]: [null] when neither the rule nor its
    shadow meets the view. *)
Definition ruleRow (start : DateFns.Date) (totalDays : JS.number)
  (highlightedRuleIds : list Z) (rule : Rule.PriceRule)
  : JS.completion (option RuleRow) :=
  fromDate <- parseISO (Rule.from rule) ;;
  let ruleStartIdx := DateFns.differenceInCalendarDays fromDate start in
  toDate <- parseISO (Rule.to rule) ;;
  let ruleEndIdx := DateFns.differenceInCalendarDays toDate start in
  shadowIdx <-
    match Rule.maxDaysToArrival rule with
    | Some maxDays =>
        ruleFromDate <- parseISO (Rule.from rule) ;;
        let shadowEnd := shadowEndOf ruleFromDate in
        let shadowStart := shadowStartOf ruleFromDate maxDays in
        JS.Normal
          (Some (DateFns.differenceInCalendarDays shadowStart start,
                 DateFns.differenceInCalendarDays shadowEnd start))
    | None => JS.Normal None
    end ;;
  let ruleIntersects := intersectsView ruleStartIdx ruleEndIdx totalDays in
  let shadowIntersects :=
    match shadowIdx with
    | Some (shadowStartIdx, shadowEndIdx) =>
        intersectsView shadowStartIdx shadowEndIdx totalDays
    | None => false
    end in
  if negb ruleIntersects && negb shadowIntersects then JS.Normal None
  else
    let ruleStartIdx := mathMax (JS.Num 0) ruleStartIdx in
    let ruleEndIdx := mathMin (sub totalDays (JS.Num 1)) ruleEndIdx in
    let highlight := existsb (Z.eqb (Rule.id rule)) highlightedRuleIds in
    shadowOverlay <-
      match Rule.maxDaysToArrival rule, shadowIdx with
      | Some maxDays, Some (shadowStartIdx, shadowEndIdx) =>
          if shadowIntersects then
            let visibleStartIdx := mathMax (JS.Num 0) shadowStartIdx in
            let visibleEndIdx :=
              mathMin (sub totalDays (JS.Num 1)) shadowEndIdx in
            if le visibleStartIdx visibleEndIdx then
              ruleFromDate <- parseISO (Rule.from rule) ;;
              let shadowEnd := shadowEndOf ruleFromDate in
              let shadowStart := shadowStartOf ruleFromDate maxDays in
              startText <- format shadowStart "MMM d, yyyy" ;;
              endText <- format shadowEnd "MMM d, yyyy" ;;
              fromText <- format ruleFromDate "MMM d, yyyy" ;;
              JS.Normal
                (Some {| visibleStartIdx := visibleStartIdx;
                         visibleEndIdx := visibleEndIdx;
                         shadowStartText := startText;
                         shadowEndText := endText;
                         ruleFromText := fromText |})
            else JS.Normal None
          else JS.Normal None
      | _, _ => JS.Normal None
      end ;;
    fromDate' <- parseISO (Rule.from rule) ;;
    fromText <- format fromDate' "yyyy-MM-dd" ;;
    toDate' <- parseISO (Rule.to rule) ;;
    toText <- format toDate' "yyyy-MM-dd" ;;
    JS.Normal
      (Some {| rowRule := rule;
               ruleIntersects := ruleIntersects;
               ruleStartIdx := ruleStartIdx;
               ruleEndIdx := ruleEndIdx;
               highlight := highlight;
               shadowOverlay := shadowOverlay;
               fromText := fromText;
               toText := toText |}).

End Rows.

End Timeline.

(* ================================================================== *)
(** ** The handlers of the application ([App], [APIConfiguration]) *)
(* ================================================================== *)

Module App.

(** The part of the state of [App] that the handlers below write. *)
Record State : Type := {
  rules : list Rule.PriceRule;
  year : Z;
  searchHistory : list History.SearchItem
}.

(** [useState([])], [useState(() => new Date().getFullYear())],
    [useState([])]. *)
Definition initial (currentYear : Z) : State :=
  {| rules := []; year := currentYear; searchHistory := [] |}.

Definition setRules (loadedRules : list Rule.PriceRule) (st : State)
  : State :=
  {| rules := loadedRules; year := year st;
     searchHistory := searchHistory st |}.

Definition setYear (y : Z) (st : State) : State :=
  {| rules := rules st; year := y; searchHistory := searchHistory st |}.

Definition setSearchHistory
  (update : list History.SearchItem -> list History.SearchItem)
  (st : State) : State :=
  {| rules := rules st; year := year st;
     searchHistory := update (searchHistory st) |}.

(** The value of the season [select]: its empty option, ['all'], or the
    decimal text of a year, of which [parseInt(season, 10)] is that
    year. *)
Inductive seasonChoice : Type :=
| NoSeason
| AllSeasons
| OneSeason (season : Z).

Definition message (e : JS.exn) : string :=
  match e with
  | JS.Exn _ m => m
  end.

Definition fillInAlert : string :=
  "Please fill in all fields: accommodation code and season".

Definition fetchAlert (e : JS.exn) : string :=
  String.append "Failed to fetch price rules from API: " (message e).

Definition fileAlert : string :=
  "Failed to parse the uploaded file. Please ensure it is valid XML containing price rules.".

Section Handlers.

Variable parseFromString : string -> Dom.Document.
Variable serializeToString : Dom.node -> string.
Variable parseFloat : string -> float.
Variable responseText : string -> Z -> JS.completion string.
Variable parseISO : option string -> JS.completion DateFns.Date.

(** [handleRulesLoaded(loadedRules)], and the statements of
    [handleFileChange] from [setRules(parsed)] on: the state afterwards
    and what was thrown.  [setRules] comes before the loop over the
    rules, so the rules are replaced also when a [parseISO] of the loop
    throws; [setYear] is then not reached. *)
Definition handleRulesLoaded (loadedRules : list Rule.PriceRule)
  (st : State) : State * option JS.exn :=
  let st := setRules loadedRules st in
  match Years.handleRulesLoaded parseISO loadedRules (year st) with
  | JS.Normal y => (setYear y st, None)
  | JS.Throw e => (st, Some e)
  end.

(** [handleAddToHistory(searchItem)] *)
Definition handleAddToHistory (searchItem : History.SearchItem)
  (st : State) : State :=
  setSearchHistory (fun prev => History.handleAddToHistory prev searchItem)
    st.

(** [handleFileChange]: [file] is [None] when no file was chosen, and
    else what [await file.text()] gives.  The result is the state
    afterwards and the text of the alert, if there is one. *)
Definition handleFileChange (file : option (JS.completion string))
  (st : State) : State * option string :=
  match file with
  | None => (st, None)
  | Some (JS.Throw _) => (st, Some fileAlert)
  | Some (JS.Normal text) =>
      match parseXmlRules parseFromString serializeToString parseFloat
              text with
      | JS.Throw _ => (st, Some fileAlert)
      | JS.Normal parsed =>
          match handleRulesLoaded parsed st with
          | (st', None) => (st', None)
          | (st', Some _) => (st', Some fileAlert)
          end
      end
  end.

(** [handleFetchFromAPI], for the accommodation code and the season of
    the form and the year of the clock.  The saleability request that
    follows writes none of the three fields, and what it throws is
    caught on the spot. *)
Definition handleFetchFromAPI (accommodationCode : string)
  (season : seasonChoice) (currentYear : Z) (st : State)
  : State * option string :=
  match JS.truthyString (Some accommodationCode), season with
  | true, AllSeasons =>
      let allRules :=
        fetchAllSeasons parseFromString serializeToString parseFloat
          responseText accommodationCode currentYear in
      let st :=
        handleAddToHistory
          {| History.accommodationCode := accommodationCode;
             History.season := History.SeasonAll |} st in
      match handleRulesLoaded allRules st with
      | (st', None) => (st', None)
      | (st', Some e) => (st', Some (fetchAlert e))
      end
  | true, OneSeason yearSeason =>
      match fetchPriceRulesFromAPI parseFromString serializeToString
              parseFloat responseText accommodationCode yearSeason with
      | JS.Throw e => (st, Some (fetchAlert e))
      | JS.Normal allRules =>
          let st :=
            handleAddToHistory
              {| History.accommodationCode := accommodationCode;
                 History.season := History.SeasonYear (JS.Num yearSeason) |}
              st in
          match handleRulesLoaded allRules st with
          | (st', None) => (st', None)
          | (st', Some e) => (st', Some (fetchAlert e))
          end
      end
  | _, _ => (st, Some fillInAlert)
  end.

(** What the user does with the two loaders. *)
Inductive event : Type :=
| FileChosen (file : option (JS.completion string))
| FetchClicked (accommodationCode : string) (season : seasonChoice)
    (currentYear : Z).

Definition step (st : State) (ev : event) : State :=
  match ev with
  | FileChosen file => fst (handleFileChange file st)
  | FetchClicked accommodationCode season currentYear =>
      fst (handleFetchFromAPI accommodationCode season currentYear st)
  end.

End Handlers.

End App.

(* ================================================================== *)
(** ** Vocabulary for the years and the timeline *)
(* ================================================================== *)

(** The civil year of a local time. *)
Definition yearOf (t : Z) : Z := Years.yearOfDay (DateFns.dayNumber t).

(** The years of the valid dates that [parseISO] reads in a field of the
    rules, in rule order. *)
Definition validYears
  (parseISO : option string -> JS.completion DateFns.Date)
  (field : Rule.PriceRule -> option string) (rules : list Rule.PriceRule)
  : list Z :=
  flat_map
    (fun r =>
       match parseISO (field r) with
       | JS.Normal (DateFns.ValidDate t) => [yearOf t]
       | _ => []
       end)
    rules.

(** A bound that is the least (the greatest) of a list of years, and
    infinite when there is none. *)
Definition isMinimumOf (b : Years.minBound) (ys : list Z) : Prop :=
  match b with
  | Years.PlusInfinity => ys = []
  | Years.MinYear m => In m ys /\ forall y, In y ys -> m <= y
  end.

Definition isMaximumOf (b : Years.maxBound) (ys : list Z) : Prop :=
  match b with
  | Years.MinusInfinity => ys = []
  | Years.MaxYear m => In m ys /\ forall y, In y ys -> y <= m
  end.

(** A year and a month that the rule years [lo] to [hi] allow. *)
Definition inRuleYears (lo hi : Z) (state : Z * Z) : Prop :=
  lo <= fst state <= hi /\ 0 <= snd state <= 11.

(* ================================================================== *)
(** ** Worked data for the application state and the timeline *)
(* ================================================================== *)

Module SampleView.

Definition search (code : string) (season : Z) : History.SearchItem :=
  {| History.accommodationCode := code;
     History.season := History.SeasonYear (JS.Num season) |}.

(** A full history, and a search that is not in it. *)
Definition fiveSearches : list History.SearchItem :=
  [ search "A1" 2023; search "A1" 2024; search "A1" 2025;
    {| History.accommodationCode := "B2"; History.season := History.SeasonAll |};
    search "B2" 2025 ].

Definition sixthSearch : History.SearchItem := search "C3" 2025.

(** A rule from December 2025 to February 2026, bookable at most thirty
    days ahead. *)
Definition winter : Rule.PriceRule :=
  Sample.rule 2 "2025-12-01" "2026-02-28" [] None None (Some 30).

Definition twoSeasons : list Rule.PriceRule := [Sample.summer; winter].

Definition ruleYears : option Years.RuleYears :=
  Some {| Years.min := Years.MinYear 2025; Years.max := Years.MaxYear 2026 |}.

(** A stand-in for the text of [format]: the pattern itself. *)
Definition formatValid (t : Z) (pattern : string) : string := pattern.

(** The year view of 2025. *)
Definition yearStart : DateFns.Date :=
  DateFns.ValidDate (Sample.midnight 2025 1 1).

Definition threeRules : list Rule.PriceRule :=
  [Sample.firstHalf; Sample.wholeYear; Sample.secondHalf].

(** A document whose only rule has no [from]. *)
Definition openStartDocument : Dom.Document :=
  {| Dom.documentElement :=
       Dom.Element "rules" []
         [Dom.Element "rule" [] [Sample.field "to" "2025-08-31"]] |}.

Definition parseOpenStart (text : string) : Dom.Document :=
  openStartDocument.

End SampleView.

(* ================================================================== *)
(** ** Properties of the evaluator *)
(* ================================================================== *)

Section EvaluatorFacts.

Variable parseISO : option string -> JS.completion DateFns.Date.

(** Once the booking is complete and the three dates are read, the
    verdict is the conjunction of the four checks. *)
Lemma isBookingAllowedByRule_checks rule startDate length creation
  arrival ruleStart ruleEnd :
  JS.truthyString startDate = true ->
  JS.truthyNumber length = true ->
  parseISO startDate = JS.Normal arrival ->
  parseISO (Rule.from rule) = JS.Normal ruleStart ->
  parseISO (Rule.to rule) = JS.Normal ruleEnd ->
  isBookingAllowedByRule parseISO rule startDate length creation
  = JS.Normal (negb (outsideDateRange arrival ruleStart ruleEnd)
               && negb (stayLengthViolated rule length)
               && negb (bookingWindowExceeded rule arrival creation)
               && negb (weekdayNotPermitted rule arrival)).
Proof.
  intros Hs Hl Ha Hf Ht.
  unfold isBookingAllowedByRule.
  rewrite Hs, Hl, Ha, Hf, Ht. cbn.
  destruct (outsideDateRange arrival ruleStart ruleEnd); [reflexivity|].
  destruct (stayLengthViolated rule length); [reflexivity|].
  destruct (bookingWindowExceeded rule arrival creation); [reflexivity|].
  destruct (weekdayNotPermitted rule arrival); reflexivity.
Qed.

(** What is falsy: a missing or empty string, a missing number, [NaN]
    and zero. *)
Lemma truthyString_false (s : option string) :
  JS.truthyString s = false <-> s = None \/ s = Some EmptyString.
Proof.
  destruct s as [s|]; cbn.
  - rewrite negb_false_iff, String.eqb_eq.
    split; [intros ->; now right | intros [H|H]; congruence].
  - split; [now left | reflexivity].
Qed.

Lemma truthyNumber_false (n : option JS.number) :
  JS.truthyNumber n = false
  <-> n = None \/ n = Some JS.NaN \/ n = Some (JS.Num 0).
Proof.
  destruct n as [[|z]|]; cbn.
  - split; [now right; left | reflexivity].
  - rewrite negb_false_iff, Z.eqb_eq.
    split; [intros ->; now right; right | intros [H|[H|H]]; congruence].
  - split; [now left | reflexivity].
Qed.

Lemma truthyNumber_Num (n : option JS.number) :
  JS.truthyNumber n = true <-> exists z, n = Some (JS.Num z) /\ z <> 0.
Proof.
  destruct n as [[|z]|]; cbn.
  - split; [discriminate | intros (z & H & _); discriminate].
  - rewrite negb_true_iff, Z.eqb_neq.
    split; [intros H; now exists z | intros (z' & [= ->] & H); exact H].
  - split; [discriminate | intros (z & H & _); discriminate].
Qed.

(** C7. Presence check: when the booking's arrival date or stay length
    is absent or falsy, [isBookingAllowedByRule] returns [false] at once:
    for every rule, every reference date and every behaviour of
    [parseISO], which is not called.  The call returns normally; an
    incomplete booking is never an error. *)
Theorem presence_check rule startDate length creation :
  JS.truthyString startDate = false \/ JS.truthyNumber length = false ->
  isBookingAllowedByRule parseISO rule startDate length creation
  = JS.Normal false.
Proof.
  intros [H|H]; unfold isBookingAllowedByRule; rewrite H; cbn.
  - reflexivity.
  - now rewrite orb_true_r.
Qed.

(** C1. Booking-window check: for a rule whose [maxDaysToArrival] is set
    and a complete booking, the check rejects exactly when the gap in
    calendar days from the reference date to the arrival date exceeds
    [maxDaysToArrival].  A larger gap makes the verdict [false]; a gap up
    to the bound, the bound included, leaves the verdict to the other
    checks: it is the verdict of the same rule without the bound.  In
    particular a negative gap (an arrival before the reference date)
    passes the check of a rule whose bound is, as the data model has it,
    not negative. *)
Theorem booking_window_check rule startDate length arrival creation
  ruleStart ruleEnd maxDays :
  Rule.maxDaysToArrival rule = Some (JS.Num maxDays) ->
  JS.truthyString startDate = true ->
  JS.truthyNumber length = true ->
  parseISO startDate = JS.Normal (DateFns.ValidDate arrival) ->
  parseISO (Rule.from rule) = JS.Normal ruleStart ->
  parseISO (Rule.to rule) = JS.Normal ruleEnd ->
  let gap := calendarDaysBetween creation arrival in
  (bookingWindowExceeded rule (DateFns.ValidDate arrival)
                         (DateFns.ValidDate creation) = true
   <-> maxDays < gap)
  /\ (maxDays < gap ->
      isBookingAllowedByRule parseISO rule startDate length
                             (DateFns.ValidDate creation)
      = JS.Normal false)
  /\ (gap <= maxDays ->
      isBookingAllowedByRule parseISO rule startDate length
                             (DateFns.ValidDate creation)
      = isBookingAllowedByRule parseISO
          (Rule.withMaxDaysToArrival rule None) startDate length
          (DateFns.ValidDate creation))
  /\ (0 <= maxDays -> gap < 0 ->
      bookingWindowExceeded rule (DateFns.ValidDate arrival)
                            (DateFns.ValidDate creation) = false).
Proof.
  intros Hmax Hs Hl Ha Hf Ht gap.
  assert (Hw : bookingWindowExceeded rule (DateFns.ValidDate arrival)
                 (DateFns.ValidDate creation) = (maxDays <? gap)).
  { unfold bookingWindowExceeded. now rewrite Hmax. }
  split; [|split; [|split]].
  - rewrite Hw. apply Z.ltb_lt.
  - intros Hgap.
    rewrite (isBookingAllowedByRule_checks _ _ _ _ _ _ _ Hs Hl Ha Hf Ht).
    rewrite Hw. apply Z.ltb_lt in Hgap. rewrite Hgap. cbn.
    now rewrite andb_false_r.
  - intros Hgap.
    rewrite (isBookingAllowedByRule_checks _ _ _ _ _ _ _ Hs Hl Ha Hf Ht).
    rewrite (isBookingAllowedByRule_checks
               (Rule.withMaxDaysToArrival rule None) _ _ _ _ _ _
               Hs Hl Ha Hf Ht).
    rewrite Hw. apply Z.ltb_ge in Hgap. rewrite Hgap.
    reflexivity.
  - intros Hbound Hneg. rewrite Hw. apply Z.ltb_ge. lia.
Qed.

(** C2. Date-range check: for a rule whose [from] and [to] are read as
    dates and a complete booking, the check is inclusive at both ends.  It
    rejects exactly when the arrival is strictly before [from] or
    strictly after [to], and the verdict is then [false]; an arrival
    within the range, the two ends included, leaves the verdict to the
    three other checks. *)
Theorem date_range_check rule startDate length creation arrival validFrom
  validTo :
  JS.truthyString startDate = true ->
  JS.truthyNumber length = true ->
  parseISO startDate = JS.Normal (DateFns.ValidDate arrival) ->
  parseISO (Rule.from rule) = JS.Normal (DateFns.ValidDate validFrom) ->
  parseISO (Rule.to rule) = JS.Normal (DateFns.ValidDate validTo) ->
  (outsideDateRange (DateFns.ValidDate arrival) (DateFns.ValidDate validFrom)
                    (DateFns.ValidDate validTo) = true
   <-> arrival < validFrom \/ validTo < arrival)
  /\ (arrival < validFrom \/ validTo < arrival ->
      isBookingAllowedByRule parseISO rule startDate length creation
      = JS.Normal false)
  /\ (validFrom <= arrival <= validTo ->
      isBookingAllowedByRule parseISO rule startDate length creation
      = JS.Normal
          (negb (stayLengthViolated rule length)
           && negb (bookingWindowExceeded rule (DateFns.ValidDate arrival)
                                          creation)
           && negb (weekdayNotPermitted rule (DateFns.ValidDate arrival)))).
Proof.
  intros Hs Hl Ha Hf Ht.
  assert (Hr : outsideDateRange (DateFns.ValidDate arrival)
                 (DateFns.ValidDate validFrom) (DateFns.ValidDate validTo)
               = true <-> arrival < validFrom \/ validTo < arrival).
  { unfold outsideDateRange. cbn.
    rewrite orb_true_iff, !Z.ltb_lt. reflexivity. }
  split; [exact Hr|split].
  - intros Hout. apply Hr in Hout.
    rewrite (isBookingAllowedByRule_checks _ _ _ _ _ _ _ Hs Hl Ha Hf Ht).
    now rewrite Hout.
  - intros Hin.
    rewrite (isBookingAllowedByRule_checks _ _ _ _ _ _ _ Hs Hl Ha Hf Ht).
    assert (E : outsideDateRange (DateFns.ValidDate arrival)
                  (DateFns.ValidDate validFrom) (DateFns.ValidDate validTo)
                = false).
    { apply not_true_is_false. intros E. apply Hr in E. lia. }
    now rewrite E.
Qed.

(** [Array.prototype.includes] finds an integer exactly when it is an
    element. *)
Lemma includes_Num (arr : list JS.number) (z : Z) :
  JS.includes arr (JS.Num z) = true <-> In (JS.Num z) arr.
Proof.
  unfold JS.includes. rewrite existsb_exists. split.
  - intros (y & Hin & Heq).
    destruct y as [|y]; cbn in Heq; [discriminate|].
    apply Z.eqb_eq in Heq. now subst y.
  - intros Hin. exists (JS.Num z). split; [exact Hin|].
    cbn. apply Z.eqb_refl.
Qed.

(** The conversion of [getDay] (0 is Sunday) to the numbering of the
    rules gives Monday = 1 ... Sunday = 7. *)
Lemma weekday_conversion (t : Z) :
  (let jsDay := DateFns.getDay (DateFns.ValidDate t) in
   if JS.strictEq jsDay (JS.Num 0) then JS.Num 7 else jsDay)
  = JS.Num (isoNumber (weekdayOf t)).
Proof.
  cbn. unfold weekdayOf.
  set (d := DateFns.dayNumber t).
  assert (Hr : 0 <= (d + 3) mod 7 < 7) by (apply Z.mod_pos_bound; lia).
  assert (Hd : (d + 4) mod 7 = ((d + 3) mod 7 + 1) mod 7).
  { replace (d + 4) with ((d + 3) + 1) by lia.
    rewrite Z.add_mod by lia. reflexivity. }
  rewrite Hd.
  assert (Hc : (d + 3) mod 7 = 0 \/ (d + 3) mod 7 = 1 \/ (d + 3) mod 7 = 2
               \/ (d + 3) mod 7 = 3 \/ (d + 3) mod 7 = 4
               \/ (d + 3) mod 7 = 5 \/ (d + 3) mod 7 = 6) by lia.
  destruct Hc as [E|[E|[E|[E|[E|[E|E]]]]]]; rewrite E; reflexivity.
Qed.

Lemma weekdayNotPermitted_valid rule (t : Z) :
  Rule.arrivalWeekdays rule <> [] ->
  weekdayNotPermitted rule (DateFns.ValidDate t)
  = negb (JS.includes (Rule.arrivalWeekdays rule)
                      (JS.Num (isoNumber (weekdayOf t)))).
Proof.
  intros Hne. unfold weekdayNotPermitted.
  destruct (Rule.arrivalWeekdays rule) as [|w ws] eqn:E; [congruence|].
  replace (0 <? Z.of_nat (List.length (w :: ws))) with true
    by (symmetry; apply Z.ltb_lt; cbn [List.length]; lia).
  now rewrite <- weekday_conversion.
Qed.

(** C3. Weekday check: for a rule with a non-empty [arrivalWeekdays] and
    a complete booking whose dates are read, the verdict is [true] only if
    the weekday of the arrival date, numbered Monday = 1 ... Sunday = 7, is
    in [arrivalWeekdays]; a weekday outside the set makes the verdict
    [false] whatever the other fields are, and a weekday in the set leaves
    the verdict to the other checks.  An empty [arrivalWeekdays] restricts
    nothing: the verdict is that of the three other checks. *)
Theorem weekday_check rule startDate length creation arrival ruleStart
  ruleEnd :
  JS.truthyString startDate = true ->
  JS.truthyNumber length = true ->
  parseISO startDate = JS.Normal (DateFns.ValidDate arrival) ->
  parseISO (Rule.from rule) = JS.Normal ruleStart ->
  parseISO (Rule.to rule) = JS.Normal ruleEnd ->
  let day := JS.Num (isoNumber (weekdayOf arrival)) in
  let otherChecks :=
    negb (outsideDateRange (DateFns.ValidDate arrival) ruleStart ruleEnd)
    && negb (stayLengthViolated rule length)
    && negb (bookingWindowExceeded rule (DateFns.ValidDate arrival) creation)
  in
  (Rule.arrivalWeekdays rule <> [] ->
   (isBookingAllowedByRule parseISO rule startDate length creation
    = JS.Normal true -> In day (Rule.arrivalWeekdays rule))
   /\ (~ In day (Rule.arrivalWeekdays rule) ->
       isBookingAllowedByRule parseISO rule startDate length creation
       = JS.Normal false)
   /\ (In day (Rule.arrivalWeekdays rule) ->
       isBookingAllowedByRule parseISO rule startDate length creation
       = JS.Normal otherChecks))
  /\ (Rule.arrivalWeekdays rule = [] ->
      isBookingAllowedByRule parseISO rule startDate length creation
      = JS.Normal otherChecks).
Proof.
  intros Hs Hl Ha Hf Ht day otherChecks.
  rewrite (isBookingAllowedByRule_checks _ _ _ _ _ _ _ Hs Hl Ha Hf Ht).
  fold otherChecks.
  split.
  - intros Hne. rewrite (weekdayNotPermitted_valid _ _ Hne).
    rewrite negb_involutive. fold day.
    destruct (JS.includes (Rule.arrivalWeekdays rule) day) eqn:E.
    + apply includes_Num in E.
      split; [|split]; [easy | easy | now rewrite andb_true_r].
    + assert (Hnot : ~ In day (Rule.arrivalWeekdays rule)).
      { intros Hin. apply includes_Num in Hin. unfold day in E. congruence. }
      rewrite andb_false_r.
      split; [|split]; [discriminate | easy | easy].
  - intros Hempty. unfold weekdayNotPermitted. rewrite Hempty. cbn.
    now rewrite andb_true_r.
Qed.

(** C4. Stay-length check: for a rule whose [minStay] and [maxStay] are
    positive integers when set, and a complete booking of [stay] nights,
    the check rejects exactly when [minStay] is set and [stay < minStay],
    or [maxStay] is set and [stay > maxStay]; the verdict is then [false].
    Both bounds are inclusive and an absent bound restricts nothing:
    otherwise the verdict is that of the three other checks. *)
Theorem stay_length_check rule startDate stay creation arrival ruleStart
  ruleEnd :
  positiveWhenSet (Rule.minStay rule) ->
  positiveWhenSet (Rule.maxStay rule) ->
  JS.truthyString startDate = true ->
  stay <> 0 ->
  parseISO startDate = JS.Normal arrival ->
  parseISO (Rule.from rule) = JS.Normal ruleStart ->
  parseISO (Rule.to rule) = JS.Normal ruleEnd ->
  let tooShort := exists m, Rule.minStay rule = Some (JS.Num m) /\ stay < m in
  let tooLong := exists m, Rule.maxStay rule = Some (JS.Num m) /\ m < stay in
  (stayLengthViolated rule (Some (JS.Num stay)) = true
   <-> tooShort \/ tooLong)
  /\ (tooShort \/ tooLong ->
      isBookingAllowedByRule parseISO rule startDate (Some (JS.Num stay))
                             creation
      = JS.Normal false)
  /\ (~ (tooShort \/ tooLong) ->
      isBookingAllowedByRule parseISO rule startDate (Some (JS.Num stay))
                             creation
      = JS.Normal
          (negb (outsideDateRange arrival ruleStart ruleEnd)
           && negb (bookingWindowExceeded rule arrival creation)
           && negb (weekdayNotPermitted rule arrival))).
Proof.
  intros Hmin Hmax Hs Hstay Ha Hf Ht tooShort tooLong.
  assert (Hl : JS.truthyNumber (Some (JS.Num stay)) = true).
  { cbn. now apply negb_true_iff, Z.eqb_neq. }
  assert (Hv : stayLengthViolated rule (Some (JS.Num stay)) = true
               <-> tooShort \/ tooLong).
  { unfold stayLengthViolated, tooShort, tooLong.
    rewrite orb_true_iff, !andb_true_iff.
    destruct (Rule.minStay rule) as [[|lo]|], (Rule.maxStay rule) as [[|hi]|];
      cbn in Hmin, Hmax |- *; try contradiction;
      unfold JS.gt; cbn;
      rewrite ?negb_true_iff, ?Z.eqb_neq, ?Z.ltb_lt;
      (split;
       [ intros [[_ H]|[_ H]]; try discriminate;
         solve [ left; eexists; split; [reflexivity|lia]
               | right; eexists; split; [reflexivity|lia] ]
       | intros [(m & [= <-] & H)|(m & [= <-] & H)];
         solve [ left; split; lia | right; split; lia ] ]). }
  split; [exact Hv|split].
  - intros Hbad. apply Hv in Hbad.
    rewrite (isBookingAllowedByRule_checks _ _ _ _ _ _ _ Hs Hl Ha Hf Ht).
    rewrite Hbad. cbn. now rewrite andb_false_r.
  - intros Hgood.
    assert (E : stayLengthViolated rule (Some (JS.Num stay)) = false).
    { apply not_true_is_false. intros E. now apply Hv in E. }
    rewrite (isBookingAllowedByRule_checks _ _ _ _ _ _ _ Hs Hl Ha Hf Ht).
    rewrite E. cbn. now rewrite andb_true_r.
Qed.

(** Two rules with the same dates on which the three later checks agree
    get the same verdict. *)
Lemma isBookingAllowedByRule_ext rule rule' startDate length creation :
  Rule.from rule = Rule.from rule' ->
  Rule.to rule = Rule.to rule' ->
  stayLengthViolated rule length = stayLengthViolated rule' length ->
  (forall arrival, bookingWindowExceeded rule arrival creation
                   = bookingWindowExceeded rule' arrival creation) ->
  (forall arrival, weekdayNotPermitted rule arrival
                   = weekdayNotPermitted rule' arrival) ->
  isBookingAllowedByRule parseISO rule startDate length creation
  = isBookingAllowedByRule parseISO rule' startDate length creation.
Proof.
  intros Hf Ht Hstay Hwin Hday.
  unfold isBookingAllowedByRule.
  destruct (negb (JS.truthyString startDate) || negb (JS.truthyNumber length));
    [reflexivity|].
  rewrite Hf, Ht, Hstay.
  destruct (parseISO startDate) as [arrival|]; [|reflexivity]. cbn.
  destruct (parseISO (Rule.from rule')) as [ruleStart|]; [|reflexivity]. cbn.
  destruct (parseISO (Rule.to rule')) as [ruleEnd|]; [|reflexivity]. cbn.
  now rewrite Hwin, Hday.
Qed.

(** C10. Zero-valued bounds: a [minStay] or [maxStay] equal to the number
    0 restricts nothing (the verdict is that of the same rule without the
    bound, for every booking), whereas a [maxDaysToArrival] equal to 0 is
    enforced: every complete booking that arrives at least one calendar
    day after the reference date gets the verdict [false]. *)
Theorem zero_valued_bounds rule startDate length creation :
  (Rule.minStay rule = Some (JS.Num 0) ->
   stayLengthViolated rule length
   = stayLengthViolated (Rule.withMinStay rule None) length
   /\ isBookingAllowedByRule parseISO rule startDate length creation
      = isBookingAllowedByRule parseISO (Rule.withMinStay rule None)
                               startDate length creation)
  /\ (Rule.maxStay rule = Some (JS.Num 0) ->
      stayLengthViolated rule length
      = stayLengthViolated (Rule.withMaxStay rule None) length
      /\ isBookingAllowedByRule parseISO rule startDate length creation
         = isBookingAllowedByRule parseISO (Rule.withMaxStay rule None)
                                  startDate length creation)
  /\ (Rule.maxDaysToArrival rule = Some (JS.Num 0) ->
      forall arrival reference ruleStart ruleEnd,
        JS.truthyString startDate = true ->
        JS.truthyNumber length = true ->
        parseISO startDate = JS.Normal (DateFns.ValidDate arrival) ->
        parseISO (Rule.from rule) = JS.Normal ruleStart ->
        parseISO (Rule.to rule) = JS.Normal ruleEnd ->
        creation = DateFns.ValidDate reference ->
        0 < calendarDaysBetween reference arrival ->
        isBookingAllowedByRule parseISO rule startDate length creation
        = JS.Normal false).
Proof.
  split; [|split].
  - intros Hmin.
    assert (E : stayLengthViolated rule length
                = stayLengthViolated (Rule.withMinStay rule None) length).
    { unfold stayLengthViolated. cbn. now rewrite Hmin. }
    split; [exact E|].
    now apply isBookingAllowedByRule_ext.
  - intros Hmax.
    assert (E : stayLengthViolated rule length
                = stayLengthViolated (Rule.withMaxStay rule None) length).
    { unfold stayLengthViolated. cbn. now rewrite Hmax. }
    split; [exact E|].
    now apply isBookingAllowedByRule_ext.
  - intros Hzero arrival reference ruleStart ruleEnd Hs Hl Ha Hf Ht -> Hgap.
    rewrite (isBookingAllowedByRule_checks _ _ _ _ _ _ _ Hs Hl Ha Hf Ht).
    assert (E : bookingWindowExceeded rule (DateFns.ValidDate arrival)
                  (DateFns.ValidDate reference) = true).
    { unfold bookingWindowExceeded. rewrite Hzero. cbn.
      apply Z.ltb_lt. exact Hgap. }
    rewrite E. cbn. now rewrite andb_false_r.
Qed.

(** When every evaluation returns, the filter of [BookingSelector] keeps
    the rules whose verdict is [true], in order. *)
Lemma filterAllowed_returns rules startDate length creation :
  (forall r, In r rules ->
     exists b, isBookingAllowedByRule parseISO r (Some startDate)
                 (Some length) creation = JS.Normal b) ->
  filterAllowed parseISO rules startDate length creation
  = JS.Normal
      (filter (fun r => returnedTrue
                 (isBookingAllowedByRule parseISO r (Some startDate)
                    (Some length) creation))
              rules).
Proof.
  induction rules as [|r rest IH]; intros Hall; [reflexivity|].
  cbn [filterAllowed filter].
  destruct (Hall r (or_introl eq_refl)) as [b Hb]. rewrite Hb. cbn.
  rewrite IH by (intros r' Hin; apply Hall; now right). cbn.
  now destruct b.
Qed.

(** C5, as the code has it.  When a date string of the rule or of the
    booking is not a calendar date, [parseISO] returns an invalid [Date]
    and the evaluation of that pair returns a boolean verdict; no error is
    raised.  Every comparison with the invalid date is false: an invalid
    [from] sets no lower limit and an invalid [to] no upper limit, and an
    invalid arrival date passes the date-range and the booking-window
    checks, so that the stay-length and weekday checks alone decide.  The
    filter over a batch of rules therefore returns: it keeps the rules of
    the batch whose verdict is [true], those before and those after the
    rule with the invalid date. *)
Theorem invalid_date_verdict rule startDate length creation arrival
  ruleStart ruleEnd before after :
  JS.truthyString (Some startDate) = true ->
  JS.truthyNumber (Some length) = true ->
  parseISO (Some startDate) = JS.Normal arrival ->
  parseISO (Rule.from rule) = JS.Normal ruleStart ->
  parseISO (Rule.to rule) = JS.Normal ruleEnd ->
  arrival = DateFns.InvalidDate \/ ruleStart = DateFns.InvalidDate
  \/ ruleEnd = DateFns.InvalidDate ->
  (forall r, In r (before ++ after) ->
     exists b, isBookingAllowedByRule parseISO r (Some startDate)
                 (Some length) creation = JS.Normal b) ->
  let verdict :=
    isBookingAllowedByRule parseISO rule (Some startDate) (Some length)
                           creation in
  (exists b, verdict = JS.Normal b)
  /\ (ruleStart = DateFns.InvalidDate ->
      verdict
      = JS.Normal (negb (DateFns.isAfter arrival ruleEnd)
                   && negb (stayLengthViolated rule (Some length))
                   && negb (bookingWindowExceeded rule arrival creation)
                   && negb (weekdayNotPermitted rule arrival)))
  /\ (ruleEnd = DateFns.InvalidDate ->
      verdict
      = JS.Normal (negb (DateFns.isBefore arrival ruleStart)
                   && negb (stayLengthViolated rule (Some length))
                   && negb (bookingWindowExceeded rule arrival creation)
                   && negb (weekdayNotPermitted rule arrival)))
  /\ (arrival = DateFns.InvalidDate ->
      verdict
      = JS.Normal (negb (stayLengthViolated rule (Some length))
                   && negb (weekdayNotPermitted rule DateFns.InvalidDate)))
  /\ filterAllowed parseISO (before ++ rule :: after) startDate length
                   creation
     = JS.Normal
         (filter (fun r => returnedTrue
                    (isBookingAllowedByRule parseISO r (Some startDate)
                       (Some length) creation))
                 (before ++ rule :: after)).
Proof.
  intros Hs Hl Ha Hf Ht _ Hothers verdict.
  pose proof (isBookingAllowedByRule_checks rule _ _ creation _ _ _
                Hs Hl Ha Hf Ht) as Hrule.
  fold verdict in Hrule.
  split; [eexists; exact Hrule|].
  split.
  { intros ->. rewrite Hrule. unfold outsideDateRange.
    now destruct arrival. }
  split.
  { intros ->. rewrite Hrule. unfold outsideDateRange.
    destruct arrival; cbn; [reflexivity|].
    now rewrite orb_false_r. }
  split.
  - intros ->. rewrite Hrule. unfold outsideDateRange, bookingWindowExceeded.
    cbn. now destruct (Rule.maxDaysToArrival rule) as [[|m]|]; cbn;
      rewrite ?andb_true_r.
  - apply filterAllowed_returns. intros r Hin.
    apply in_app_or in Hin. destruct Hin as [Hin|[<-|Hin]].
    + apply Hothers, in_or_app. now left.
    + eexists. exact Hrule.
    + apply Hothers, in_or_app. now right.
Qed.

(** [parseISO] returns a [Date] for every string; so the evaluation of a
    rule that has a [from] and a [to] returns a verdict. *)
Lemma evaluation_returns rule from to startDate length creation :
  (forall s, exists d, parseISO (Some s) = JS.Normal d) ->
  Rule.from rule = Some from ->
  Rule.to rule = Some to ->
  exists b,
    isBookingAllowedByRule parseISO rule (Some startDate) length creation
    = JS.Normal b.
Proof.
  intros Htotal Hf Ht.
  destruct (negb (JS.truthyString (Some startDate))
            || negb (JS.truthyNumber length)) eqn:E.
  - exists false. unfold isBookingAllowedByRule. now rewrite E.
  - apply orb_false_iff in E. destruct E as [Es El].
    apply negb_false_iff in Es, El.
    destruct (Htotal startDate) as [arrival Ha].
    destruct (Htotal from) as [ruleStart Hs].
    destruct (Htotal to) as [ruleEnd He].
    rewrite <- Hf in Hs. rewrite <- Ht in He.
    eexists. now apply isBookingAllowedByRule_checks with (arrival := arrival)
      (ruleStart := ruleStart) (ruleEnd := ruleEnd).
Qed.

(** *** The highlighted ids *)

Lemma filter_comm {A : Type} (p q : A -> bool) (l : list A) :
  filter p (filter q l) = filter q (filter p l).
Proof.
  induction l as [|x l IH]; [reflexivity|].
  cbn. destruct (q x) eqn:Eq, (p x) eqn:Ep; cbn; rewrite ?Eq, ?Ep, IH;
    reflexivity.
Qed.

Lemma filter_both {A : Type} (p q : A -> bool) (l : list A) :
  filter p (filter q l) = filter (fun x => q x && p x) l.
Proof.
  induction l as [|x l IH]; [reflexivity|].
  cbn. destruct (q x); cbn; [destruct (p x)|]; now rewrite IH.
Qed.

Lemma firstSeen_filter (p : Z -> bool) (l : list Z) :
  firstSeen (filter p l) = filter p (firstSeen l).
Proof.
  induction l as [|x l IH]; [reflexivity|].
  cbn. destruct (p x) eqn:Ep; cbn.
  - now rewrite IH, filter_comm.
  - rewrite IH, filter_both. apply filter_ext_in.
    intros y _. destruct (y =? x) eqn:E; [|reflexivity].
    apply Z.eqb_eq in E. subst y. now rewrite Ep.
Qed.

Lemma firstSeen_In (l : list Z) (x : Z) : In x (firstSeen l) <-> In x l.
Proof.
  induction l as [|y l IH]; [reflexivity|].
  cbn. rewrite filter_In, IH, negb_true_iff, Z.eqb_neq.
  destruct (Z.eq_dec y x); [tauto|].
  split; [tauto|]. intros [H|H]; [tauto|]. right. split; [exact H|congruence].
Qed.

Lemma firstSeen_NoDup (l : list Z) : NoDup (firstSeen l).
Proof.
  induction l as [|y l IH]; cbn; constructor.
  - rewrite filter_In, negb_true_iff, Z.eqb_neq. tauto.
  - now apply NoDup_filter.
Qed.

(** Pushing the ids of a list one by one, each unless present, appends
    the first occurrences of those that were not yet there. *)
Lemma fold_pushIfNew (l acc : list Z) :
  fold_left pushIfNew l acc
  = acc ++ firstSeen (filter (fun x => negb (existsb (Z.eqb x) acc)) l).
Proof.
  revert acc. induction l as [|x l IH]; intros acc; cbn.
  - now rewrite app_nil_r.
  - unfold pushIfNew at 2.
    destruct (existsb (Z.eqb x) acc) eqn:E; cbn; rewrite IH; [reflexivity|].
    rewrite <- app_assoc. cbn. do 2 f_equal.
    rewrite <- firstSeen_filter, filter_both. f_equal.
    apply filter_ext. intros y.
    rewrite existsb_app. cbn. rewrite orb_false_r, negb_orb.
    reflexivity.
Qed.

Lemma fold_pushIfNew_nil (l : list Z) :
  fold_left pushIfNew l [] = firstSeen l.
Proof.
  rewrite fold_pushIfNew. cbn. f_equal.
  induction l as [|x l IH]; [reflexivity|]. cbn. now rewrite IH.
Qed.

Lemma forEachRule_returns rules startDate length bookingDate ids :
  (forall r, In r rules ->
     exists b, isBookingAllowedByRule parseISO r (Some startDate)
                 (Some length) bookingDate = JS.Normal b) ->
  forEachRule parseISO rules startDate length bookingDate ids
  = JS.Normal
      (fold_left pushIfNew
         (map Rule.id
            (filter (fun r => returnedTrue
                       (isBookingAllowedByRule parseISO r (Some startDate)
                          (Some length) bookingDate))
                    rules))
         ids).
Proof.
  revert ids. induction rules as [|r rest IH]; intros ids Hall;
    [reflexivity|].
  cbn [forEachRule filter].
  destruct (Hall r (or_introl eq_refl)) as [b Hb]. rewrite Hb. cbn.
  rewrite IH by (intros r' Hin; apply Hall; now right).
  now destruct b.
Qed.

(** A row that the loop skips matches no rule. *)
Lemma incomplete_entry_matches_nothing entry rule bookingDate :
  negb (JS.truthyString (Some (entryStartDate entry)))
  || negb (JS.truthyString (Some (entryLength entry))) = true ->
  isBookingAllowedByRule parseISO rule (Some (entryStartDate entry))
    (Some (JS.parseInt (entryLength entry))) bookingDate
  = JS.Normal false.
Proof.
  intros H. unfold isBookingAllowedByRule.
  apply orb_true_iff in H. destruct H as [H|H].
  - now rewrite H.
  - apply negb_true_iff, truthyString_false in H.
    destruct H as [H|H]; [discriminate|].
    injection H as H. rewrite H. cbn. now rewrite orb_true_r.
Qed.

Lemma forEachEntry_returns bookingEntries rules bookingDate ids :
  (forall rule entry, In rule rules -> In entry bookingEntries ->
     exists b, isBookingAllowedByRule parseISO rule
                 (Some (entryStartDate entry))
                 (Some (JS.parseInt (entryLength entry))) bookingDate
               = JS.Normal b) ->
  forEachEntry parseISO bookingEntries rules bookingDate ids
  = JS.Normal
      (fold_left pushIfNew
         (flat_map
            (fun entry =>
               map Rule.id
                 (filter (fun rule => returnedTrue
                            (isBookingAllowedByRule parseISO rule
                               (Some (entryStartDate entry))
                               (Some (JS.parseInt (entryLength entry)))
                               bookingDate))
                         rules))
            bookingEntries)
         ids).
Proof.
  revert ids. induction bookingEntries as [|entry rest IH]; intros ids Hall;
    [reflexivity|].
  cbn [forEachEntry flat_map]. rewrite fold_left_app.
  destruct (negb (JS.truthyString (Some (entryStartDate entry)))
            || negb (JS.truthyString (Some (entryLength entry)))) eqn:E.
  - rewrite IH by (intros r e Hr He; apply Hall; [exact Hr|now right]).
    do 2 f_equal.
    replace (filter _ rules) with (@nil Rule.PriceRule); [reflexivity|].
    symmetry. clear -E. induction rules as [|r rs IHr]; [reflexivity|].
    cbn. now rewrite (incomplete_entry_matches_nothing _ _ _ E).
  - rewrite forEachRule_returns
      by (intros r Hr; apply Hall; [exact Hr|now left]).
    cbn.
    now rewrite IH by (intros r e Hr He; apply Hall; [exact Hr|now right]).
Qed.

(** C8. Aggregation over the bookings: when every evaluation returns,
    the highlighted ids are the first occurrences, in order, of the ids of
    the matching rules, the bookings taken in list order and, for each,
    the rules in rule-set order.  An id occurs once, and it occurs exactly
    when a rule with that id matches one of the bookings. *)
Theorem highlighted_ids_union bookingEntries rules bookingDate :
  let verdict rule entry :=
    isBookingAllowedByRule parseISO rule (Some (entryStartDate entry))
      (Some (JS.parseInt (entryLength entry))) bookingDate in
  (forall rule entry, In rule rules -> In entry bookingEntries ->
     exists b, verdict rule entry = JS.Normal b) ->
  exists ids,
    highlightedRuleIds parseISO bookingEntries rules bookingDate
    = JS.Normal ids
    /\ ids = firstSeen
               (flat_map
                  (fun entry =>
                     map Rule.id
                       (filter (fun rule => returnedTrue (verdict rule entry))
                               rules))
                  bookingEntries)
    /\ NoDup ids
    /\ (forall i, In i ids <->
          exists rule entry,
            In rule rules /\ In entry bookingEntries
            /\ Rule.id rule = i /\ verdict rule entry = JS.Normal true).
Proof.
  intros verdict Hall.
  eexists. split; [|split; [reflexivity|split]].
  - unfold highlightedRuleIds.
    rewrite (forEachEntry_returns _ _ _ _ Hall), fold_pushIfNew_nil.
    reflexivity.
  - apply firstSeen_NoDup.
  - intros i. rewrite firstSeen_In, in_flat_map. split.
    + intros (entry & He & Hi).
      apply in_map_iff in Hi. destruct Hi as (rule & Hid & Hr).
      apply filter_In in Hr. destruct Hr as [Hr Hv].
      exists rule, entry. repeat split; try assumption.
      destruct (verdict rule entry) as [[|]|]; cbn in Hv;
        [reflexivity|discriminate|discriminate].
    + intros (rule & entry & Hr & He & Hid & Hv).
      exists entry. split; [exact He|].
      apply in_map_iff. exists rule. split; [exact Hid|].
      apply filter_In. split; [exact Hr|]. now rewrite Hv.
Qed.

End EvaluatorFacts.

(* ================================================================== *)
(** ** Properties of the parser *)
(* ================================================================== *)

Lemma mapWithIndex_length {A B : Type} (f : A -> nat -> B) (arr : list A)
  (idx : nat) :
  List.length (mapWithIndex f arr idx) = List.length arr.
Proof.
  revert idx. induction arr as [|x arr IH]; intros idx; cbn;
    [reflexivity | now rewrite IH].
Qed.

Lemma mapWithIndex_nth_error {A B : Type} (f : A -> nat -> B)
  (arr : list A) (idx k : nat) :
  nth_error (mapWithIndex f arr idx) k
  = option_map (fun x => f x (idx + k)%nat) (nth_error arr k).
Proof.
  revert idx k. induction arr as [|x arr IH]; intros idx [|k]; cbn;
    try reflexivity.
  - now rewrite Nat.add_0_r.
  - rewrite IH. now replace (S idx + k)%nat with (idx + S k)%nat by lia.
Qed.



Lemma withId_ids (rules : list Rule.PriceRule) (idx : nat) :
  map Rule.id
      (mapWithIndex (fun rule index => Rule.withId rule (Z.of_nat index + 1))
                    rules idx)
  = map Z.of_nat (seq (S idx) (List.length rules)).
Proof.
  revert idx. induction rules as [|r rules IH]; intros idx; cbn;
    [reflexivity|].
  rewrite IH. f_equal. lia.
Qed.

Lemma filter_none {A : Type} (p : A -> bool) (l : list A) :
  (forall x, In x l -> p x = false) -> filter p l = [].
Proof.
  induction l as [|x l IH]; intros Hnone; [reflexivity|].
  cbn. rewrite (Hnone x (or_introl eq_refl)).
  apply IH. intros y Hy. apply Hnone. now right.
Qed.

(** The first shape: no [priceRules] element anywhere. *)
Lemma bare_collection_shape (doc : Dom.Document) :
  (forall el, In el (Dom.elementsOf (Dom.documentElement doc)) ->
              Dom.hasLocalName "priceRules" el = false) ->
  Dom.querySelector "priceRules" doc = None.
Proof.
  intros Hnone. unfold Dom.querySelector.
  now rewrite (filter_none _ _ Hnone).
Qed.


Section ParserFacts.

Variable parseFromString : string -> Dom.Document.
Variable serializeToString : Dom.node -> string.
Variable parseFloat : string -> float.
Variable responseText : string -> Z -> JS.completion string.




Lemma ruleOfNode_ids (nodes : list Dom.node) (idx : nat) :
  map Rule.id (mapWithIndex (ruleOfNode serializeToString parseFloat) nodes idx)
  = map Z.of_nat (seq (S idx) (List.length nodes)).
Proof.
  revert idx. induction nodes as [|n nodes IH]; intros idx; cbn;
    [reflexivity|].
  rewrite IH. f_equal. lia.
Qed.


(** A parsed batch numbers and colours its rules by their position in
    the batch. *)
Lemma parsed_batch_position (text : string) (rules : list Rule.PriceRule)
  (j : nat) (rule : Rule.PriceRule) :
  parseXmlRules parseFromString serializeToString parseFloat text
  = JS.Normal rules ->
  nth_error rules j = Some rule ->
  Rule.id rule = Z.of_nat j + 1
  /\ Rule.colour rule = nth_error COLOURS (j mod 8)%nat.
Proof.
  unfold parseXmlRules.
  destruct (Dom.querySelector "parsererror" (parseFromString text));
    [discriminate|].
  intros [= <-]. unfold arrayMap. rewrite mapWithIndex_nth_error.
  destruct (nth_error (ruleNodesOf (parseFromString text)) j) as [node|];
    [|discriminate].
  intros [= <-]. split; reflexivity.
Qed.

Lemma fetchSeasons_two (accommodationCode : string) (y1 y2 : Z) :
  fetchSeasons parseFromString serializeToString parseFloat responseText
    accommodationCode [y1; y2] []
  = batchOf (fetchPriceRulesFromAPI parseFromString serializeToString
               parseFloat responseText accommodationCode y1)
    ++ batchOf (fetchPriceRulesFromAPI parseFromString serializeToString
                  parseFloat responseText accommodationCode y2).
Proof.
  cbn [fetchSeasons].
  destruct (fetchPriceRulesFromAPI _ _ _ _ accommodationCode y1) as [r1|];
    destruct (fetchPriceRulesFromAPI _ _ _ _ accommodationCode y2) as [r2|];
    cbn [batchOf app]; now rewrite ?app_nil_r.
Qed.

(** C9. Merging the batches of the two seasons: the merged list is the
    batches one after the other, in fetch order (a season whose fetch
    fails contributes nothing); the rule at position k (from 0) gets the
    id k + 1 and keeps every other field: [from], [to], [percentage],
    [arrivalWeekdays], [minStay], [maxStay], [maxDaysToArrival], [colour]
    and [originalXml].  Within a batch, the j-th rule was numbered j + 1
    and coloured by j; so in the merged list the j-th rule of the second
    season still has the colour of index j, not that of its new id. *)
Theorem merged_batches (accommodationCode : string) (currentYear : Z) :
  let batch season :=
    batchOf (fetchPriceRulesFromAPI parseFromString serializeToString
               parseFloat responseText accommodationCode season) in
  let fetched := batch currentYear ++ batch (currentYear + 1) in
  let merged :=
    fetchAllSeasons parseFromString serializeToString parseFloat
      responseText accommodationCode currentYear in
  List.length merged = List.length fetched
  /\ map Rule.id merged = map Z.of_nat (seq 1 (List.length fetched))
  /\ (forall k rule,
        nth_error fetched k = Some rule ->
        exists rule',
          nth_error merged k = Some rule'
          /\ Rule.id rule' = Z.of_nat k + 1
          /\ Rule.from rule' = Rule.from rule
          /\ Rule.to rule' = Rule.to rule
          /\ Rule.percentage rule' = Rule.percentage rule
          /\ Rule.arrivalWeekdays rule' = Rule.arrivalWeekdays rule
          /\ Rule.minStay rule' = Rule.minStay rule
          /\ Rule.maxStay rule' = Rule.maxStay rule
          /\ Rule.maxDaysToArrival rule' = Rule.maxDaysToArrival rule
          /\ Rule.colour rule' = Rule.colour rule
          /\ Rule.originalXml rule' = Rule.originalXml rule)
  /\ (forall season j rule,
        nth_error (batch season) j = Some rule ->
        Rule.id rule = Z.of_nat j + 1
        /\ Rule.colour rule = nth_error COLOURS (j mod 8)%nat)
  /\ (forall j rule',
        nth_error merged (List.length (batch currentYear) + j) = Some rule' ->
        Rule.id rule'
        = Z.of_nat (List.length (batch currentYear)) + Z.of_nat j + 1
        /\ Rule.colour rule' = nth_error COLOURS (j mod 8)%nat).
Proof.
  intros batch fetched merged.
  assert (Hmerged : merged
                    = mapWithIndex
                        (fun rule index => Rule.withId rule (Z.of_nat index + 1))
                        fetched 0).
  { unfold merged, fetchAllSeasons, reassignIds, arrayMap.
    now rewrite fetchSeasons_two. }
  assert (Hbatch : forall season j rule,
            nth_error (batch season) j = Some rule ->
            Rule.id rule = Z.of_nat j + 1
            /\ Rule.colour rule = nth_error COLOURS (j mod 8)%nat).
  { intros season j rule. unfold batch, fetchPriceRulesFromAPI.
    destruct (responseText accommodationCode season) as [xmlText|];
      cbn [JS.bind batchOf].
    - destruct (parseXmlRules _ _ _ xmlText) as [rules|] eqn:E;
        cbn [batchOf].
      + intros Hj. exact (parsed_batch_position xmlText rules j rule E Hj).
      + destruct j; discriminate.
    - destruct j; discriminate. }
  split; [rewrite Hmerged; apply mapWithIndex_length|].
  split.
  { rewrite Hmerged. apply withId_ids. }
  split; [|split; [exact Hbatch|]].
  - intros k rule Hk.
    rewrite Hmerged, mapWithIndex_nth_error, Hk. cbn [option_map Nat.add].
    eexists. split; [reflexivity|].
    cbn. repeat split; reflexivity.
  - intros j rule'.
    rewrite Hmerged, mapWithIndex_nth_error. unfold fetched.
    rewrite nth_error_app2 by lia.
    replace (List.length (batch currentYear) + j - List.length (batch currentYear))%nat
      with j by lia.
    destruct (nth_error (batch (currentYear + 1)) j) as [rule|] eqn:E;
      [|discriminate].
    intros [= <-]. cbn.
    destruct (Hbatch _ _ _ E) as [_ Hcolour].
    split; [lia|exact Hcolour].
Qed.

End ParserFacts.

(* ================================================================== *)
(** ** The evaluator on the worked examples *)
(* ================================================================== *)

Local Open Scope string_scope.
Local Open Scope Z_scope.

(** The dates of the examples, as the sample parser reads them. *)
Example calendar_dates :
  DateFns.calendarDate "1970-01-01" = DateFns.ValidDate 0
  /\ DateFns.calendarDate "2025-01-01" = Sample.newYear
  /\ DateFns.getDay (DateFns.calendarDate "2025-06-07") = JS.Num 6
  /\ DateFns.calendarDate "2025-02-29" = DateFns.InvalidDate
  /\ DateFns.calendarDate "not-a-date" = DateFns.InvalidDate.
Proof. repeat split; vm_compute; reflexivity. Qed.

(** The end-to-end scenario: created on 2025-03-01, an arrival on
    Saturday 2025-06-07 for 7 nights matches; for 5 nights it does not. *)
Example end_to_end_scenario :
  isBookingAllowedByRule Sample.parseISO Sample.summer (Some "2025-06-07")
    (Some (JS.Num 7)) (DateFns.calendarDate "2025-03-01") = JS.Normal true
  /\ isBookingAllowedByRule Sample.parseISO Sample.summer (Some "2025-06-07")
       (Some (JS.Num 5)) (DateFns.calendarDate "2025-03-01")
     = JS.Normal false.
Proof. split; vm_compute; reflexivity. Qed.

(** An empty start date gives [false], even with a parser that throws on
    every argument. *)
Lemma presence_check_empty_date :
  JS.truthyString (Some EmptyString) = false
  /\ isBookingAllowedByRule Sample.throwingParseISO Sample.summer
       (Some EmptyString) (Some (JS.Num 7)) DateFns.InvalidDate
     = JS.Normal false.
Proof.
  split; [reflexivity|].
  apply presence_check. left. reflexivity.
Defined.

(** Reference date 2025-01-01 and [maxDaysToArrival = 10]: an arrival on
    2025-01-11 (gap 10) matches, one on 2025-01-12 (gap 11) does not, and
    an arrival on 2024-12-25 (gap -7) passes the booking-window check. *)
Lemma booking_window_boundary :
  isBookingAllowedByRule Sample.parseISO Sample.tenDaysAhead
    (Some "2025-01-11") (Some (JS.Num 2)) Sample.newYear = JS.Normal true
  /\ isBookingAllowedByRule Sample.parseISO Sample.tenDaysAhead
       (Some "2025-01-12") (Some (JS.Num 2)) Sample.newYear
     = JS.Normal false
  /\ bookingWindowExceeded Sample.tenDaysAhead
       (DateFns.calendarDate "2024-12-25") Sample.newYear = false.
Proof.
  split; [|split].
  - destruct (booking_window_check Sample.parseISO Sample.tenDaysAhead
                (Some "2025-01-11") (Some (JS.Num 2))
                (Sample.midnight 2025 1 11) (Sample.midnight 2025 1 1)
                _ _ 10 eq_refl eq_refl eq_refl eq_refl eq_refl eq_refl)
      as (_ & _ & Hpass & _).
    unfold Sample.newYear. rewrite Hpass.
    + vm_compute. reflexivity.
    + vm_compute. discriminate.
  - destruct (booking_window_check Sample.parseISO Sample.tenDaysAhead
                (Some "2025-01-12") (Some (JS.Num 2))
                (Sample.midnight 2025 1 12) (Sample.midnight 2025 1 1)
                _ _ 10 eq_refl eq_refl eq_refl eq_refl eq_refl eq_refl)
      as (_ & Hfail & _).
    apply Hfail. vm_compute. reflexivity.
  - destruct (booking_window_check Sample.parseISO Sample.tenDaysAhead
                (Some "2024-12-25") (Some (JS.Num 2))
                (Sample.midnight 2024 12 25) (Sample.midnight 2025 1 1)
                _ _ 10 eq_refl eq_refl eq_refl eq_refl eq_refl eq_refl)
      as (_ & _ & _ & Hneg).
    apply Hneg; vm_compute; [discriminate|reflexivity].
Defined.

(** A rule valid from 2025-01-01 to 2025-06-30: arrivals on the first
    and on the last day match, the day before and the day after do not. *)
Lemma date_range_inclusive :
  isBookingAllowedByRule Sample.parseISO Sample.firstHalf (Some "2025-01-01")
    (Some (JS.Num 2)) Sample.newYear = JS.Normal true
  /\ isBookingAllowedByRule Sample.parseISO Sample.firstHalf
       (Some "2024-12-31") (Some (JS.Num 2)) Sample.newYear = JS.Normal false
  /\ isBookingAllowedByRule Sample.parseISO Sample.firstHalf
       (Some "2025-06-30") (Some (JS.Num 2)) Sample.newYear = JS.Normal true
  /\ isBookingAllowedByRule Sample.parseISO Sample.firstHalf
       (Some "2025-07-01") (Some (JS.Num 2)) Sample.newYear = JS.Normal false.
Proof.
  pose (from := Sample.midnight 2025 1 1).
  pose (to := Sample.midnight 2025 6 30).
  split; [|split; [|split]].
  - destruct (date_range_check Sample.parseISO Sample.firstHalf
                (Some "2025-01-01") (Some (JS.Num 2)) Sample.newYear
                (Sample.midnight 2025 1 1) from to
                eq_refl eq_refl eq_refl eq_refl eq_refl) as (_ & _ & Hin).
    rewrite Hin; [reflexivity|]. vm_compute. split; discriminate.
  - destruct (date_range_check Sample.parseISO Sample.firstHalf
                (Some "2024-12-31") (Some (JS.Num 2)) Sample.newYear
                (Sample.midnight 2024 12 31) from to
                eq_refl eq_refl eq_refl eq_refl eq_refl) as (_ & Hout & _).
    apply Hout. left. vm_compute. reflexivity.
  - destruct (date_range_check Sample.parseISO Sample.firstHalf
                (Some "2025-06-30") (Some (JS.Num 2)) Sample.newYear
                (Sample.midnight 2025 6 30) from to
                eq_refl eq_refl eq_refl eq_refl eq_refl) as (_ & _ & Hin).
    rewrite Hin; [reflexivity|]. vm_compute. split; discriminate.
  - destruct (date_range_check Sample.parseISO Sample.firstHalf
                (Some "2025-07-01") (Some (JS.Num 2)) Sample.newYear
                (Sample.midnight 2025 7 1) from to
                eq_refl eq_refl eq_refl eq_refl eq_refl) as (_ & Hout & _).
    apply Hout. right. vm_compute. reflexivity.
Defined.

(** [arrivalWeekdays = {6, 7}]: an arrival on Tuesday 2025-06-03 does not
    match, one on Saturday 2025-06-07 does. *)
Lemma weekend_rule_rejects_tuesday :
  weekdayOf (Sample.midnight 2025 6 3) = Tuesday
  /\ isBookingAllowedByRule Sample.parseISO Sample.weekendOnly
       (Some "2025-06-03") (Some (JS.Num 2)) Sample.newYear = JS.Normal false
  /\ isBookingAllowedByRule Sample.parseISO Sample.weekendOnly
       (Some "2025-06-07") (Some (JS.Num 2)) Sample.newYear = JS.Normal true.
Proof.
  split; [reflexivity|split].
  - destruct (weekday_check Sample.parseISO Sample.weekendOnly
                (Some "2025-06-03") (Some (JS.Num 2)) Sample.newYear
                (Sample.midnight 2025 6 3) _ _
                eq_refl eq_refl eq_refl eq_refl eq_refl) as [Hset _].
    destruct Hset as (_ & Hout & _); [discriminate|].
    apply Hout. vm_compute. intros [H|[H|[]]]; discriminate.
  - destruct (weekday_check Sample.parseISO Sample.weekendOnly
                (Some "2025-06-07") (Some (JS.Num 2)) Sample.newYear
                (Sample.midnight 2025 6 7) _ _
                eq_refl eq_refl eq_refl eq_refl eq_refl) as [Hset _].
    destruct Hset as (_ & _ & Hin); [discriminate|].
    rewrite Hin; [reflexivity|]. vm_compute. left. reflexivity.
Defined.

(** [minStay = 3], [maxStay = 7]: stays of 2 and 8 nights fail, stays of
    3 and 7 nights pass. *)
Lemma stay_bounds_three_to_seven :
  isBookingAllowedByRule Sample.parseISO Sample.threeToSeven
    (Some "2025-03-10") (Some (JS.Num 2)) Sample.newYear = JS.Normal false
  /\ isBookingAllowedByRule Sample.parseISO Sample.threeToSeven
       (Some "2025-03-10") (Some (JS.Num 3)) Sample.newYear = JS.Normal true
  /\ isBookingAllowedByRule Sample.parseISO Sample.threeToSeven
       (Some "2025-03-10") (Some (JS.Num 7)) Sample.newYear = JS.Normal true
  /\ isBookingAllowedByRule Sample.parseISO Sample.threeToSeven
       (Some "2025-03-10") (Some (JS.Num 8)) Sample.newYear = JS.Normal false.
Proof.
  assert (Hpos : 0 < 3 /\ 0 < 7) by (split; reflexivity).
  destruct Hpos as [Hmin Hmax].
  split; [|split; [|split]].
  - destruct (stay_length_check Sample.parseISO Sample.threeToSeven
                (Some "2025-03-10") 2 Sample.newYear _ _ _
                Hmin Hmax eq_refl ltac:(discriminate)
                eq_refl eq_refl eq_refl) as (_ & Hbad & _).
    apply Hbad. left. exists 3. split; reflexivity.
  - destruct (stay_length_check Sample.parseISO Sample.threeToSeven
                (Some "2025-03-10") 3 Sample.newYear _ _ _
                Hmin Hmax eq_refl ltac:(discriminate)
                eq_refl eq_refl eq_refl) as (_ & _ & Hgood).
    rewrite Hgood; [reflexivity|].
    intros [(m & E & H)|(m & E & H)]; injection E as <-; discriminate.
  - destruct (stay_length_check Sample.parseISO Sample.threeToSeven
                (Some "2025-03-10") 7 Sample.newYear _ _ _
                Hmin Hmax eq_refl ltac:(discriminate)
                eq_refl eq_refl eq_refl) as (_ & _ & Hgood).
    rewrite Hgood; [reflexivity|].
    intros [(m & E & H)|(m & E & H)]; injection E as <-; discriminate.
  - destruct (stay_length_check Sample.parseISO Sample.threeToSeven
                (Some "2025-03-10") 8 Sample.newYear _ _ _
                Hmin Hmax eq_refl ltac:(discriminate)
                eq_refl eq_refl eq_refl) as (_ & Hbad & _).
    apply Hbad. right. exists 7. split; reflexivity.
Defined.

(** [minStay = 0] and [maxStay = 0] let a one-night stay through, as the
    rule without the bound does; [maxDaysToArrival = 0] rejects an arrival
    on the day after the reference date, which the rule without the bound
    accepts. *)
Lemma zero_bounds_asymmetry :
  isBookingAllowedByRule Sample.parseISO Sample.zeroMinStay
    (Some "2025-01-02") (Some (JS.Num 1)) Sample.newYear = JS.Normal true
  /\ isBookingAllowedByRule Sample.parseISO Sample.zeroMaxStay
       (Some "2025-01-02") (Some (JS.Num 1)) Sample.newYear = JS.Normal true
  /\ isBookingAllowedByRule Sample.parseISO Sample.sameDayOnly
       (Some "2025-01-02") (Some (JS.Num 1)) Sample.newYear = JS.Normal false
  /\ isBookingAllowedByRule Sample.parseISO
       (Rule.withMaxDaysToArrival Sample.sameDayOnly None)
       (Some "2025-01-02") (Some (JS.Num 1)) Sample.newYear = JS.Normal true.
Proof.
  split; [|split; [|split]].
  - destruct (zero_valued_bounds Sample.parseISO Sample.zeroMinStay
                (Some "2025-01-02") (Some (JS.Num 1)) Sample.newYear)
      as (Hmin & _ & _).
    destruct (Hmin eq_refl) as [_ ->]. reflexivity.
  - destruct (zero_valued_bounds Sample.parseISO Sample.zeroMaxStay
                (Some "2025-01-02") (Some (JS.Num 1)) Sample.newYear)
      as (_ & Hmax & _).
    destruct (Hmax eq_refl) as [_ ->]. reflexivity.
  - destruct (zero_valued_bounds Sample.parseISO Sample.sameDayOnly
                (Some "2025-01-02") (Some (JS.Num 1)) Sample.newYear)
      as (_ & _ & Hwindow).
    apply (Hwindow eq_refl (Sample.midnight 2025 1 2)
             (Sample.midnight 2025 1 1) _ _
             eq_refl eq_refl eq_refl eq_refl eq_refl eq_refl).
    vm_compute. reflexivity.
  - vm_compute. reflexivity.
Defined.

(** C5 does not hold of the code.  The rule's [from] is the string
    "not-a-date", which is no calendar date, and yet the evaluation
    returns a verdict, [true]: it does not fail with an error.  The same
    happens when the arrival date of the booking is no date. *)
Lemma unreadable_date_returns_a_verdict :
  Sample.parseISO (Some "not-a-date") = JS.Normal DateFns.InvalidDate
  /\ isBookingAllowedByRule Sample.parseISO Sample.unreadableFrom
       (Some "2025-06-07") (Some (JS.Num 7)) Sample.newYear = JS.Normal true
  /\ isBookingAllowedByRule Sample.parseISO Sample.wholeYear
       (Some "not-a-date") (Some (JS.Num 7)) Sample.newYear = JS.Normal true
  /\ ~ (exists e,
          isBookingAllowedByRule Sample.parseISO Sample.unreadableFrom
            (Some "2025-06-07") (Some (JS.Num 7)) Sample.newYear
          = JS.Throw e).
Proof.
  split; [reflexivity|]. split; [reflexivity|]. split; [reflexivity|].
  intros [e H]. vm_compute in H. discriminate.
Qed.

(** The rule with the unreadable [from], between two other rules: the
    three are evaluated and all three match an arrival on 2025-06-07. *)
Lemma unreadable_date_in_a_batch :
  isBookingAllowedByRule Sample.parseISO Sample.unreadableFrom
    (Some "2025-06-07") (Some (JS.Num 7)) Sample.newYear = JS.Normal true
  /\ filterAllowed Sample.parseISO
       [Sample.firstHalf; Sample.unreadableFrom; Sample.wholeYear]
       "2025-06-07" (JS.Num 7) Sample.newYear
     = JS.Normal [Sample.firstHalf; Sample.unreadableFrom; Sample.wholeYear].
Proof.
  assert (Hothers : forall r, In r [Sample.firstHalf; Sample.wholeYear] ->
            exists b, isBookingAllowedByRule Sample.parseISO r
                        (Some "2025-06-07") (Some (JS.Num 7)) Sample.newYear
                      = JS.Normal b).
  { intros r [<-|[<-|[]]]; eexists; vm_compute; reflexivity. }
  destruct (invalid_date_verdict Sample.parseISO Sample.unreadableFrom
              "2025-06-07" (JS.Num 7) Sample.newYear _ _ _
              [Sample.firstHalf] [Sample.wholeYear]
              eq_refl eq_refl eq_refl eq_refl eq_refl
              (or_intror (or_introl eq_refl)) Hothers)
    as (_ & Hverdict & _ & _ & Hbatch).
  split.
  - rewrite (Hverdict eq_refl). reflexivity.
  - cbn [app] in Hbatch. rewrite Hbatch. reflexivity.
Defined.

(** Two bookings that match the rules 1, 2 and the rules 2, 3: the
    highlighted ids are 1, 2, 3. *)
Lemma highlighted_ids_example :
  highlightedRuleIds Sample.parseISO [Sample.spring; Sample.autumn]
    [Sample.firstHalf; Sample.wholeYear; Sample.secondHalf] Sample.newYear
  = JS.Normal [1; 2; 3].
Proof.
  assert (Hall : forall rule entry,
            In rule [Sample.firstHalf; Sample.wholeYear; Sample.secondHalf] ->
            In entry [Sample.spring; Sample.autumn] ->
            exists b, isBookingAllowedByRule Sample.parseISO rule
                        (Some (entryStartDate entry))
                        (Some (JS.parseInt (entryLength entry)))
                        Sample.newYear
                      = JS.Normal b).
  { intros rule entry [<-|[<-|[<-|[]]]] [<-|[<-|[]]];
      eexists; vm_compute; reflexivity. }
  destruct (highlighted_ids_union Sample.parseISO _ _ _ Hall)
    as (ids & Hrun & Hids & _).
  rewrite Hrun, Hids. reflexivity.
Defined.

(* ================================================================== *)
(** ** The parser on the worked examples *)
(* ================================================================== *)

(** The rule object of the first sample element: the texts are trimmed,
    the first of the two [minStay] children wins, the empty [maxStay] and
    the missing [maxDaysToArrival] are absent. *)
Example summer_element_parsed :
  let rule := ruleOfNode Sample.serializeToString Sample.parseFloat
                Sample.summerElement 0 in
  Rule.id rule = 1
  /\ Rule.from rule = Some "2025-06-01"
  /\ Rule.to rule = Some "2025-08-31"
  /\ Rule.arrivalWeekdays rule = [JS.Num 6; JS.Num 7]
  /\ Rule.minStay rule = Some (JS.Num 7)
  /\ Rule.maxStay rule = None
  /\ Rule.maxDaysToArrival rule = None
  /\ Rule.colour rule = Some "#0072B2".
Proof. repeat split. Qed.


(** A rule element outside of a container written [p:priceRules]: the
    selector finds the container by its local name, and the rule element
    outside of it is left out. *)
Example prefixed_container_found :
  map Rule.from
      (batchOf (parseXmlRules Sample.parseFromString
                  Sample.serializeToString Sample.parseFloat "prefixed"))
  = [Some "2025-12-01"].
Proof. reflexivity. Qed.


(** Two seasons of two rules each: the merged rules have the ids 1 to 4,
    and the colours of the second season start again at the first colour
    of the palette. *)
Lemma merged_batches_example :
  let merged :=
    fetchAllSeasons Sample.parseFromString Sample.serializeToString
      Sample.parseFloat Sample.responseText "A1" 2025 in
  map Rule.id merged = [1; 2; 3; 4]
  /\ map Rule.colour merged
     = [Some "#0072B2"; Some "#D55E00"; Some "#0072B2"; Some "#D55E00"].
Proof.
  destruct (merged_batches Sample.parseFromString Sample.serializeToString
              Sample.parseFloat Sample.responseText "A1" 2025)
    as (_ & Hids & _).
  split; [exact Hids|reflexivity].
Defined.

(* ================================================================== *)
(** ** Properties of the search history and of the booking rows *)
(* ================================================================== *)

Local Open Scope list_scope.

Lemma sliceLast_length {A : Type} (n : nat) (arr : list A) :
  List.length (History.sliceLast n arr) = Nat.min (List.length arr) n.
Proof. unfold History.sliceLast. rewrite length_skipn. lia. Qed.

Lemma sliceLast_short {A : Type} (n : nat) (arr : list A) :
  (List.length arr <= n)%nat -> History.sliceLast n arr = arr.
Proof.
  intros H. unfold History.sliceLast.
  now replace (List.length arr - n)%nat with 0%nat by lia.
Qed.

Lemma In_sliceLast {A : Type} (n : nat) (arr : list A) (x : A) :
  In x (History.sliceLast n arr) -> In x arr.
Proof.
  unfold History.sliceLast. intros H.
  rewrite <- (firstn_skipn (List.length arr - n) arr).
  apply in_or_app. now right.
Qed.

Lemma NoDup_sliceLast {A : Type} (n : nat) (arr : list A) :
  NoDup arr -> NoDup (History.sliceLast n arr).
Proof.
  unfold History.sliceLast. intros H.
  rewrite <- (firstn_skipn (List.length arr - n) arr) in H.
  now apply NoDup_app_remove_l in H.
Qed.

(** On searches whose season is not [NaN], [sameSearch] is equality. *)
Lemma sameSearch_eq (a b : History.SearchItem) :
  History.season a <> History.SeasonYear JS.NaN ->
  History.sameSearch a b = true <-> b = a.
Proof.
  intros Hnan. unfold History.sameSearch.
  rewrite andb_true_iff, String.eqb_eq.
  destruct a as [ca sa], b as [cb sb]; cbn in *.
  split.
  - intros [-> Hs]. f_equal.
    destruct sa as [|[|x]], sb as [|[|y]]; cbn in Hs;
      try discriminate; try congruence.
    apply Z.eqb_eq in Hs. now subst.
  - intros [= -> ->]. split; [reflexivity|].
    destruct sa as [|[|x]]; cbn; try congruence. apply Z.eqb_refl.
Qed.

Lemma existsb_sameSearch (item : History.SearchItem)
  (prev : list History.SearchItem) :
  History.season item <> History.SeasonYear JS.NaN ->
  existsb (History.sameSearch item) prev = true <-> In item prev.
Proof.
  intros Hnan. rewrite existsb_exists. split.
  - intros (x & Hin & Hx). apply sameSearch_eq in Hx; [|exact Hnan].
    now subst x.
  - intros Hin. exists item. split; [exact Hin|].
    now apply sameSearch_eq.
Qed.

(** X1. The search history after any sequence of searches, starting from
    the empty history: it holds at most five searches, each of them one
    that was made, and no search twice (seasons being years or 'all'). *)
Theorem history_short_and_distinct (searches : list History.SearchItem) :
  let history := fold_left History.handleAddToHistory searches [] in
  (List.length history <= 5)%nat
  /\ (forall item, In item history -> In item searches)
  /\ ((forall item, In item searches ->
         History.season item <> History.SeasonYear JS.NaN) ->
      NoDup history).
Proof.
  cbn zeta.
  assert (Hgen : forall prev,
            (List.length prev <= 5)%nat ->
            let history := fold_left History.handleAddToHistory searches prev in
            (List.length history <= 5)%nat
            /\ (forall item, In item history ->
                             In item prev \/ In item searches)
            /\ ((forall item, In item searches ->
                   History.season item <> History.SeasonYear JS.NaN) ->
                NoDup prev -> NoDup history)).
  { induction searches as [|s rest IH]; intros prev Hlen; cbn.
    - split; [exact Hlen|]. split; [now left|]. now intros _ H.
    - assert (Hstep : (List.length (History.handleAddToHistory prev s) <= 5)%nat).
      { unfold History.handleAddToHistory.
        destruct (existsb _ prev); [exact Hlen|].
        rewrite sliceLast_length. lia. }
      destruct (IH _ Hstep) as (H1 & H2 & H3).
      split; [exact H1|]. split.
      + intros item Hin. destruct (H2 item Hin) as [Hp|Hr]; [|now right; right].
        unfold History.handleAddToHistory in Hp.
        destruct (existsb _ prev); [now left|].
        apply In_sliceLast, in_app_or in Hp.
        destruct Hp as [Hp|[<-|[]]]; [now left|now right; left].
      + intros Hnan Hnd. apply H3.
        * intros item Hin. apply Hnan. now right.
        * unfold History.handleAddToHistory.
          destruct (existsb _ prev) eqn:E; [exact Hnd|].
          apply NoDup_sliceLast.
          apply NoDup_app; [exact Hnd|repeat constructor; intros []|].
          intros x Hx [<-|[]].
          apply existsb_sameSearch in Hx; [congruence|].
          apply Hnan. now left. }
  destruct (Hgen [] ltac:(cbn; lia)) as (H1 & H2 & H3).
  split; [exact H1|]. split.
  - intros item Hin. destruct (H2 item Hin) as [[]|H]. exact H.
  - intros Hnan. apply H3; [exact Hnan|constructor].
Qed.

(** X2. One search added to a history of at most five (the season being a
    year or 'all'): a search already in the history leaves it as it is,
    at its old place; a new search goes to the end, and when the history
    was full its oldest entry is dropped.  Adding the same search again
    changes nothing. *)
Theorem history_add_step (prev : list History.SearchItem)
  (item : History.SearchItem) :
  (List.length prev <= 5)%nat ->
  History.season item <> History.SeasonYear JS.NaN ->
  let history := History.handleAddToHistory prev item in
  (In item prev -> history = prev)
  /\ (~ In item prev -> (List.length prev < 5)%nat ->
      history = prev ++ [item])
  /\ (~ In item prev -> List.length prev = 5%nat ->
      history = tl prev ++ [item])
  /\ History.handleAddToHistory history item = history.
Proof.
  intros Hlen Hnan history.
  assert (Hold : In item prev -> history = prev).
  { intros Hin. unfold history, History.handleAddToHistory.
    now rewrite (proj2 (existsb_sameSearch item prev Hnan) Hin). }
  assert (Hnew : ~ In item prev ->
                 history = History.sliceLast 5 (prev ++ [item])).
  { intros Hnot. unfold history, History.handleAddToHistory.
    destruct (existsb _ prev) eqn:E; [|reflexivity].
    apply existsb_sameSearch in E; [contradiction|exact Hnan]. }
  split; [exact Hold|]. split; [|split].
  - intros Hnot Hlt. rewrite (Hnew Hnot).
    apply sliceLast_short. rewrite length_app. cbn. lia.
  - intros Hnot Hfull. rewrite (Hnew Hnot). unfold History.sliceLast.
    rewrite length_app, Hfull. cbn [List.length Nat.add Nat.sub].
    destruct prev as [|p prev']; [discriminate|reflexivity].
  - assert (Hin : In item history).
    { destruct (existsb (History.sameSearch item) prev) eqn:E.
      - apply existsb_sameSearch in E; [|exact Hnan]. now rewrite (Hold E).
      - assert (Hnot : ~ In item prev).
        { intros Hin. apply existsb_sameSearch in Hin; [congruence|exact Hnan]. }
        rewrite (Hnew Hnot). unfold History.sliceLast.
        rewrite length_app. cbn [List.length].
        replace (List.length prev + 1 - 5)%nat
          with (List.length prev - 4)%nat by lia.
        rewrite skipn_app. apply in_or_app. right.
        replace (List.length prev - 4 - List.length prev)%nat with 0%nat by lia.
        now left. }
    unfold History.handleAddToHistory at 1.
    now rewrite (proj2 (existsb_sameSearch item history Hnan) Hin).
Qed.




Section RowsAndHighlights.

Variable parseISO : option string -> JS.completion DateFns.Date.






End RowsAndHighlights.

(* ================================================================== *)
(** ** Properties across the parser, the evaluator and the form *)
(* ================================================================== *)

Lemma NoDup_map_of_nat (l : list nat) : NoDup l -> NoDup (map Z.of_nat l).
Proof.
  induction 1 as [|x l Hx Hnd IH]; cbn; constructor; [|exact IH].
  rewrite in_map_iff. intros (y & Hy & Hin).
  apply Nat2Z.inj in Hy. now subst y.
Qed.

Lemma ids_from_one_distinct (ids : list Z) (n : nat) :
  ids = map Z.of_nat (seq 1 n) ->
  NoDup ids /\ forall i, In i ids -> 1 <= i <= Z.of_nat n.
Proof.
  intros ->. split.
  - apply NoDup_map_of_nat, seq_NoDup.
  - intros i Hi. apply in_map_iff in Hi. destruct Hi as (k & <- & Hk).
    apply in_seq in Hk. lia.
Qed.

Section IdsAndVerdicts.

Variable parseFromString : string -> Dom.Document.
Variable serializeToString : Dom.node -> string.
Variable parseFloat : string -> float.
Variable responseText : string -> Z -> JS.completion string.
Variable parseISO : option string -> JS.completion DateFns.Date.

Lemma parsed_ids (text : string) (rules : list Rule.PriceRule) :
  parseXmlRules parseFromString serializeToString parseFloat text
  = JS.Normal rules ->
  map Rule.id rules = map Z.of_nat (seq 1 (List.length rules)).
Proof.
  unfold parseXmlRules.
  destruct (Dom.querySelector "parsererror" (parseFromString text));
    [discriminate|].
  intros [= <-]. unfold arrayMap.
  now rewrite ruleOfNode_ids, mapWithIndex_length.
Qed.

(** X5. The ids of the rules are pairwise distinct, in every batch
    [parseXmlRules] returns (whatever the shape of the document) and in
    the merged rules of the two seasons, and they lie between 1 and the
    number of rules.  The renumbering of the merge is needed for that:
    when both seasons have rules, the batches put one after the other
    carry the id 1 twice. *)
Theorem rule_ids_distinct (text accommodationCode : string)
  (currentYear : Z) :
  (forall rules,
     parseXmlRules parseFromString serializeToString parseFloat text
     = JS.Normal rules ->
     NoDup (map Rule.id rules)
     /\ forall i, In i (map Rule.id rules) ->
                  1 <= i <= Z.of_nat (List.length rules))
  /\ (let merged :=
        fetchAllSeasons parseFromString serializeToString parseFloat
          responseText accommodationCode currentYear in
      NoDup (map Rule.id merged)
      /\ forall i, In i (map Rule.id merged) ->
                   1 <= i <= Z.of_nat (List.length merged))
  /\ (let batch season :=
        batchOf (fetchPriceRulesFromAPI parseFromString serializeToString
                   parseFloat responseText accommodationCode season) in
      batch currentYear <> [] ->
      batch (currentYear + 1) <> [] ->
      ~ NoDup (map Rule.id (batch currentYear ++ batch (currentYear + 1)))).
Proof.
  split; [|split].
  - intros rules Hrun. apply ids_from_one_distinct.
    exact (parsed_ids text rules Hrun).
  - cbn zeta. apply ids_from_one_distinct.
    unfold fetchAllSeasons, reassignIds, arrayMap.
    now rewrite withId_ids, mapWithIndex_length.
  - intros batch Hone Htwo Hnd.
    assert (Hfirst : forall season,
              batch season <> [] ->
              exists rest, map Rule.id (batch season) = 1 :: rest).
    { intros season Hne. unfold batch, fetchPriceRulesFromAPI in *.
      destruct (responseText accommodationCode season) as [xmlText|];
        cbn [JS.bind batchOf] in *; [|congruence].
      destruct (parseXmlRules _ _ _ xmlText) as [rules|] eqn:E;
        cbn [batchOf] in *; [|congruence].
      rewrite (parsed_ids _ _ E).
      destruct rules as [|r rules]; [congruence|].
      cbn. eexists. reflexivity. }
    destruct (Hfirst _ Hone) as [rest1 H1].
    destruct (Hfirst _ Htwo) as [rest2 H2].
    rewrite map_app, H1, H2 in Hnd. cbn in Hnd.
    apply NoDup_cons_iff in Hnd. destruct Hnd as [Hnot _].
    apply Hnot, in_or_app. right. now left.
Qed.

(** X6. The verdict reads six fields of the rule and no other: two rules
    with the same [from], [to], [arrivalWeekdays], [minStay], [maxStay]
    and [maxDaysToArrival] get the same verdict for every booking,
    whatever their [id], [percentage], [colour] and [originalXml].  So
    the renumbering of the merge changes no verdict. *)
Theorem verdict_reads_six_fields (rule rule' : Rule.PriceRule)
  (startDate : option string) (length : option JS.number)
  (creation : DateFns.Date) (newId : Z) :
  (Rule.from rule = Rule.from rule' ->
   Rule.to rule = Rule.to rule' ->
   Rule.arrivalWeekdays rule = Rule.arrivalWeekdays rule' ->
   Rule.minStay rule = Rule.minStay rule' ->
   Rule.maxStay rule = Rule.maxStay rule' ->
   Rule.maxDaysToArrival rule = Rule.maxDaysToArrival rule' ->
   isBookingAllowedByRule parseISO rule startDate length creation
   = isBookingAllowedByRule parseISO rule' startDate length creation)
  /\ isBookingAllowedByRule parseISO (Rule.withId rule newId) startDate
       length creation
     = isBookingAllowedByRule parseISO rule startDate length creation.
Proof.
  assert (Hsame : forall r r',
            Rule.from r = Rule.from r' ->
            Rule.to r = Rule.to r' ->
            Rule.arrivalWeekdays r = Rule.arrivalWeekdays r' ->
            Rule.minStay r = Rule.minStay r' ->
            Rule.maxStay r = Rule.maxStay r' ->
            Rule.maxDaysToArrival r = Rule.maxDaysToArrival r' ->
            isBookingAllowedByRule parseISO r startDate length creation
            = isBookingAllowedByRule parseISO r' startDate length creation).
  { intros r r' Hf Ht Hw Hmin Hmax Hwin.
    apply isBookingAllowedByRule_ext; [exact Hf|exact Ht| | |].
    - unfold stayLengthViolated. now rewrite Hmin, Hmax.
    - intros arrival. unfold bookingWindowExceeded. now rewrite Hwin.
    - intros arrival. unfold weekdayNotPermitted. now rewrite Hw. }
  split; [apply Hsame|].
  apply Hsame; reflexivity.
Qed.

(** The ids pushed for one row are those of the rules its filter keeps. *)
Lemma forEachRule_of_filter (rules kept : list Rule.PriceRule)
  (startDate : string) (length : JS.number) (bookingDate : DateFns.Date)
  (ids : list Z) :
  filterAllowed parseISO rules startDate length bookingDate = JS.Normal kept ->
  forEachRule parseISO rules startDate length bookingDate ids
  = JS.Normal (fold_left pushIfNew (map Rule.id kept) ids).
Proof.
  revert kept ids. induction rules as [|r rest IH]; intros kept ids.
  - intros [= <-]. reflexivity.
  - cbn [filterAllowed forEachRule].
    destruct (isBookingAllowedByRule parseISO r _ _ bookingDate) as [b|];
      [|discriminate].
    cbn [JS.bind].
    destruct (filterAllowed parseISO rest startDate length bookingDate)
      as [kept'|]; [|discriminate].
    cbn [JS.bind]. intros [= <-].
    rewrite (IH kept' _ eq_refl). now destruct b.
Qed.

(** X7. The form and the timeline agree: when the filter of every row of
    the booking form returns, the highlighted ids are the first
    occurrences of the ids of the rules the rows show as allowing, row
    after row. *)
Theorem highlighted_ids_from_rows (bookingEntries : list BookingEntry)
  (rules : list Rule.PriceRule) (bookingDate : DateFns.Date) :
  (forall entry, In entry bookingEntries ->
     exists kept,
       allowedRules parseISO entry rules bookingDate = JS.Normal kept) ->
  highlightedRuleIds parseISO bookingEntries rules bookingDate
  = JS.Normal
      (firstSeen
         (flat_map
            (fun entry =>
               map Rule.id
                   (batchOf (allowedRules parseISO entry rules bookingDate)))
            bookingEntries)).
Proof.
  intros Hrows. unfold highlightedRuleIds.
  rewrite <- fold_pushIfNew_nil. generalize (@nil Z) as ids.
  induction bookingEntries as [|entry rest IH]; intros ids; [reflexivity|].
  cbn [forEachEntry flat_map]. rewrite fold_left_app.
  destruct (Hrows entry (or_introl eq_refl)) as [kept Hkept].
  rewrite Hkept. cbn [batchOf].
  unfold allowedRules in Hkept.
  destruct (JS.truthyString (Some (entryStartDate entry))) eqn:Es;
    destruct (JS.truthyString (Some (entryLength entry))) eqn:El;
    cbn [andb negb orb] in Hkept |- *;
    try (injection Hkept as <-; cbn [map fold_left];
         apply IH; intros e He; apply Hrows; now right).
  rewrite (forEachRule_of_filter _ _ _ _ _ _ Hkept). cbn [JS.bind].
  apply IH. intros e He. apply Hrows. now right.
Qed.

End IdsAndVerdicts.

(* ================================================================== *)
(** ** Properties of the rule years and of the navigation *)
(* ================================================================== *)

Lemma lowerTo_minimum (b : Years.minBound) (seen : list Z) (y : Z) :
  isMinimumOf b seen ->
  isMinimumOf (Years.lowerTo (JS.Num y) b) (seen ++ [y]).
Proof.
  destruct b as [|m]; cbn.
  - intros ->. cbn. split; [now left|]. intros z [<-|[]]. lia.
  - intros [Hin Hle]. destruct (y <? m) eqn:E; cbn.
    + apply Z.ltb_lt in E. split; [apply in_or_app; right; now left|].
      intros z Hz. apply in_app_or in Hz. destruct Hz as [Hz|[<-|[]]];
        [specialize (Hle z Hz)|]; lia.
    + apply Z.ltb_ge in E. split; [apply in_or_app; now left|].
      intros z Hz. apply in_app_or in Hz. destruct Hz as [Hz|[<-|[]]];
        [now apply Hle|lia].
Qed.

Lemma raiseTo_maximum (b : Years.maxBound) (seen : list Z) (y : Z) :
  isMaximumOf b seen ->
  isMaximumOf (Years.raiseTo (JS.Num y) b) (seen ++ [y]).
Proof.
  destruct b as [|m]; cbn.
  - intros ->. cbn. split; [now left|]. intros z [<-|[]]. lia.
  - intros [Hin Hle]. destruct (m <? y) eqn:E; cbn.
    + apply Z.ltb_lt in E. split; [apply in_or_app; right; now left|].
      intros z Hz. apply in_app_or in Hz. destruct Hz as [Hz|[<-|[]]];
        [specialize (Hle z Hz)|]; lia.
    + apply Z.ltb_ge in E. split; [apply in_or_app; now left|].
      intros z Hz. apply in_app_or in Hz. destruct Hz as [Hz|[<-|[]]];
        [now apply Hle|lia].
Qed.

Section YearsFacts.

Variable parseISO : option string -> JS.completion DateFns.Date.

(** The years a rule adds to the valid years of a field. *)
Lemma validYears_cons (field : Rule.PriceRule -> option string)
  (r : Rule.PriceRule) (rest : list Rule.PriceRule) (d : DateFns.Date)
  (b : Years.minBound) (seen : list Z) :
  parseISO (field r) = JS.Normal d ->
  isMinimumOf b seen ->
  isMinimumOf (Years.lowerTo (Years.getFullYear d) b)
              (seen ++ validYears parseISO field [r]).
Proof.
  intros Hd Hb. unfold validYears. cbn [flat_map]. rewrite Hd.
  destruct d as [|t]; cbn [Years.getFullYear app].
  - now rewrite app_nil_r.
  - now apply lowerTo_minimum.
Qed.

Lemma validYears_cons_max (field : Rule.PriceRule -> option string)
  (r : Rule.PriceRule) (d : DateFns.Date)
  (b : Years.maxBound) (seen : list Z) :
  parseISO (field r) = JS.Normal d ->
  isMaximumOf b seen ->
  isMaximumOf (Years.raiseTo (Years.getFullYear d) b)
              (seen ++ validYears parseISO field [r]).
Proof.
  intros Hd Hb. unfold validYears. cbn [flat_map]. rewrite Hd.
  destruct d as [|t]; cbn [Years.getFullYear app].
  - now rewrite app_nil_r.
  - now apply raiseTo_maximum.
Qed.

Lemma validYears_app (field : Rule.PriceRule -> option string)
  (a b : list Rule.PriceRule) :
  validYears parseISO field (a ++ b)
  = validYears parseISO field a ++ validYears parseISO field b.
Proof. unfold validYears. apply flat_map_app. Qed.

Lemma ruleYearsLoop_bounds (rules : list Rule.PriceRule)
  (minYear : Years.minBound) (maxYear : Years.maxBound)
  (seenFrom seenTo : list Z) :
  (forall r, In r rules ->
     exists f t, parseISO (Rule.from r) = JS.Normal f
                 /\ parseISO (Rule.to r) = JS.Normal t) ->
  isMinimumOf minYear seenFrom ->
  isMaximumOf maxYear seenTo ->
  exists ry,
    Years.ruleYearsLoop parseISO rules minYear maxYear = JS.Normal ry
    /\ isMinimumOf (Years.min ry)
                   (seenFrom ++ validYears parseISO Rule.from rules)
    /\ isMaximumOf (Years.max ry)
                   (seenTo ++ validYears parseISO Rule.to rules).
Proof.
  revert minYear maxYear seenFrom seenTo.
  induction rules as [|r rest IH]; intros minYear maxYear seenFrom seenTo
    Hparse Hmin Hmax.
  - eexists. split; [reflexivity|]. cbn. now rewrite !app_nil_r.
  - destruct (Hparse r (or_introl eq_refl)) as (f & t & Hf & Ht).
    cbn [Years.ruleYearsLoop]. rewrite Hf, Ht. cbn [JS.bind].
    destruct (IH _ _ _ _
                (fun r' Hin => Hparse r' (or_intror Hin))
                (validYears_cons Rule.from r rest f _ _ Hf Hmin)
                (validYears_cons_max Rule.to r t _ _ Ht Hmax))
      as (ry & Hrun & Hlo & Hhi).
    exists ry. split; [exact Hrun|].
    change (r :: rest) with ([r] ++ rest).
    rewrite !validYears_app, !app_assoc. now split.
Qed.

(** X8. The rule years: without rules they are [null]; with rules whose
    dates [parseISO] reads, [min] is the least year of the valid [from]
    dates and [max] the greatest year of the valid [to] dates, a date
    that is invalid counting for nothing; [min] is [Infinity] exactly
    when no [from] date is valid and [max] is [-Infinity] exactly when no
    [to] date is valid. *)
Theorem rule_years_bounds (rules : list Rule.PriceRule) :
  (forall r, In r rules ->
     exists f t, parseISO (Rule.from r) = JS.Normal f
                 /\ parseISO (Rule.to r) = JS.Normal t) ->
  (rules = [] -> Years.ruleYears parseISO rules = JS.Normal None)
  /\ (rules <> [] ->
      exists ry,
        Years.ruleYears parseISO rules = JS.Normal (Some ry)
        /\ isMinimumOf (Years.min ry) (validYears parseISO Rule.from rules)
        /\ isMaximumOf (Years.max ry) (validYears parseISO Rule.to rules)).
Proof.
  intros Hparse. split; [now intros ->|].
  intros Hne.
  destruct (ruleYearsLoop_bounds rules Years.PlusInfinity Years.MinusInfinity
              [] [] Hparse eq_refl eq_refl) as (ry & Hrun & Hlo & Hhi).
  exists ry. unfold Years.ruleYears.
  destruct rules as [|r rest]; [congruence|].
  rewrite Hrun. now split.
Qed.

Lemma minYearLoop_bounds (rules : list Rule.PriceRule)
  (minYear : Years.minBound) (seen : list Z) :
  (forall r, In r rules ->
     exists f t, parseISO (Rule.from r) = JS.Normal f
                 /\ parseISO (Rule.to r) = JS.Normal t) ->
  isMinimumOf minYear seen ->
  exists b,
    Years.minYearLoop parseISO rules minYear = JS.Normal b
    /\ isMinimumOf b
         (seen ++ flat_map (fun r => validYears parseISO Rule.from [r]
                                     ++ validYears parseISO Rule.to [r])
                           rules).
Proof.
  revert minYear seen.
  induction rules as [|r rest IH]; intros minYear seen Hparse Hmin.
  - eexists. split; [reflexivity|]. cbn. now rewrite app_nil_r.
  - destruct (Hparse r (or_introl eq_refl)) as (f & t & Hf & Ht).
    cbn [Years.minYearLoop]. rewrite Hf, Ht. cbn [JS.bind].
    pose proof (validYears_cons Rule.from r rest f _ _ Hf Hmin) as H1.
    pose proof (validYears_cons Rule.to r rest t _ _ Ht H1) as H2.
    destruct (IH _ _ (fun r' Hin => Hparse r' (or_intror Hin)) H2)
      as (b & Hrun & Hb).
    exists b. split; [exact Hrun|].
    cbn [flat_map]. now rewrite !app_assoc in *.
Qed.

Lemma In_validYears (field : Rule.PriceRule -> option string)
  (rules : list Rule.PriceRule) (y : Z) :
  In y (validYears parseISO field rules)
  <-> exists r t, In r rules
                  /\ parseISO (field r) = JS.Normal (DateFns.ValidDate t)
                  /\ y = yearOf t.
Proof.
  unfold validYears. rewrite in_flat_map. split.
  - intros (r & Hr & Hy).
    destruct (parseISO (field r)) as [[|t]|] eqn:E; cbn in Hy;
      try contradiction.
    destruct Hy as [<-|[]]. now exists r, t.
  - intros (r & t & Hr & Ht & ->). exists r. split; [exact Hr|].
    rewrite Ht. now left.
Qed.

(** X9. Loading rules whose dates [parseISO] reads: the year shown
    afterwards is the least year of all valid [from] and [to] dates, and
    the year shown before when no date is valid.  When every rule has
    valid dates with the year of [from] not after the year of [to], that
    year is the [min] of the rule years, and [min <= max]: the timeline
    opens inside the range the year buttons allow. *)
Theorem loaded_year_in_rule_years (loadedRules : list Rule.PriceRule)
  (year : Z) :
  (forall r, In r loadedRules ->
     exists f t, parseISO (Rule.from r) = JS.Normal f
                 /\ parseISO (Rule.to r) = JS.Normal t) ->
  let years := validYears parseISO Rule.from loadedRules
               ++ validYears parseISO Rule.to loadedRules in
  exists shown,
    Years.handleRulesLoaded parseISO loadedRules year = JS.Normal shown
    /\ (years = [] -> shown = year)
    /\ (years <> [] ->
        In shown years /\ forall y, In y years -> shown <= y)
    /\ (loadedRules <> [] ->
        (forall r, In r loadedRules ->
           exists f t,
             parseISO (Rule.from r) = JS.Normal (DateFns.ValidDate f)
             /\ parseISO (Rule.to r) = JS.Normal (DateFns.ValidDate t)
             /\ yearOf f <= yearOf t) ->
        exists hi,
          Years.ruleYears parseISO loadedRules
          = JS.Normal (Some {| Years.min := Years.MinYear shown;
                               Years.max := Years.MaxYear hi |})
          /\ shown <= hi).
Proof.
  intros Hparse years.
  destruct (minYearLoop_bounds loadedRules Years.PlusInfinity [] Hparse
              eq_refl) as (b & Hrun & Hb).
  cbn [app] in Hb.
  set (both := flat_map
                 (fun r => validYears parseISO Rule.from [r]
                           ++ validYears parseISO Rule.to [r])
                 loadedRules) in Hb.
  assert (Hsame : forall y, In y both <-> In y years).
  { intros y. unfold both, years. rewrite in_flat_map, in_app_iff.
    rewrite !In_validYears. split.
    - intros (r & Hr & Hy). apply in_app_or in Hy.
      destruct Hy as [Hy|Hy]; apply In_validYears in Hy;
        destruct Hy as (r' & t & [<-|[]] & Ht & ->);
        [left|right]; now exists r, t.
    - intros [(r & t & Hr & Ht & ->)|(r & t & Hr & Ht & ->)];
        exists r; (split; [exact Hr|]); apply in_or_app;
        [left|right]; apply In_validYears; exists r, t;
        (split; [now left|now split]). }
  assert (Hshown : exists shown,
            Years.handleRulesLoaded parseISO loadedRules year
            = JS.Normal shown
            /\ match b with
               | Years.PlusInfinity => shown = year
               | Years.MinYear m => shown = m
               end).
  { unfold Years.handleRulesLoaded.
    destruct loadedRules as [|r rest].
    - cbn in Hrun. injection Hrun as <-. now exists year.
    - rewrite Hrun. cbn [JS.bind]. destruct b as [|m]; eexists; now split. }
  destruct Hshown as (shown & Hshown & Hval).
  exists shown. split; [exact Hshown|].
  assert (Hmin : years <> [] ->
                 In shown years /\ forall y, In y years -> shown <= y).
  { intros Hne. destruct b as [|m]; cbn in Hb.
    - destruct years as [|y ys]; [congruence|].
      assert (Hy : In y both) by (apply Hsame; now left).
      rewrite Hb in Hy. destruct Hy.
    - subst shown. destruct Hb as [Hin Hle]. split; [now apply Hsame|].
      intros y Hy. now apply Hle, Hsame. }
  split; [|split; [exact Hmin|]].
  - intros Hnone. destruct b as [|m]; [exact Hval|].
    cbn in Hb. destruct Hb as [Hin _]. apply Hsame in Hin.
    rewrite Hnone in Hin. destruct Hin.
  - intros Hne Hvalid.
    destruct (ruleYearsLoop_bounds loadedRules Years.PlusInfinity
                Years.MinusInfinity [] [] Hparse eq_refl eq_refl)
      as (ry & Hry & Hlo & Hhi).
    cbn [app] in Hlo, Hhi.
    destruct loadedRules as [|r0 rest]; [congruence|].
    destruct (Hvalid r0 (or_introl eq_refl)) as (f0 & t0 & Hf0 & Ht0 & H0).
    assert (Hfrom0 : In (yearOf f0)
                        (validYears parseISO Rule.from (r0 :: rest))).
    { apply In_validYears. exists r0, f0. split; [now left|now split]. }
    assert (Hto0 : In (yearOf t0)
                      (validYears parseISO Rule.to (r0 :: rest))).
    { apply In_validYears. exists r0, t0. split; [now left|now split]. }
    destruct ry as [[|lo] [|hi]];
      unfold isMinimumOf, isMaximumOf in Hlo, Hhi;
      cbn [Years.min Years.max] in Hlo, Hhi;
      try (rewrite Hlo in Hfrom0; destruct Hfrom0);
      try (rewrite Hhi in Hto0; destruct Hto0).
    destruct Hlo as [Hlo_in Hlo_le]. destruct Hhi as [Hhi_in Hhi_le].
    assert (Hyears : years <> []).
    { unfold years. intros E. apply app_eq_nil in E. destruct E as [E _].
      rewrite E in Hfrom0. destruct Hfrom0. }
    destruct (Hmin Hyears) as [Hshown_in Hshown_le].
    assert (Heq : shown = lo).
    { apply Z.le_antisymm.
      - apply Hshown_le. unfold years. apply in_or_app. now left.
      - unfold years in Hshown_in. apply in_app_or in Hshown_in.
        destruct Hshown_in as [Hin|Hin]; [now apply Hlo_le|].
        apply In_validYears in Hin. destruct Hin as (r & t & Hr & Ht & ->).
        destruct (Hvalid r Hr) as (f & t' & Hf & Ht' & Hft).
        rewrite Ht in Ht'. injection Ht' as <-.
        assert (Hf_in : In (yearOf f)
                           (validYears parseISO Rule.from (r0 :: rest))).
        { apply In_validYears. now exists r, f. }
        specialize (Hlo_le _ Hf_in). lia. }
    subst lo. exists hi. unfold Years.ruleYears. rewrite Hry. cbn [JS.bind].
    split; [reflexivity|].
    apply In_validYears in Hlo_in. destruct Hlo_in as (r & f & Hr & Hf & ->).
    destruct (Hvalid r Hr) as (f' & t & Hf' & Ht & Hft).
    rewrite Hf in Hf'. injection Hf' as <-.
    assert (Ht_in : In (yearOf t) (validYears parseISO Rule.to (r0 :: rest))).
    { apply In_validYears. now exists r, t. }
    specialize (Hhi_le _ Ht_in). lia.
Qed.

End YearsFacts.

(** Case analysis on the comparisons of the navigation code. *)
Ltac nav_cases :=
  repeat match goal with
         | |- context [?a <=? ?b] => destruct (Z.leb_spec a b)
         | |- context [?a =? ?b] => destruct (Z.eqb_spec a b)
         | |- context [Nat.ltb ?a ?b] => destruct (Nat.ltb_spec a b)
         end;
  cbn [andb orb negb fst snd] in *.

Lemma perform_in_rule_years (lo hi : Z) (state : Z * Z) (a : Years.action) :
  inRuleYears lo hi state ->
  inRuleYears lo hi
    (Years.perform
       (Some {| Years.min := Years.MinYear lo; Years.max := Years.MaxYear hi |})
       state a).
Proof.
  destruct state as [year month]. unfold inRuleYears. cbn [fst snd].
  intros [Hy Hm].
  destruct a as [| | | |tick]; unfold Years.perform;
    unfold Years.previousMonthDisabled, Years.nextMonthDisabled,
      Years.previousYearDisabled, Years.nextYearDisabled,
      Years.navigateMonth, Years.leMin, Years.geMin, Years.leMax, Years.geMax;
    cbn [Years.min Years.max];
    nav_cases; cbn [fst snd]; lia.
Qed.

(** X10. The year and the month under the buttons: with rule years from
    [lo] to [hi], a year within them and a month from 0 to 11 stay so
    after any sequence of clicks on the month buttons, the year buttons
    and the month ticks. *)
Theorem navigation_stays_in_rule_years (lo hi : Z)
  (actions : list Years.action) (state : Z * Z) :
  inRuleYears lo hi state ->
  inRuleYears lo hi
    (fold_left
       (Years.perform
          (Some {| Years.min := Years.MinYear lo;
                   Years.max := Years.MaxYear hi |}))
       actions state).
Proof.
  revert state. induction actions as [|a actions IH]; intros state Hin;
    [exact Hin|].
  cbn [fold_left]. apply IH. now apply perform_in_rule_years.
Qed.

Lemma navigate_inside (ruleYears : option Years.RuleYears)
  (year month direction : Z) :
  0 <= month + direction <= 11 ->
  Years.navigateMonth ruleYears year month direction
  = (year, month + direction).
Proof.
  intros H. unfold Years.navigateMonth.
  destruct (Z.leb_spec 0 (month + direction)); [|lia].
  destruct (Z.leb_spec (month + direction) 11); [reflexivity|lia].
Qed.

Lemma navigate_next_december (ruleYears : option Years.RuleYears) (year : Z) :
  Years.navigateMonth ruleYears year 11 1
  = match ruleYears with
    | Some ry => if Years.leMax (year + 1) (Years.max ry) then (year + 1, 0)
                 else (year, 11)
    | None => (year, 11)
    end.
Proof. reflexivity. Qed.

Lemma navigate_previous_january (ruleYears : option Years.RuleYears)
  (year : Z) :
  Years.navigateMonth ruleYears year 0 (-1)
  = match ruleYears with
    | Some ry => if Years.geMin (year - 1) (Years.min ry) then (year - 1, 11)
                 else (year, 0)
    | None => (year, 0)
    end.
Proof. reflexivity. Qed.

(** X11. The month buttons and [navigateMonth] agree, for a month from 0
    to 11: "Previous" is disabled exactly when [navigateMonth(-1)] would
    change nothing, and "Next" exactly when [navigateMonth(1)] would
    change nothing.  When "Next" is enabled and the year is not below the
    rule years, [navigateMonth(-1)] after [navigateMonth(1)] gives the
    year and the month back; likewise the other way round when the year
    is not above them. *)
Theorem month_buttons_match_navigation (ruleYears : option Years.RuleYears)
  (year month : Z) :
  0 <= month <= 11 ->
  (Years.previousMonthDisabled ruleYears year month = true
   <-> Years.navigateMonth ruleYears year month (-1) = (year, month))
  /\ (Years.nextMonthDisabled ruleYears year month = true
      <-> Years.navigateMonth ruleYears year month 1 = (year, month))
  /\ (Years.nextMonthDisabled ruleYears year month = false ->
      (forall ry, ruleYears = Some ry ->
                  Years.geMin year (Years.min ry) = true) ->
      Years.navigateMonth ruleYears
        (fst (Years.navigateMonth ruleYears year month 1))
        (snd (Years.navigateMonth ruleYears year month 1)) (-1)
      = (year, month))
  /\ (Years.previousMonthDisabled ruleYears year month = false ->
      (forall ry, ruleYears = Some ry ->
                  Years.leMax year (Years.max ry) = true) ->
      Years.navigateMonth ruleYears
        (fst (Years.navigateMonth ruleYears year month (-1)))
        (snd (Years.navigateMonth ruleYears year month (-1))) 1
      = (year, month)).
Proof.
  intros Hm.
  assert (Hprev : month = 0 \/ 1 <= month) by lia.
  assert (Hnext : month = 11 \/ month <= 10) by lia.
  split; [|split; [|split]].
  - unfold Years.previousMonthDisabled.
    destruct Hprev as [->|Hprev].
    + rewrite navigate_previous_january. cbn [Z.eqb andb].
      destruct ruleYears as [[[|lo] hi]|];
        cbn [Years.min Years.leMin Years.geMin]; try tauto.
      destruct (Z.leb_spec year lo), (Z.leb_spec lo (year - 1)); try lia;
        split; intros H'; try reflexivity; discriminate.
    + rewrite navigate_inside by lia.
      destruct (Z.eqb_spec month 0); [lia|]. cbn [andb].
      split; [discriminate|]. intros H'. exfalso. inversion H'. lia.
  - unfold Years.nextMonthDisabled.
    destruct Hnext as [->|Hnext].
    + rewrite navigate_next_december. cbn [Z.eqb andb].
      destruct ruleYears as [[lo [|hi]]|];
        cbn [Years.max Years.leMax Years.geMax]; try tauto.
      destruct (Z.leb_spec hi year), (Z.leb_spec (year + 1) hi); try lia;
        split; intros H'; try reflexivity; discriminate.
    + rewrite navigate_inside by lia.
      destruct (Z.eqb_spec month 11); [lia|]. cbn [andb].
      split; [discriminate|]. intros H'. exfalso. inversion H'. lia.
  - intros Hen Hlow. unfold Years.nextMonthDisabled in Hen.
    destruct Hnext as [->|Hnext].
    + rewrite navigate_next_december. cbn [Z.eqb andb] in Hen.
      destruct ruleYears as [ry|]; [|discriminate].
      specialize (Hlow ry eq_refl).
      destruct ry as [lo [|hi]]; cbn [Years.max Years.min Years.leMax
                                       Years.geMax Years.geMin] in *;
        [discriminate|].
      destruct (Z.leb_spec hi year); [discriminate|].
      destruct (Z.leb_spec (year + 1) hi); [|lia].
      cbn [fst snd]. rewrite navigate_previous_january.
      cbn [Years.min].
      replace (year + 1 - 1) with year by lia.
      now rewrite Hlow.
    + rewrite (navigate_inside ruleYears year month 1) by lia.
      cbn [fst snd].
      rewrite navigate_inside by lia. f_equal. lia.
  - intros Hen Hhigh. unfold Years.previousMonthDisabled in Hen.
    destruct Hprev as [->|Hprev].
    + rewrite navigate_previous_january. cbn [Z.eqb andb] in Hen.
      destruct ruleYears as [ry|]; [|discriminate].
      specialize (Hhigh ry eq_refl).
      destruct ry as [[|lo] hi]; cbn [Years.max Years.min Years.leMin
                                       Years.leMax Years.geMin] in *;
        [discriminate|].
      destruct (Z.leb_spec year lo); [discriminate|].
      destruct (Z.leb_spec lo (year - 1)); [|lia].
      cbn [fst snd]. rewrite navigate_next_december.
      cbn [Years.max].
      replace (year - 1 + 1) with year by lia.
      now rewrite Hhigh.
    + rewrite (navigate_inside ruleYears year month (-1)) by lia.
      cbn [fst snd].
      rewrite navigate_inside by lia. f_equal. lia.
Qed.

(* ================================================================== *)
(** ** Properties of the timeline *)
(* ================================================================== *)

Lemma dayNumber_midnight (d : Z) :
  DateFns.dayNumber (d * DateFns.MS_PER_DAY) = d.
Proof. unfold DateFns.dayNumber, DateFns.MS_PER_DAY. now apply Z.div_mul. Qed.

Lemma dayNumber_shift (t k : Z) :
  DateFns.dayNumber (t + k * DateFns.MS_PER_DAY) = DateFns.dayNumber t + k.
Proof. unfold DateFns.dayNumber, DateFns.MS_PER_DAY. now apply Z.div_add. Qed.

(** The Gregorian year has 365 days, 366 in a leap year. *)
Lemma year_length (y : Z) :
  DateFns.daysFromCivil y 12 31 - DateFns.daysFromCivil y 1 1 + 1
  = if DateFns.isLeapYear y then 366 else 365.
Proof.
  unfold DateFns.daysFromCivil, DateFns.isLeapYear.
  cbn [Z.leb Z.compare Pos.compare Pos.compare_cont].
  change ((12 + 9) mod 12) with 9. change ((1 + 9) mod 12) with 10.
  change ((153 * 9 + 2) / 5) with 275. change ((153 * 10 + 2) / 5) with 306.
  destruct (Z.eqb_spec (y mod 400) 0), (Z.eqb_spec (y mod 4) 0),
    (Z.eqb_spec (y mod 100) 0); cbn [orb andb negb];
    Z.div_mod_to_equations; lia.
Qed.

(** Evaluation of the comparisons that do not mention the year [y]. *)
Ltac reduce_closed y :=
  repeat match goal with
         | |- context [Z.leb ?a ?b] =>
             lazymatch a with
             | context [y] => fail
             | _ => let v := eval vm_compute in (Z.leb a b) in
                    change (Z.leb a b) with v
             end
         | |- context [Z.eqb ?a ?b] =>
             lazymatch a with
             | context [y] => fail
             | _ => let v := eval vm_compute in (Z.eqb a b) in
                    change (Z.eqb a b) with v
             end
         end;
  cbv iota; cbn [orb andb negb].

(** From the first of a month to the first of the next there are as many
    days as the month has. *)
Lemma month_length (y m : Z) :
  1 <= m <= 12 ->
  DateFns.daysFromCivil (y + m / 12) (m mod 12 + 1) 1
  - DateFns.daysFromCivil y m 1
  = DateFns.daysInMonth y m.
Proof.
  intros Hm.
  assert (Hc : m = 1 \/ m = 2 \/ m = 3 \/ m = 4 \/ m = 5 \/ m = 6 \/ m = 7
               \/ m = 8 \/ m = 9 \/ m = 10 \/ m = 11 \/ m = 12) by lia.
  unfold DateFns.daysFromCivil, DateFns.daysInMonth, DateFns.isLeapYear.
  destruct Hc as [->|[->|[->|[->|[->|[->|[->|[->|[->|[->|[->| ->]]]]]]]]]]];
    reduce_closed y;
    try (destruct (Z.eqb_spec (y mod 400) 0), (Z.eqb_spec (y mod 4) 0),
           (Z.eqb_spec (y mod 100) 0); cbn [orb andb negb]);
    Z.div_mod_to_equations; lia.
Qed.

Lemma daysFromCivil_day (y m d : Z) :
  DateFns.daysFromCivil y m d = DateFns.daysFromCivil y m 1 + (d - 1).
Proof. unfold DateFns.daysFromCivil. lia. Qed.

(** The first of a month is at most 335 days after the first of
    January. *)
Lemma month_start_offset (y m : Z) :
  1 <= m <= 12 ->
  0 <= DateFns.daysFromCivil y m 1 - DateFns.daysFromCivil y 1 1 <= 335
  /\ (m = 1 ->
      DateFns.daysFromCivil y m 1 - DateFns.daysFromCivil y 1 1 = 0).
Proof.
  intros Hm.
  assert (Hc : m = 1 \/ m = 2 \/ m = 3 \/ m = 4 \/ m = 5 \/ m = 6 \/ m = 7
               \/ m = 8 \/ m = 9 \/ m = 10 \/ m = 11 \/ m = 12) by lia.
  unfold DateFns.daysFromCivil.
  destruct Hc as [->|[->|[->|[->|[->|[->|[->|[->|[->|[->|[->| ->]]]]]]]]]]];
    reduce_closed y; Z.div_mod_to_equations; lia.
Qed.

Lemma daysInMonth_bounds (y m : Z) : 28 <= DateFns.daysInMonth y m <= 31.
Proof.
  unfold DateFns.daysInMonth.
  destruct (m =? 2); [destruct (DateFns.isLeapYear y); lia|].
  destruct ((m =? 4) || (m =? 6) || (m =? 9) || (m =? 11)); lia.
Qed.

Lemma newDate_first (year k : Z) :
  0 <= k <= 11 ->
  Timeline.newDate year k 1
  = DateFns.ValidDate
      (DateFns.daysFromCivil
         (if (0 <=? year) && (year <=? 99) then 1900 + year else year)
         (k + 1) 1
       * DateFns.MS_PER_DAY).
Proof.
  intros Hk. unfold Timeline.newDate.
  rewrite (Z.div_small k 12), (Z.mod_small k 12) by lia.
  replace (1 - 1) with 0 by reflexivity.
  now rewrite !Z.add_0_r.
Qed.

(** X12. The range of the timeline, for a year a [Date] can hold and a
    month from 0 to 11 (a year from 0 to 99 standing for 1900 + year, as
    [new Date] has it).  The year view starts on the first of January and
    has 365 days, 366 in a leap year; its ticks are twelve, at the first
    days of the months: the first at index 0, each further one later by
    the length of the month before, all within the view.  The month view
    starts on the first of the month and has as many days as the month,
    28 to 31, with one tick per day at the indices 0, 1, ... *)
Theorem view_total_days (year selectedMonth : Z) :
  -200000 <= year <= 200000 ->
  0 <= selectedMonth <= 11 ->
  let shown := if (0 <=? year) && (year <=? 99) then 1900 + year else year in
  let first m := DateFns.daysFromCivil shown m 1 in
  let yearView := Timeline.viewRange Timeline.YearView year selectedMonth in
  let monthView := Timeline.viewRange Timeline.MonthView year selectedMonth in
  (Timeline.start yearView
   = DateFns.ValidDate (first 1 * DateFns.MS_PER_DAY)
   /\ Timeline.totalDays yearView
      = JS.Num (if DateFns.isLeapYear shown then 366 else 365)
   /\ List.length (Timeline.headerTicks Timeline.YearView year
                     (Timeline.start yearView) (Timeline.totalDays yearView))
      = 12%nat
   /\ forall k, (k < 12)%nat ->
        nth_error (Timeline.headerTicks Timeline.YearView year
                     (Timeline.start yearView) (Timeline.totalDays yearView))
                  k
        = Some {| Timeline.tickIndex :=
                    JS.Num (first (Z.of_nat k + 1) - first 1);
                  Timeline.tickMonth := Some (Z.of_nat k) |}
        /\ 0 <= first (Z.of_nat k + 1) - first 1 < 365
        /\ (k = 0%nat -> first (Z.of_nat k + 1) - first 1 = 0)
        /\ ((k < 11)%nat ->
            first (Z.of_nat (S k) + 1) - first 1
            = first (Z.of_nat k + 1) - first 1
              + DateFns.daysInMonth shown (Z.of_nat k + 1)))
  /\ (Timeline.start monthView
      = DateFns.ValidDate (first (selectedMonth + 1) * DateFns.MS_PER_DAY)
      /\ Timeline.totalDays monthView
         = JS.Num (DateFns.daysInMonth shown (selectedMonth + 1))
      /\ 28 <= DateFns.daysInMonth shown (selectedMonth + 1) <= 31
      /\ map Timeline.tickIndex
             (Timeline.headerTicks Timeline.MonthView year
                (Timeline.start monthView) (Timeline.totalDays monthView))
         = map (fun i => JS.Num (Z.of_nat i))
               (seq 0 (Z.to_nat
                         (DateFns.daysInMonth shown (selectedMonth + 1))))).
Proof.
  intros _ Hm shown first yearView monthView.
  assert (Hstart : Timeline.start yearView
                   = DateFns.ValidDate (first 1 * DateFns.MS_PER_DAY)).
  { unfold yearView. cbn [Timeline.viewRange Timeline.start].
    rewrite (newDate_first year 0) by lia. reflexivity. }
  assert (Hmstart : Timeline.start monthView
                    = DateFns.ValidDate
                        (first (selectedMonth + 1) * DateFns.MS_PER_DAY)).
  { unfold monthView. cbn [Timeline.viewRange Timeline.start].
    now rewrite (newDate_first year selectedMonth) by lia. }
  assert (Hmtotal : Timeline.totalDays monthView
                    = JS.Num (DateFns.daysInMonth shown (selectedMonth + 1))).
  { unfold monthView. cbn [Timeline.viewRange Timeline.totalDays].
    rewrite (newDate_first year selectedMonth) by lia.
    unfold Timeline.newDate. fold shown.
    cbn [DateFns.differenceInCalendarDays Timeline.add].
    rewrite !dayNumber_midnight. f_equal.
    pose proof (month_length shown (selectedMonth + 1) ltac:(lia)) as Hlen.
    unfold first. lia. }
  split; [split; [exact Hstart|split; [|split]]|].
  - unfold yearView. cbn [Timeline.viewRange Timeline.totalDays].
    rewrite (newDate_first year 0) by lia.
    unfold Timeline.newDate. fold shown.
    rewrite (Z.div_small 11 12), (Z.mod_small 11 12) by lia.
    cbn [DateFns.differenceInCalendarDays Timeline.add].
    rewrite !dayNumber_midnight. f_equal.
    pose proof (year_length shown) as Hlen.
    rewrite (daysFromCivil_day shown 12 31) in Hlen.
    replace (11 + 1) with 12 by lia. rewrite Z.add_0_r.
    exact Hlen.
  - cbn [Timeline.headerTicks]. unfold Timeline.yearTicks.
    now rewrite length_map, length_seq.
  - intros k Hk.
    pose proof (month_start_offset shown (Z.of_nat k + 1) ltac:(lia))
      as [Hoff Hzero].
    split; [|split; [unfold first; lia|split]].
    + rewrite Hstart. cbn [Timeline.headerTicks]. unfold Timeline.yearTicks.
      rewrite nth_error_map, nth_error_seq.
      destruct (Nat.ltb_spec k 12) as [_|Hge]; [|lia].
      cbn [option_map Nat.add].
      rewrite (newDate_first year (Z.of_nat k)) by lia. fold shown.
      cbn [DateFns.differenceInCalendarDays].
      now rewrite !dayNumber_midnight.
    + intros ->. unfold first. now apply Hzero.
    + intros Hlt.
      pose proof (month_length shown (Z.of_nat k + 1) ltac:(lia)) as Hlen.
      rewrite (Z.div_small (Z.of_nat k + 1) 12),
        (Z.mod_small (Z.of_nat k + 1) 12) in Hlen by lia.
      unfold first.
      replace (Z.of_nat (S k) + 1) with (Z.of_nat k + 1 + 1) by lia.
      replace (shown + 0) with shown in Hlen by lia. lia.
  - split; [exact Hmstart|]. split; [exact Hmtotal|].
    split; [apply daysInMonth_bounds|].
    rewrite Hmtotal. cbn [Timeline.headerTicks Timeline.monthTicks].
    rewrite map_map. cbn [Timeline.tickIndex].
    generalize (Z.to_nat (DateFns.daysInMonth shown (selectedMonth + 1))).
    intros n. rewrite <- seq_shift, map_map.
    apply map_ext. intros i. f_equal. lia.
Qed.

Section RowFacts.

Variable parseISO : option string -> JS.completion DateFns.Date.
Variable formatValid : Z -> string -> string.

(** What a row that is produced holds. *)
Lemma ruleRow_some (start : DateFns.Date) (totalDays : JS.number)
  (ids : list Z) (rule : Rule.PriceRule) (row : Timeline.RuleRow) :
  Timeline.ruleRow parseISO formatValid start totalDays ids rule
  = JS.Normal (Some row) ->
  exists f t,
    parseISO (Rule.from rule) = JS.Normal (DateFns.ValidDate f)
    /\ parseISO (Rule.to rule) = JS.Normal (DateFns.ValidDate t)
    /\ Timeline.rowRule row = rule
    /\ Timeline.ruleIntersects row
       = Timeline.intersectsView
           (DateFns.differenceInCalendarDays (DateFns.ValidDate f) start)
           (DateFns.differenceInCalendarDays (DateFns.ValidDate t) start)
           totalDays
    /\ Timeline.ruleStartIdx row
       = Timeline.mathMax (JS.Num 0)
           (DateFns.differenceInCalendarDays (DateFns.ValidDate f) start)
    /\ Timeline.ruleEndIdx row
       = Timeline.mathMin (Timeline.sub totalDays (JS.Num 1))
           (DateFns.differenceInCalendarDays (DateFns.ValidDate t) start)
    /\ Timeline.highlight row = existsb (Z.eqb (Rule.id rule)) ids
    /\ forall sh,
         Timeline.shadowOverlay row = Some sh ->
         exists maxDays,
           Rule.maxDaysToArrival rule = Some maxDays
           /\ Timeline.visibleStartIdx sh
              = Timeline.mathMax (JS.Num 0)
                  (DateFns.differenceInCalendarDays
                     (Timeline.shadowStartOf (DateFns.ValidDate f) maxDays)
                     start)
           /\ Timeline.visibleEndIdx sh
              = Timeline.mathMin (Timeline.sub totalDays (JS.Num 1))
                  (DateFns.differenceInCalendarDays
                     (Timeline.shadowEndOf (DateFns.ValidDate f)) start)
           /\ Timeline.le (Timeline.visibleStartIdx sh)
                          (Timeline.visibleEndIdx sh) = true.
Proof.
  unfold Timeline.ruleRow.
  destruct (parseISO (Rule.from rule)) as [fd|] eqn:Hf; [|discriminate].
  cbn [JS.bind].
  destruct (parseISO (Rule.to rule)) as [td|] eqn:Ht; [|discriminate].
  cbn [JS.bind].
  destruct (Rule.maxDaysToArrival rule) as [maxDays|] eqn:Hmax;
    cbn [JS.bind].
  - destruct (negb _ && negb _); [discriminate|].
    destruct (Timeline.intersectsView
                (DateFns.differenceInCalendarDays
                   (Timeline.shadowStartOf fd maxDays) start)
                (DateFns.differenceInCalendarDays
                   (Timeline.shadowEndOf fd) start) totalDays).
    + destruct (Timeline.le _ _) eqn:Hle.
      * cbn [JS.bind].
        destruct fd as [|f]; [cbn; discriminate|].
        destruct maxDays as [|m]; [cbn; discriminate|].
        destruct td as [|t]; [cbn; discriminate|].
        cbn. intros [= <-].
        exists f, t. cbn. repeat (split; [reflexivity|]).
        intros sh [= <-]. exists (JS.Num m).
        split; [reflexivity|]. split; [reflexivity|].
        split; [reflexivity|]. exact Hle.
      * cbn [JS.bind].
        destruct fd as [|f]; [cbn; discriminate|].
        cbn [JS.bind Timeline.format].
        destruct td as [|t]; [cbn; discriminate|].
        cbn [JS.bind Timeline.format]. intros [= <-].
        exists f, t. cbn. repeat (split; [reflexivity|]). discriminate.
    + cbn [JS.bind].
      destruct fd as [|f]; [cbn; discriminate|].
      cbn [JS.bind Timeline.format].
      destruct td as [|t]; [cbn; discriminate|].
      cbn [JS.bind Timeline.format]. intros [= <-].
      exists f, t. cbn. repeat (split; [reflexivity|]). discriminate.
  - destruct (negb _ && negb _); [discriminate|].
    cbn [JS.bind].
    destruct fd as [|f]; [cbn; discriminate|].
    cbn [JS.bind Timeline.format].
    destruct td as [|t]; [cbn; discriminate|].
    cbn [JS.bind Timeline.format]. intros [= <-].
    exists f, t. cbn. repeat (split; [reflexivity|]). discriminate.
Qed.

(** X13. The rows of the timeline.  A row is produced only for a rule
    whose [from] and [to] are valid dates (for an invalid date the row is
    dropped or the rendering throws).  For a view of [n >= 1] days and a
    rule that does not end before it starts, the bar is drawn exactly
    when a day of the rule lies in the view, and it then covers exactly
    the days of the rule that lie in the view. *)
Theorem rule_row_bar (start : DateFns.Date) (totalDays : JS.number)
  (ids : list Z) (rule : Rule.PriceRule) (row : Timeline.RuleRow) :
  Timeline.ruleRow parseISO formatValid start totalDays ids rule
  = JS.Normal (Some row) ->
  exists f t,
    parseISO (Rule.from rule) = JS.Normal (DateFns.ValidDate f)
    /\ parseISO (Rule.to rule) = JS.Normal (DateFns.ValidDate t)
    /\ Timeline.rowRule row = rule
    /\ forall s n,
         start = DateFns.ValidDate s ->
         totalDays = JS.Num n ->
         1 <= n ->
         DateFns.dayNumber f <= DateFns.dayNumber t ->
         let inView i :=
           0 <= i <= n - 1
           /\ DateFns.dayNumber f <= DateFns.dayNumber s + i
              <= DateFns.dayNumber t in
         (Timeline.ruleIntersects row = true <-> exists i, inView i)
         /\ (Timeline.ruleIntersects row = true ->
             exists a b,
               Timeline.ruleStartIdx row = JS.Num a
               /\ Timeline.ruleEndIdx row = JS.Num b
               /\ forall i, a <= i <= b <-> inView i).
Proof.
  intros Hrow.
  destruct (ruleRow_some _ _ _ _ _ Hrow)
    as (f & t & Hf & Ht & Hrule & Hint & Hs & He & _).
  exists f, t. split; [exact Hf|]. split; [exact Ht|].
  split; [exact Hrule|].
  intros s n -> -> Hn Hft inView.
  rewrite Hint, Hs, He. unfold inView.
  cbn [DateFns.differenceInCalendarDays Timeline.intersectsView Timeline.sub
       Timeline.mathMax Timeline.mathMin JS.lt JS.gt].
  set (x := DateFns.dayNumber f - DateFns.dayNumber s).
  set (y := DateFns.dayNumber t - DateFns.dayNumber s).
  assert (Hxy : x <= y) by (unfold x, y; lia).
  assert (Hiff : negb ((y <? 0) || (n - 1 <? x)) = true
                 <-> 0 <= y /\ x <= n - 1).
  { rewrite negb_true_iff, orb_false_iff, !Z.ltb_ge. tauto. }
  split.
  - rewrite Hiff. split.
    + intros [Hy Hx]. exists (Z.max 0 x). unfold x, y in *. lia.
    + intros (i & Hi). unfold x, y. lia.
  - intros Hvis. apply Hiff in Hvis.
    exists (Z.max 0 x), (Z.min (n - 1) y).
    split; [reflexivity|]. split; [reflexivity|].
    intros i. unfold x, y. lia.
Qed.

Lemma rule_of_id (rules : list Rule.PriceRule) (r r' : Rule.PriceRule) :
  NoDup (map Rule.id rules) ->
  In r rules -> In r' rules -> Rule.id r = Rule.id r' -> r = r'.
Proof.
  induction rules as [|x rules IH]; intros Hnd Hr Hr' Hid; [destruct Hr|].
  cbn in Hnd. apply NoDup_cons_iff in Hnd. destruct Hnd as [Hx Hnd].
  destruct Hr as [<-|Hr], Hr' as [<-|Hr'].
  - reflexivity.
  - exfalso. apply Hx. rewrite Hid. now apply in_map.
  - exfalso. apply Hx. rewrite <- Hid. now apply in_map.
  - now apply IH.
Qed.

(** X14. The highlight of a row: for rules with pairwise distinct ids (as
    the parser and the merge give them) and evaluations that return, the
    row of a rule is highlighted exactly when that rule allows at least
    one of the bookings of the form. *)
Theorem row_highlight_iff_match (bookingEntries : list BookingEntry)
  (rules : list Rule.PriceRule) (bookingDate start : DateFns.Date)
  (totalDays : JS.number) (ids : list Z) (rule : Rule.PriceRule)
  (row : Timeline.RuleRow) :
  let verdict r entry :=
    isBookingAllowedByRule parseISO r (Some (entryStartDate entry))
      (Some (JS.parseInt (entryLength entry))) bookingDate in
  NoDup (map Rule.id rules) ->
  In rule rules ->
  (forall r entry, In r rules -> In entry bookingEntries ->
     exists b, verdict r entry = JS.Normal b) ->
  highlightedRuleIds parseISO bookingEntries rules bookingDate
  = JS.Normal ids ->
  Timeline.ruleRow parseISO formatValid start totalDays ids rule
  = JS.Normal (Some row) ->
  (Timeline.highlight row = true
   <-> exists entry, In entry bookingEntries
                     /\ verdict rule entry = JS.Normal true).
Proof.
  intros verdict Hnd Hrule Hall Hids Hrow.
  destruct (ruleRow_some _ _ _ _ _ Hrow)
    as (f & t & _ & _ & _ & _ & _ & _ & Hhl & _).
  rewrite Hhl.
  unfold highlightedRuleIds in Hids.
  rewrite (forEachEntry_returns parseISO _ _ _ _ Hall), fold_pushIfNew_nil
    in Hids.
  injection Hids as <-.
  rewrite existsb_exists. split.
  - intros (i & Hi & Heq). apply Z.eqb_eq in Heq. subst i.
    apply firstSeen_In, in_flat_map in Hi.
    destruct Hi as (entry & He & Hi).
    apply in_map_iff in Hi. destruct Hi as (r & Hid & Hr).
    apply filter_In in Hr. destruct Hr as [Hr Hv].
    assert (r = rule) by (now apply (rule_of_id rules)). subst r.
    exists entry. split; [exact He|].
    fold (verdict rule entry) in Hv.
    destruct (verdict rule entry) as [[|]|]; cbn in Hv;
      [reflexivity|discriminate|discriminate].
  - intros (entry & He & Hv).
    exists (Rule.id rule). split; [|apply Z.eqb_refl].
    apply firstSeen_In, in_flat_map. exists entry. split; [exact He|].
    apply in_map_iff. exists rule. split; [reflexivity|].
    apply filter_In. split; [exact Hrule|].
    fold (verdict rule entry). now rewrite Hv.
Qed.

(** X15. The shadow of the booking window.  When a row shows a shadow,
    the rule has a [maxDaysToArrival] that is an integer [m], and the
    shadow covers exactly the days of the view that lie before the first
    day of the rule and from which an arrival on that first day passes
    the booking-window check of the evaluator: the [m] days that end on
    the day before the rule starts. *)
Theorem shadow_marks_booking_window (start : DateFns.Date)
  (totalDays : JS.number) (ids : list Z) (rule : Rule.PriceRule)
  (row : Timeline.RuleRow) (sh : Timeline.Shadow) (s n : Z) :
  Timeline.ruleRow parseISO formatValid start totalDays ids rule
  = JS.Normal (Some row) ->
  Timeline.shadowOverlay row = Some sh ->
  start = DateFns.ValidDate s ->
  totalDays = JS.Num n ->
  exists f m a b,
    parseISO (Rule.from rule) = JS.Normal (DateFns.ValidDate f)
    /\ Rule.maxDaysToArrival rule = Some (JS.Num m)
    /\ Timeline.visibleStartIdx sh = JS.Num a
    /\ Timeline.visibleEndIdx sh = JS.Num b
    /\ a <= b
    /\ forall i,
         a <= i <= b
         <-> 0 <= i <= n - 1
             /\ DateFns.dayNumber s + i < DateFns.dayNumber f
             /\ bookingWindowExceeded rule (DateFns.ValidDate f)
                  (DateFns.ValidDate
                     ((DateFns.dayNumber s + i) * DateFns.MS_PER_DAY))
                = false.
Proof.
  intros Hrow Hsh -> ->.
  destruct (ruleRow_some _ _ _ _ _ Hrow)
    as (f & t & Hf & _ & _ & _ & _ & _ & _ & Hshadow).
  destruct (Hshadow sh Hsh) as (maxDays & Hmax & Ha & Hb & Hle).
  rewrite Ha, Hb in Hle.
  destruct maxDays as [|m]; [discriminate|].
  cbn [Timeline.shadowStartOf Timeline.shadowEndOf Timeline.shiftDays
       Timeline.add Timeline.sub DateFns.differenceInCalendarDays
       Timeline.mathMax Timeline.mathMin] in Ha, Hb, Hle.
  repeat rewrite dayNumber_shift in Ha.
  repeat rewrite dayNumber_shift in Hb.
  repeat rewrite dayNumber_shift in Hle.
  cbn [Timeline.le] in Hle. apply Z.leb_le in Hle.
  eexists f, m, _, _.
  split; [exact Hf|]. split; [exact Hmax|].
  split; [exact Ha|]. split; [exact Hb|]. split; [exact Hle|].
  intros i. unfold bookingWindowExceeded. rewrite Hmax.
  cbn [DateFns.differenceInCalendarDays JS.gt JS.lt].
  rewrite dayNumber_midnight, Z.ltb_ge. lia.
Qed.

End RowFacts.

(** X16. The line of the booking creation date.  With a valid creation
    date the line is drawn exactly when that day lies in the view, at the
    day index counted from the start of the view; with a creation date
    that is an invalid [Date] the position is not [null] but [NaN], since
    both comparisons with [NaN] are false. *)
Theorem booking_line_position (c s n : Z) :
  let position creation :=
    Timeline.bookingDatePosition creation (DateFns.ValidDate s) (JS.Num n) in
  (forall i,
     position (DateFns.ValidDate c) = Some (JS.Num i)
     <-> i = DateFns.dayNumber c - DateFns.dayNumber s /\ 0 <= i < n)
  /\ (position (DateFns.ValidDate c) = None
      <-> DateFns.dayNumber c < DateFns.dayNumber s
          \/ DateFns.dayNumber s + n <= DateFns.dayNumber c)
  /\ position DateFns.InvalidDate = Some JS.NaN.
Proof.
  intros position. unfold position, Timeline.bookingDatePosition.
  cbn [DateFns.differenceInCalendarDays JS.lt Timeline.ge Timeline.le].
  set (d := DateFns.dayNumber c - DateFns.dayNumber s).
  split; [|split; [|reflexivity]].
  - intros i.
    destruct (Z.ltb_spec d 0), (Z.leb_spec n d); cbn [orb]; split;
      try discriminate; try (intros [-> ?]; lia).
    + intros [= <-]. lia.
    + now intros [-> _].
  - destruct (Z.ltb_spec d 0), (Z.leb_spec n d); cbn [orb]; split;
      try discriminate; try reflexivity; unfold d in *; lia.
Qed.

(* ================================================================== *)
(** ** Properties of the handlers of the application *)
(* ================================================================== *)

Lemma handleAddToHistory_keeps (prev : list History.SearchItem)
  (item : History.SearchItem) :
  History.season item <> History.SeasonYear JS.NaN ->
  (List.length prev <= 5)%nat ->
  NoDup prev ->
  (List.length (History.handleAddToHistory prev item) <= 5)%nat
  /\ NoDup (History.handleAddToHistory prev item).
Proof.
  intros Hnan Hlen Hnd. unfold History.handleAddToHistory.
  destruct (existsb (History.sameSearch item) prev) eqn:E;
    [now split|].
  split; [rewrite sliceLast_length; lia|].
  apply NoDup_sliceLast.
  apply NoDup_app; [exact Hnd|repeat constructor; intros []|].
  intros x Hx [<-|[]].
  apply (existsb_sameSearch item prev Hnan) in Hx. congruence.
Qed.

Section AppFacts.

Variable parseFromString : string -> Dom.Document.
Variable serializeToString : Dom.node -> string.
Variable parseFloat : string -> float.
Variable responseText : string -> Z -> JS.completion string.
Variable parseISO : option string -> JS.completion DateFns.Date.

Let handleRulesLoaded := App.handleRulesLoaded parseISO.
Let handleFileChange :=
  App.handleFileChange parseFromString serializeToString parseFloat parseISO.
Let handleFetchFromAPI :=
  App.handleFetchFromAPI parseFromString serializeToString parseFloat
    responseText parseISO.
Let step :=
  App.step parseFromString serializeToString parseFloat responseText
    parseISO.

(** [handleRulesLoaded] replaces the rules and keeps the history; the
    year changes only when nothing is thrown. *)
Lemma handleRulesLoaded_state (loadedRules : list Rule.PriceRule)
  (st : App.State) :
  let result := handleRulesLoaded loadedRules st in
  App.rules (fst result) = loadedRules
  /\ App.searchHistory (fst result) = App.searchHistory st
  /\ (forall e, snd result = Some e ->
        App.year (fst result) = App.year st
        /\ Years.handleRulesLoaded parseISO loadedRules (App.year st)
           = JS.Throw e)
  /\ (snd result = None ->
      Years.handleRulesLoaded parseISO loadedRules (App.year st)
      = JS.Normal (App.year (fst result))).
Proof.
  unfold handleRulesLoaded, App.handleRulesLoaded.
  cbn [App.setRules App.year].
  destruct (Years.handleRulesLoaded parseISO loadedRules (App.year st))
    as [y|e]; cbn; repeat split; try discriminate; try reflexivity;
    congruence.
Qed.

Lemma step_keeps (st : App.State) (ev : App.event) :
  map Rule.id (App.rules st)
  = map Z.of_nat (seq 1 (List.length (App.rules st))) ->
  (List.length (App.searchHistory st) <= 5)%nat ->
  NoDup (App.searchHistory st) ->
  map Rule.id (App.rules (step st ev))
  = map Z.of_nat (seq 1 (List.length (App.rules (step st ev))))
  /\ (List.length (App.searchHistory (step st ev)) <= 5)%nat
  /\ NoDup (App.searchHistory (step st ev)).
Proof.
  intros Hids Hlen Hnd.
  destruct ev as [file|code season currentYear]; unfold step, App.step.
  - unfold App.handleFileChange.
    destruct file as [[text|e]|]; cbn [fst]; [|now split|now split].
    destruct (parseXmlRules _ _ _ text) as [parsed|e] eqn:Hparse;
      cbn [fst]; [|now split].
    destruct (handleRulesLoaded_state parsed st) as (Hr & Hh & _).
    fold handleRulesLoaded.
    destruct (handleRulesLoaded parsed st) as [st' [e|]]; cbn [fst] in *;
      rewrite Hr, Hh; (split; [|now split]);
      exact (parsed_ids _ _ _ _ _ Hparse).
  - unfold App.handleFetchFromAPI.
    destruct (JS.truthyString (Some code)); [|now split].
    destruct season as [| |yearSeason]; [now split| |].
    + set (item := {| History.accommodationCode := code;
                      History.season := History.SeasonAll |}).
      set (allRules := fetchAllSeasons _ _ _ _ _ _).
      destruct (handleRulesLoaded_state allRules
                  (App.handleAddToHistory item st)) as (Hr & Hh & _).
      fold handleRulesLoaded.
      destruct (handleRulesLoaded allRules (App.handleAddToHistory item st))
        as [st' [e|]]; cbn [fst] in *; rewrite Hr, Hh;
        (split;
         [unfold allRules, fetchAllSeasons, reassignIds, arrayMap;
          now rewrite withId_ids, mapWithIndex_length
         |apply handleAddToHistory_keeps; [discriminate|assumption..]]).
    + destruct (fetchPriceRulesFromAPI _ _ _ _ code yearSeason)
        as [allRules|e] eqn:Hfetch; cbn [fst]; [|now split].
      set (item := {| History.accommodationCode := code;
                      History.season :=
                        History.SeasonYear (JS.Num yearSeason) |}).
      destruct (handleRulesLoaded_state allRules
                  (App.handleAddToHistory item st)) as (Hr & Hh & _).
      fold handleRulesLoaded.
      assert (Hnum : map Rule.id allRules
                     = map Z.of_nat (seq 1 (List.length allRules))).
      { unfold fetchPriceRulesFromAPI in Hfetch.
        destruct (responseText code yearSeason) as [xmlText|];
          cbn [JS.bind] in Hfetch; [|discriminate].
        exact (parsed_ids _ _ _ _ _ Hfetch). }
      destruct (handleRulesLoaded allRules (App.handleAddToHistory item st))
        as [st' [e|]]; cbn [fst] in *; rewrite Hr, Hh;
        (split;
         [exact Hnum
         |apply handleAddToHistory_keeps; [discriminate|assumption..]]).
Qed.

(** X17. The state of the application under the two loaders.  Whatever
    files are chosen and whatever fetches are started, from the initial
    state on, and whatever they give or throw: the rules shown carry the
    ids 1, 2, ... in their order, so no two share an id, and the search
    history holds at most five searches, no search twice. *)
Theorem loaded_state_invariant (currentYear : Z)
  (events : list App.event) :
  let st := fold_left step events (App.initial currentYear) in
  map Rule.id (App.rules st)
  = map Z.of_nat (seq 1 (List.length (App.rules st)))
  /\ NoDup (map Rule.id (App.rules st))
  /\ (List.length (App.searchHistory st) <= 5)%nat
  /\ NoDup (App.searchHistory st).
Proof.
  cbn zeta.
  assert (Hinv : forall st,
            map Rule.id (App.rules st)
            = map Z.of_nat (seq 1 (List.length (App.rules st))) ->
            (List.length (App.searchHistory st) <= 5)%nat ->
            NoDup (App.searchHistory st) ->
            let st' := fold_left step events st in
            map Rule.id (App.rules st')
            = map Z.of_nat (seq 1 (List.length (App.rules st')))
            /\ (List.length (App.searchHistory st') <= 5)%nat
            /\ NoDup (App.searchHistory st')).
  { induction events as [|ev events IH]; intros st Hids Hlen Hnd;
      [now split|].
    cbn [fold_left].
    destruct (step_keeps st ev Hids Hlen Hnd) as (Hids' & Hlen' & Hnd').
    now apply IH. }
  destruct (Hinv (App.initial currentYear)) as (Hids & Hlen & Hnd).
  - reflexivity.
  - cbn. lia.
  - constructor.
  - split; [exact Hids|]. split; [|now split].
    exact (proj1 (ids_from_one_distinct _ _ Hids)).
Qed.

(** X18. What a click on the fetch button does to the state.  Without an
    accommodation code or a season nothing changes and the user is asked
    to fill in the fields.  A single season whose request fails changes
    nothing either: no rules, no year, no entry in the history.  With the
    season ['all'] the rules are always replaced and the search always
    recorded, also when both requests fail: the rules are then empty,
    the year stays and no alert is shown.  And when the rules arrive but
    a [parseISO] of [handleRulesLoaded] throws, the rules are replaced
    and the search is recorded all the same, the year stays, and the
    alert says that the fetch failed. *)
Theorem fetch_click_outcomes (accommodationCode : string)
  (currentYear : Z) (st : App.State) :
  let fetch season :=
    fetchPriceRulesFromAPI parseFromString serializeToString parseFloat
      responseText accommodationCode season in
  let click season :=
    handleFetchFromAPI accommodationCode season currentYear st in
  let recorded season :=
    History.handleAddToHistory (App.searchHistory st)
      {| History.accommodationCode := accommodationCode;
         History.season := season |} in
  (forall season,
     accommodationCode = EmptyString \/ season = App.NoSeason ->
     click season = (st, Some App.fillInAlert))
  /\ (forall season e,
        accommodationCode <> EmptyString ->
        fetch season = JS.Throw e ->
        click (App.OneSeason season) = (st, Some (App.fetchAlert e)))
  /\ (accommodationCode <> EmptyString ->
      App.rules (fst (click App.AllSeasons))
      = fetchAllSeasons parseFromString serializeToString parseFloat
          responseText accommodationCode currentYear
      /\ App.searchHistory (fst (click App.AllSeasons))
         = recorded History.SeasonAll
      /\ (forall e1 e2,
            fetch currentYear = JS.Throw e1 ->
            fetch (currentYear + 1) = JS.Throw e2 ->
            click App.AllSeasons
            = ({| App.rules := [];
                  App.year := App.year st;
                  App.searchHistory := recorded History.SeasonAll |},
               None)))
  /\ (forall season allRules e,
        accommodationCode <> EmptyString ->
        fetch season = JS.Normal allRules ->
        Years.handleRulesLoaded parseISO allRules (App.year st)
        = JS.Throw e ->
        click (App.OneSeason season)
        = ({| App.rules := allRules;
              App.year := App.year st;
              App.searchHistory :=
                recorded (History.SeasonYear (JS.Num season)) |},
           Some (App.fetchAlert e))).
Proof.
  intros fetch click recorded.
  assert (Htruthy : accommodationCode <> EmptyString ->
                    JS.truthyString (Some accommodationCode) = true).
  { intros Hne. cbn. apply negb_true_iff, String.eqb_neq. exact Hne. }
  unfold click, handleFetchFromAPI, App.handleFetchFromAPI.
  split; [|split; [|split]].
  - intros season [->| ->]; [reflexivity|].
    now destruct (JS.truthyString (Some accommodationCode)).
  - intros season e Hne Hfetch. rewrite (Htruthy Hne).
    unfold fetch in Hfetch. now rewrite Hfetch.
  - intros Hne. rewrite (Htruthy Hne).
    set (item := {| History.accommodationCode := accommodationCode;
                    History.season := History.SeasonAll |}).
    set (allRules := fetchAllSeasons _ _ _ _ _ _).
    destruct (handleRulesLoaded_state allRules
                (App.handleAddToHistory item st)) as (Hr & Hh & _).
    fold handleRulesLoaded.
    split; [|split].
    + destruct (handleRulesLoaded allRules (App.handleAddToHistory item st))
        as [st' [e|]]; exact Hr.
    + destruct (handleRulesLoaded allRules (App.handleAddToHistory item st))
        as [st' [e|]]; exact Hh.
    + intros e1 e2 H1 H2.
      assert (Hnone : allRules = []).
      { unfold allRules, fetchAllSeasons. cbn [fetchSeasons].
        unfold fetch in H1, H2. now rewrite H1, H2. }
      rewrite Hnone. reflexivity.
  - intros season allRules e Hne Hfetch Hthrow. rewrite (Htruthy Hne).
    unfold fetch in Hfetch. rewrite Hfetch.
    unfold App.handleRulesLoaded.
    cbn [App.setRules App.handleAddToHistory App.setSearchHistory App.year].
    now rewrite Hthrow.
Qed.

(** X19. What choosing a file does to the state.  Without a file nothing
    happens.  A file that cannot be read, or whose text the XML parser
    rejects, changes nothing and gives the alert.  A file that is parsed
    replaces the rules by the parsed ones and keeps the history; the
    alert is then shown exactly when a [parseISO] of the loop over the
    rules throws, and in that case the year stays although the rules
    have changed. *)
Theorem file_choice_outcomes (st : App.State) :
  let parse text :=
    parseXmlRules parseFromString serializeToString parseFloat text in
  handleFileChange None st = (st, None)
  /\ (forall e,
        handleFileChange (Some (JS.Throw e)) st = (st, Some App.fileAlert))
  /\ (forall text e,
        parse text = JS.Throw e ->
        handleFileChange (Some (JS.Normal text)) st
        = (st, Some App.fileAlert))
  /\ (forall text parsed,
        parse text = JS.Normal parsed ->
        let result := handleFileChange (Some (JS.Normal text)) st in
        App.rules (fst result) = parsed
        /\ App.searchHistory (fst result) = App.searchHistory st
        /\ (snd result = None
            <-> Years.handleRulesLoaded parseISO parsed (App.year st)
                = JS.Normal (App.year (fst result)))
        /\ (snd result <> None ->
            snd result = Some App.fileAlert
            /\ App.year (fst result) = App.year st)).
Proof.
  intros parse. unfold handleFileChange, App.handleFileChange.
  split; [reflexivity|]. split; [reflexivity|]. split.
  - intros text e Hparse. unfold parse in Hparse. now rewrite Hparse.
  - intros text parsed Hparse. unfold parse in Hparse. rewrite Hparse.
    destruct (handleRulesLoaded_state parsed st) as (Hr & Hh & Hthrow & Hok).
    fold handleRulesLoaded.
    destruct (handleRulesLoaded parsed st) as [st' [e|]];
      cbn [fst snd] in *.
    + destruct (Hthrow e eq_refl) as [Hy Hrun].
      split; [exact Hr|]. split; [exact Hh|]. split.
      * split; [discriminate|]. rewrite Hrun. discriminate.
      * intros _. now split.
    + split; [exact Hr|]. split; [exact Hh|]. split.
      * split; [intros _; now apply Hok|reflexivity].
      * intros Hne. now contradiction Hne.
Qed.

End AppFacts.

(* ================================================================== *)
(** ** The application state and the timeline on the worked data *)
(* ================================================================== *)

(** A sixth search pushes the oldest one out of a full history. *)
Lemma sixth_search_drops_the_oldest :
  let history :=
    History.handleAddToHistory SampleView.fiveSearches
      SampleView.sixthSearch in
  history = tl SampleView.fiveSearches ++ [SampleView.sixthSearch]
  /\ History.handleAddToHistory history SampleView.sixthSearch = history.
Proof.
  destruct (history_add_step SampleView.fiveSearches SampleView.sixthSearch)
    as (_ & _ & Hfull & Hidem).
  - cbn. lia.
  - discriminate.
  - split; [|exact Hidem].
    apply Hfull; [|reflexivity].
    intros [H|[H|[H|[H|[H|[]]]]]]; discriminate H.
Defined.

(** The bookings in the other order: the ids come in the order of their
    first match. *)
Lemma highlighted_ids_autumn_first :
  highlightedRuleIds Sample.parseISO [Sample.autumn; Sample.spring]
    SampleView.threeRules Sample.newYear
  = JS.Normal [2; 3; 1].
Proof.
  rewrite (highlighted_ids_from_rows Sample.parseISO
             [Sample.autumn; Sample.spring] SampleView.threeRules
             Sample.newYear).
  - reflexivity.
  - intros entry [<-|[<-|[]]]; eexists; vm_compute; reflexivity.
Defined.

(** Summer 2025 and winter 2025/26: the rule years are 2025 to 2026. *)
Lemma two_seasons_rule_years :
  exists ry,
    Years.ruleYears Sample.parseISO SampleView.twoSeasons
    = JS.Normal (Some ry)
    /\ isMinimumOf (Years.min ry)
         (validYears Sample.parseISO Rule.from SampleView.twoSeasons)
    /\ isMaximumOf (Years.max ry)
         (validYears Sample.parseISO Rule.to SampleView.twoSeasons).
Proof.
  apply (rule_years_bounds Sample.parseISO SampleView.twoSeasons).
  - intros r [<-|[<-|[]]]; eexists; eexists; split; vm_compute; reflexivity.
  - discriminate.
Defined.

(** Loading the two seasons while 2030 is shown moves the view to 2025. *)
Lemma two_seasons_loaded :
  exists shown,
    Years.handleRulesLoaded Sample.parseISO SampleView.twoSeasons 2030
    = JS.Normal shown
    /\ shown = 2025.
Proof.
  destruct (loaded_year_in_rule_years Sample.parseISO SampleView.twoSeasons
              2030)
    as (shown & Hrun & _ & Hmin & _).
  - intros r [<-|[<-|[]]]; eexists; eexists; split; vm_compute; reflexivity.
  - exists shown. split; [exact Hrun|].
    destruct Hmin as [Hin Hle]; [discriminate|].
    vm_compute in Hin.
    destruct Hin as [H|[H|[H|[H|[]]]]]; try (symmetry; exact H).
    specialize (Hle 2025 ltac:(vm_compute; tauto)). lia.
Defined.

(** Clicks from December 2025 under the rule years 2025 to 2026. *)
Lemma clicks_stay_in_rule_years :
  inRuleYears 2025 2026
    (fold_left (Years.perform SampleView.ruleYears)
       [Years.NextMonth; Years.NextMonth; Years.NextYear; Years.NextYear;
        Years.PreviousMonth; Years.MonthTick 3; Years.PreviousYear;
        Years.PreviousYear]
       (2025, 11)).
Proof.
  apply (navigation_stays_in_rule_years 2025 2026).
  unfold inRuleYears. cbn. lia.
Defined.

(** December of the last rule year: the next-month button is disabled
    and a click on it would change nothing. *)
Lemma december_of_the_last_year :
  Years.nextMonthDisabled SampleView.ruleYears 2026 11 = true
  /\ Years.navigateMonth SampleView.ruleYears 2026 11 1 = (2026, 11).
Proof.
  destruct (month_buttons_match_navigation SampleView.ruleYears 2026 11)
    as (_ & Hnext & _).
  - lia.
  - assert (Hd : Years.nextMonthDisabled SampleView.ruleYears 2026 11 = true)
      by reflexivity.
    split; [exact Hd|]. apply Hnext. exact Hd.
Defined.

(** The leap year 2024 has 366 days and its February 29. *)
Lemma leap_year_view :
  Timeline.totalDays (Timeline.viewRange Timeline.YearView 2024 1)
  = JS.Num 366
  /\ Timeline.totalDays (Timeline.viewRange Timeline.MonthView 2024 1)
     = JS.Num 29.
Proof.
  destruct (view_total_days 2024 1) as ((_ & Hyear & _) & (_ & Hmonth & _)).
  - lia.
  - lia.
  - rewrite Hyear, Hmonth. split; reflexivity.
Defined.

(** The summer rule in the year view of 2025: its bar covers the day
    indices 151 (1 June) to 242 (31 August). *)
Lemma summer_bar_in_2025 :
  exists row a b,
    Timeline.ruleRow Sample.parseISO SampleView.formatValid
      SampleView.yearStart (JS.Num 365) [1] Sample.summer
    = JS.Normal (Some row)
    /\ Timeline.ruleStartIdx row = JS.Num a
    /\ Timeline.ruleEndIdx row = JS.Num b
    /\ forall i, a <= i <= b <-> 151 <= i <= 242.
Proof.
  destruct (Timeline.ruleRow Sample.parseISO SampleView.formatValid
              SampleView.yearStart (JS.Num 365) [1] Sample.summer)
    as [[row|]|e] eqn:Hrow;
    [|vm_compute in Hrow; discriminate|vm_compute in Hrow; discriminate].
  destruct (rule_row_bar Sample.parseISO SampleView.formatValid _ _ _ _ _
              Hrow)
    as (f & t & Hf & Ht & _ & Hbar).
  assert (Hdf : DateFns.dayNumber f = DateFns.daysFromCivil 2025 6 1).
  { vm_compute in Hf. injection Hf as <-. vm_compute. reflexivity. }
  assert (Hdt : DateFns.dayNumber t = DateFns.daysFromCivil 2025 8 31).
  { vm_compute in Ht. injection Ht as <-. vm_compute. reflexivity. }
  assert (Hds : DateFns.dayNumber (Sample.midnight 2025 1 1)
                = DateFns.daysFromCivil 2025 1 1)
    by (vm_compute; reflexivity).
  assert (H6 : DateFns.daysFromCivil 2025 6 1
               = DateFns.daysFromCivil 2025 1 1 + 151)
    by (vm_compute; reflexivity).
  assert (H8 : DateFns.daysFromCivil 2025 8 31
               = DateFns.daysFromCivil 2025 1 1 + 242)
    by (vm_compute; reflexivity).
  destruct (Hbar (Sample.midnight 2025 1 1) 365 eq_refl eq_refl)
    as [Hvis Hidx]; [lia|lia|].
  destruct Hidx as (a & b & Ha & Hb & Hiff).
  { apply Hvis. exists 151. lia. }
  exists row, a, b. split; [reflexivity|].
  split; [exact Ha|]. split; [exact Hb|].
  intros i. rewrite Hiff. lia.
Defined.

(** A booking in spring: the row of the first half-year is highlighted,
    as that rule allows the booking. *)
Lemma first_half_row_highlighted :
  exists row,
    Timeline.ruleRow Sample.parseISO SampleView.formatValid
      SampleView.yearStart (JS.Num 365) [1; 2] Sample.firstHalf
    = JS.Normal (Some row)
    /\ Timeline.highlight row = true.
Proof.
  destruct (Timeline.ruleRow Sample.parseISO SampleView.formatValid
              SampleView.yearStart (JS.Num 365) [1; 2] Sample.firstHalf)
    as [[row|]|e] eqn:Hrow;
    [|vm_compute in Hrow; discriminate|vm_compute in Hrow; discriminate].
  exists row. split; [reflexivity|].
  apply (row_highlight_iff_match Sample.parseISO SampleView.formatValid
           [Sample.spring] SampleView.threeRules Sample.newYear
           SampleView.yearStart (JS.Num 365) [1; 2] Sample.firstHalf row).
  - cbn. repeat constructor; cbn; intros H; intuition discriminate.
  - cbn. tauto.
  - intros r entry [<-|[<-|[<-|[]]]] [<-|[]]; eexists; vm_compute;
      reflexivity.
  - vm_compute. reflexivity.
  - exact Hrow.
  - exists Sample.spring. split; [cbn; tauto|vm_compute; reflexivity].
Defined.

(** The summer rule, bookable 180 days ahead, in the year view of 2025:
    the shadow runs from the start of the year to the day before the
    rule starts. *)
Lemma summer_shadow_in_2025 :
  exists row sh a b,
    Timeline.ruleRow Sample.parseISO SampleView.formatValid
      SampleView.yearStart (JS.Num 365) [] Sample.summer
    = JS.Normal (Some row)
    /\ Timeline.shadowOverlay row = Some sh
    /\ Timeline.visibleStartIdx sh = JS.Num a
    /\ Timeline.visibleEndIdx sh = JS.Num b
    /\ a <= b.
Proof.
  destruct (Timeline.ruleRow Sample.parseISO SampleView.formatValid
              SampleView.yearStart (JS.Num 365) [] Sample.summer)
    as [[row|]|e] eqn:Hrow;
    [|vm_compute in Hrow; discriminate|vm_compute in Hrow; discriminate].
  destruct (Timeline.shadowOverlay row) as [sh|] eqn:Hsh;
    [|vm_compute in Hrow; injection Hrow as <-; discriminate Hsh].
  destruct (shadow_marks_booking_window Sample.parseISO
              SampleView.formatValid SampleView.yearStart (JS.Num 365) []
              Sample.summer row sh (Sample.midnight 2025 1 1) 365
              Hrow Hsh eq_refl eq_refl)
    as (f & m & a & b & _ & _ & Ha & Hb & Hle & _).
  exists row, sh, a, b.
  split; [reflexivity|]. split; [exact Hsh|].
  split; [exact Ha|]. split; [exact Hb|exact Hle].
Defined.

(** A fetched rule without a [from], with a [parseISO] that throws on
    [null]: the rule is shown, the search is recorded, and the alert
    reports a failed fetch. *)
Example rule_without_from_fetched :
  let result :=
    App.handleFetchFromAPI SampleView.parseOpenStart
      Sample.serializeToString Sample.parseFloat Sample.responseText
      Sample.parseISO "A1" (App.OneSeason 2025) 2025 (App.initial 2024) in
  map Rule.from (App.rules (fst result)) = [None]
  /\ App.year (fst result) = 2024
  /\ App.searchHistory (fst result) = [SampleView.search "A1" 2025]
  /\ snd result
     = Some "Failed to fetch price rules from API: Cannot read properties of null".
Proof. cbn zeta. repeat split; vm_compute; reflexivity. Qed.
